(** * Med Genie: vital-sign classifier and conversation orchestration

    A shallow embedding of the vital-signs tracker component
    ([VitalSignsTracker]: [normalRanges], [getVitalStatus], [getVitalColor],
    [renderVitalCard], [handleManualEntry]) and of the page component
    ([HomePage]: [handleFeedback], [handleSubmitQuestion], [handleSaveProfile],
    [handleCloseProfileModal], [handleVitalSignsUpdate]).

    JavaScript numbers are IEEE 754 binary64 values, modelled by Rocq's
    primitive floats; [Date.now()] readings are integers.

    The second half covers the rest of these components (what the tracker
    displays, saving from the profile editor) and the two other components of
    the page: the SOS button and the prescription analyzer. *)

From Stdlib Require Import ZArith List String Ascii Bool Lia Sorted Permutation.
From Stdlib Require Import Floats DecimalString.
Import ListNotations.

Set Warnings "-inexact-float".
Local Open Scope string_scope.

(** ** A small fragment of JavaScript *)

(** Outcome of an expression that may throw a [TypeError] (reading a property
    of [undefined]). *)
Inductive result (A : Type) : Type :=
| Ok (a : A)
| TypeError.
Arguments Ok {A} a.
Arguments TypeError {A}.

Definition result_bind {A B} (r : result A) (k : A -> result B) : result B :=
  match r with
  | Ok a => k a
  | TypeError => TypeError
  end.

(** Truthiness of a number: [+0], [-0] and [NaN] are falsy. *)
Definition number_truthy (x : float) : bool :=
  negb (PrimFloat.eqb x 0%float) && negb (PrimFloat.is_nan x).

(** Truthiness of a string: only the empty string is falsy. *)
Definition string_truthy (s : string) : bool :=
  negb (String.eqb s EmptyString).

(** ** Vital signs (src/lib/types.ts) *)

(** The measurement keys of [VitalSigns]. *)
Module VitalKind.
Inductive t : Type :=
| heartRate
| bloodPressure
| temperature
| oxygenSaturation
| bloodGlucose
| steps
| sleepHours.
End VitalKind.
Abbreviation VitalKind := VitalKind.t.
Import VitalKind.

(** [keyof VitalSigns]: the measurement keys and [timestamp]. *)
Inductive VitalKey : Type :=
| KTimestamp
| KVital (k : VitalKind).

Definition VitalKind_eqb (a b : VitalKind) : bool :=
  match a, b with
  | heartRate, heartRate
  | bloodPressure, bloodPressure
  | temperature, temperature
  | oxygenSaturation, oxygenSaturation
  | bloodGlucose, bloodGlucose
  | steps, steps
  | sleepHours, sleepHours => true
  | _, _ => false
  end.

Definition VitalKey_eqb (a b : VitalKey) : bool :=
  match a, b with
  | KTimestamp, KTimestamp => true
  | KVital x, KVital y => VitalKind_eqb x y
  | _, _ => false
  end.

(** The [bloodPressure] object of a reading. *)
Module BloodPressure.
Record t : Type := mk { systolic : float; diastolic : float }.
End BloodPressure.

(** What a measurement field holds at run time: a number, or the
    [{systolic, diastolic}] object.  [renderVitalCard] takes [value: any] and
    hands it to [getVitalStatus] unchanged, so both shapes reach the
    classifier. *)
Inductive VitalValue : Type :=
| VNumber (x : float)
| VPressure (bp : BloodPressure.t).

(** [ToNumber]: a plain object converts through ["[object Object]"] to [NaN]. *)
Definition ToNumber (v : VitalValue) : float :=
  match v with
  | VNumber x => x
  | VPressure _ => PrimFloat.nan
  end.

(** [value < bound] and [value > bound] on a value of any shape. *)
Definition js_lt (v : VitalValue) (bound : float) : bool :=
  PrimFloat.ltb (ToNumber v) bound.

Definition js_gt (v : VitalValue) (bound : float) : bool :=
  PrimFloat.ltb bound (ToNumber v).

(** Truthiness of a measurement value: objects are always truthy. *)
Definition value_truthy (v : VitalValue) : bool :=
  match v with
  | VNumber x => number_truthy x
  | VPressure _ => true
  end.

Module VitalSigns.
Record t : Type := mk {
  timestamp : Z;
  heartRate : option VitalValue;
  bloodPressure : option VitalValue;
  temperature : option VitalValue;
  oxygenSaturation : option VitalValue;
  bloodGlucose : option VitalValue;
  steps : option VitalValue;
  sleepHours : option VitalValue
}.

(** [{ timestamp: ts }] *)
Definition only_timestamp (ts : Z) : t :=
  mk ts None None None None None None None.

(** [reading[k]] *)
Definition get (r : t) (k : VitalKind) : option VitalValue :=
  match k with
  | VitalKind.heartRate => heartRate r
  | VitalKind.bloodPressure => bloodPressure r
  | VitalKind.temperature => temperature r
  | VitalKind.oxygenSaturation => oxygenSaturation r
  | VitalKind.bloodGlucose => bloodGlucose r
  | VitalKind.steps => steps r
  | VitalKind.sleepHours => sleepHours r
  end.

(** [{ ...reading, [k]: v }] *)
Definition set (r : t) (k : VitalKind) (v : option VitalValue) : t :=
  match k with
  | VitalKind.heartRate =>
      mk (timestamp r) v (bloodPressure r) (temperature r)
         (oxygenSaturation r) (bloodGlucose r) (steps r) (sleepHours r)
  | VitalKind.bloodPressure =>
      mk (timestamp r) (heartRate r) v (temperature r)
         (oxygenSaturation r) (bloodGlucose r) (steps r) (sleepHours r)
  | VitalKind.temperature =>
      mk (timestamp r) (heartRate r) (bloodPressure r) v
         (oxygenSaturation r) (bloodGlucose r) (steps r) (sleepHours r)
  | VitalKind.oxygenSaturation =>
      mk (timestamp r) (heartRate r) (bloodPressure r) (temperature r)
         v (bloodGlucose r) (steps r) (sleepHours r)
  | VitalKind.bloodGlucose =>
      mk (timestamp r) (heartRate r) (bloodPressure r) (temperature r)
         (oxygenSaturation r) v (steps r) (sleepHours r)
  | VitalKind.steps =>
      mk (timestamp r) (heartRate r) (bloodPressure r) (temperature r)
         (oxygenSaturation r) (bloodGlucose r) v (sleepHours r)
  | VitalKind.sleepHours =>
      mk (timestamp r) (heartRate r) (bloodPressure r) (temperature r)
         (oxygenSaturation r) (bloodGlucose r) (steps r) v
  end.
End VitalSigns.

(** ** The range table (vital-signs tracker, [normalRanges]) *)

Module Range.
Record t : Type := mk { min : float; max : float }.
End Range.

Module PressureRange.
Record t : Type := mk { systolic : Range.t; diastolic : Range.t }.
End PressureRange.

(** An entry of [normalRanges]: [{min, max}], or for blood pressure
    [{systolic: {min, max}, diastolic: {min, max}}]. *)
Inductive RangeEntry : Type :=
| ScalarEntry (r : Range.t)
| PressureEntry (p : PressureRange.t).

Definition normalRanges (k : VitalKind) : RangeEntry :=
  match k with
  | heartRate => ScalarEntry (Range.mk 60 100)
  | bloodPressure =>
      PressureEntry (PressureRange.mk (Range.mk 90 140) (Range.mk 60 90))
  | temperature => ScalarEntry (Range.mk 36.1 37.2)
  | oxygenSaturation => ScalarEntry (Range.mk 95 100)
  | bloodGlucose => ScalarEntry (Range.mk 70 140)
  | steps => ScalarEntry (Range.mk 0 10000)
  | sleepHours => ScalarEntry (Range.mk 7 9)
  end.

(** The six scalar kinds of the range table. *)
Definition scalarKinds : list VitalKind :=
  [heartRate; temperature; oxygenSaturation; bloodGlucose; steps; sleepHours].

(** [normalRanges[type]]: [undefined] for a key the table does not have. *)
Definition normalRanges_at (type : VitalKey) : option RangeEntry :=
  match type with
  | KTimestamp => None
  | KVital k => Some (normalRanges k)
  end.

(** ** The classifier *)

Definition getVitalStatus (type : VitalKey) (value : VitalValue)
  : result string :=
  match normalRanges_at type with
  | None => Ok "normal"
  | Some range =>
      if VitalKey_eqb type (KVital bloodPressure) then
        match range with
        | PressureEntry bpRange =>
            if js_gt value (Range.max (PressureRange.systolic bpRange))
               || js_lt value (Range.min (PressureRange.systolic bpRange))
            then Ok "warning"
            else Ok "normal"
        | ScalarEntry _ => TypeError (* bpRange.systolic is undefined *)
        end
      else
        match range with
        | ScalarEntry r =>
            if js_lt value (Range.min r) || js_gt value (Range.max r)
            then Ok "warning"
            else Ok "normal"
        | PressureEntry _ =>
            (* range.min and range.max are undefined: both tests are false *)
            Ok "normal"
        end
  end.

Definition getVitalColor (type : VitalKey) (value : VitalValue)
  : result string :=
  result_bind (getVitalStatus type value) (fun status =>
  Ok (if String.eqb status "warning" then "text-red-600" else "text-green-600")).

(** The parts of a rendered card that depend on the status: the badge
    variant, the badge text and the colour class of the value. *)
Module VitalCard.
Record t : Type := mk {
  key : VitalKey;
  label : string;
  unit : string;
  badgeVariant : string;
  badgeText : string;
  valueClass : string
}.
End VitalCard.

Definition renderVitalCard (type : VitalKey) (value : VitalValue)
    (label unit : string) : result VitalCard.t :=
  result_bind (getVitalColor type value) (fun color =>
  result_bind (getVitalStatus type value) (fun status =>
  Ok (VitalCard.mk type label unit
        (if String.eqb status "warning" then "destructive" else "secondary")
        (if String.eqb status "warning" then "Alert" else "Normal")
        color))).

Definition vitalSignsLabels (k : VitalKind) : string :=
  match k with
  | heartRate => "Heart Rate"
  | bloodPressure => "Blood Pressure"
  | temperature => "Temperature"
  | oxygenSaturation => "Oxygen Saturation"
  | bloodGlucose => "Blood Glucose"
  | steps => "Steps"
  | sleepHours => "Sleep Hours"
  end.

(** [latestVitals.k && renderVitalCard('k', latestVitals.k, ...)]: a card is
    rendered only for a truthy field.  The unit text is passed through. *)
Definition vitalCardOf (latestVitals : VitalSigns.t) (k : VitalKind)
    (unit : string) : option (result VitalCard.t) :=
  match VitalSigns.get latestVitals k with
  | None => None
  | Some value =>
      if value_truthy value
      then Some (renderVitalCard (KVital k) value (vitalSignsLabels k) unit)
      else None
  end.

(** ** Chat messages and the user profile (src/lib/types.ts) *)

Inductive Sender : Type := user | ai.

Inductive Feedback : Type := good | bad.

Module ChatMessage.
Record t : Type := mk {
  id : string;
  text : string;
  sender : Sender;
  timestamp : Z;
  isLoading : option bool;
  feedback : option Feedback;
  isFollowUpPrompt : option bool;
  originalQuestion : option string
}.

(** [{ ...msg, feedback }] *)
Definition with_feedback (msg : t) (fb : Feedback) : t :=
  mk (id msg) (text msg) (sender msg) (timestamp msg) (isLoading msg)
     (Some fb) (isFollowUpPrompt msg) (originalQuestion msg).
End ChatMessage.

Inductive Gender : Type := male | female | other.

Module EmergencyContact.
Record t : Type := mk { name : string; phone : string; relationship : string }.
End EmergencyContact.

(** [AISuggestedKey = keyof UserProfile] *)
Module AISuggestedKey.
Inductive t : Type :=
| age
| weight
| height
| gender
| medicalHistory
| currentMedications
| allergies
| lifestyle
| symptoms
| emergencyContact.
End AISuggestedKey.

(** A value read from the profile by key: [userProfile[key]]. *)
Inductive ProfileValue : Type :=
| PNumber (x : float)
| PGender (g : Gender)
| PText (s : string)
| PContact (c : EmergencyContact.t).

Module UserProfile.
Record t : Type := mk {
  age : option float;
  weight : option float;
  height : option float;
  gender : option Gender;
  medicalHistory : option string;
  currentMedications : option string;
  allergies : option string;
  lifestyle : option string;
  symptoms : option string;
  emergencyContact : option EmergencyContact.t
}.

(** [{}] *)
Definition empty : t := mk None None None None None None None None None None.

(** [userProfile[key]] *)
Definition get (p : t) (key : AISuggestedKey.t) : option ProfileValue :=
  match key with
  | AISuggestedKey.age => option_map PNumber (age p)
  | AISuggestedKey.weight => option_map PNumber (weight p)
  | AISuggestedKey.height => option_map PNumber (height p)
  | AISuggestedKey.gender => option_map PGender (gender p)
  | AISuggestedKey.medicalHistory => option_map PText (medicalHistory p)
  | AISuggestedKey.currentMedications => option_map PText (currentMedications p)
  | AISuggestedKey.allergies => option_map PText (allergies p)
  | AISuggestedKey.lifestyle => option_map PText (lifestyle p)
  | AISuggestedKey.symptoms => option_map PText (symptoms p)
  | AISuggestedKey.emergencyContact => option_map PContact (emergencyContact p)
  end.
End UserProfile.

(** ** Strings *)

Definition nl : string := String (ascii_of_nat 10) EmptyString.

(** [`${n}`] for an integer [n]. *)
Definition string_of_Z (n : Z) : string :=
  NilZero.string_of_int (Z.to_int n).

(** [xs.join(sep)] *)
Definition join (sep : string) (xs : list string) : string :=
  String.concat sep xs.

(** Text is held as its UTF-8 encoding.  [trim] removes the white space and
    the line terminators of ECMAScript from both ends.  In one byte: tab,
    line feed, vertical tab, form feed, carriage return and space. *)
Definition isWhiteSpace (c : ascii) : bool :=
  let n := nat_of_ascii c in
  ((9 <=? n) && (n <=? 13))%nat || (n =? 32)%nat.

(** In two bytes: U+00A0 (no-break space). *)
Definition isWhiteSpace2 (c1 c2 : ascii) : bool :=
  ((nat_of_ascii c1 =? 194) && (nat_of_ascii c2 =? 160))%nat.

(** In three bytes: U+1680, U+2000 to U+200A, U+2028, U+2029, U+202F, U+205F,
    U+3000 and U+FEFF. *)
Definition isWhiteSpace3 (c1 c2 c3 : ascii) : bool :=
  let b1 := nat_of_ascii c1 in
  let b2 := nat_of_ascii c2 in
  let b3 := nat_of_ascii c3 in
  ((b1 =? 225) && (b2 =? 154) && (b3 =? 128)
   || (b1 =? 226) && (b2 =? 128)
      && ((128 <=? b3) && (b3 <=? 138) || (b3 =? 168) || (b3 =? 169)
          || (b3 =? 175))
   || (b1 =? 226) && (b2 =? 129) && (b3 =? 159)
   || (b1 =? 227) && (b2 =? 128) && (b3 =? 128)
   || (b1 =? 239) && (b2 =? 187) && (b3 =? 191))%nat.

(** Drops the white space at the start. *)
Fixpoint trimStart (s : string) : string :=
  match s with
  | EmptyString => EmptyString
  | String c1 rest1 =>
      if isWhiteSpace c1 then trimStart rest1
      else
        match rest1 with
        | EmptyString => s
        | String c2 rest2 =>
            if isWhiteSpace2 c1 c2 then trimStart rest2
            else
              match rest2 with
              | EmptyString => s
              | String c3 rest3 =>
                  if isWhiteSpace3 c1 c2 c3 then trimStart rest3 else s
              end
        end
  end.

(** Drops the white space at the end: a white-space character is kept only
    when something is kept after it; any other byte is kept. *)
Fixpoint trimEnd (s : string) : string :=
  match s with
  | EmptyString => EmptyString
  | String c1 rest1 =>
      if isWhiteSpace c1 then
        match trimEnd rest1 with
        | EmptyString => EmptyString
        | kept => String c1 kept
        end
      else
        match rest1 with
        | EmptyString => String c1 EmptyString
        | String c2 rest2 =>
            if isWhiteSpace2 c1 c2 then
              match trimEnd rest2 with
              | EmptyString => EmptyString
              | kept => String c1 (String c2 kept)
              end
            else
              match rest2 with
              | EmptyString => String c1 (trimEnd rest1)
              | String c3 rest3 =>
                  if isWhiteSpace3 c1 c2 c3 then
                    match trimEnd rest3 with
                    | EmptyString => EmptyString
                    | kept => String c1 (String c2 (String c3 kept))
                    end
                  else String c1 (trimEnd rest1)
              end
        end
  end.

Definition trim (s : string) : string := trimEnd (trimStart s).

(** ** The question-answering collaborator *)

(** The request object built by [handleSubmitQuestion] and
    [handleSaveProfile]. *)
Module QAInput.
Record t : Type := mk {
  question : string;
  age : option float;
  weight : option float;
  height : option float;
  gender : option Gender;
  medicalHistory : option string;
  currentMedications : option string;
  allergies : option string;
  lifestyle : option string;
  symptoms : option string;
  vitalSigns : option VitalSigns.t
}.
End QAInput.

(** Modelled from the spec: the response type
    [PersonalizedHealthQuestionAnsweringOutput] is declared in the flow module
    [@/ai/flows/personalized-health-question-answering]; the response is
    [{answer, followUpQuestion?, suggestedKey?, healthInsights?,
    recommendations?}], the two lists being ordered lists of text. *)
Module QAOutput.
Record t : Type := mk {
  answer : string;
  followUpQuestion : option string;
  suggestedKey : option AISuggestedKey.t;
  healthInsights : option (list string);
  recommendations : option (list string)
}.
End QAOutput.

(** How the promise returned by the collaborator settles. *)
Inductive Outcome : Type :=
| Resolved (result : QAOutput.t)
| Rejected.

(** ** The world: component state and environment *)

Module Toast.
Record t : Type := mk {
  variant : option string;
  title : string;
  description : string
}.
End Toast.

(** The state of [HomePage] and of [VitalSignsTracker] that the handlers read
    or write, the toasts shown, the requests sent to the collaborator, and the
    clock: [clock n] is what the [n]-th call of [Date.now()] returns and
    [ticks] counts the calls made so far.  Console output is not recorded. *)
Record World : Type := mkWorld {
  messages : list ChatMessage.t;
  isLoading : bool;
  userProfile : UserProfile.t;
  vitalSigns : list VitalSigns.t;
  isProfileModalOpen : bool;
  currentAiFollowUpKey : option AISuggestedKey.t;
  lastUserQuestionForFollowUp : option string;
  isManualEntryOpen : bool;
  manualVitals : VitalKind -> option float;
  selectedVitalType : VitalKind;
  toasts : list Toast.t;
  requests : list QAInput.t;
  clock : nat -> Z;
  ticks : nat
}.

(** A handler is a computation on the world. *)
Definition M (A : Type) : Type := World -> A * World.

Definition ret {A} (a : A) : M A := fun w => (a, w).

Definition bind {A B} (c : M A) (k : A -> M B) : M B :=
  fun w => let (a, w') := c w in k a w'.

Declare Scope handler_scope.
Delimit Scope handler_scope with handler.
Notation "x <- c ;; k" := (bind c (fun x => k))
  (at level 61, c at next level, right associativity) : handler_scope.
Notation "c ;; k" := (bind c (fun _ => k))
  (at level 61, right associativity) : handler_scope.
Local Open Scope handler_scope.

(** The world after running a handler. *)
Definition exec {A} (c : M A) (w : World) : World := snd (c w).

Definition when (b : bool) (c : M unit) : M unit :=
  if b then c else ret tt.

(** [Date.now()] *)
Definition Date_now : M Z :=
  fun w =>
    (clock w (ticks w),
     mkWorld (messages w) (isLoading w) (userProfile w) (vitalSigns w)
       (isProfileModalOpen w) (currentAiFollowUpKey w)
       (lastUserQuestionForFollowUp w) (isManualEntryOpen w) (manualVitals w)
       (selectedVitalType w) (toasts w) (requests w) (clock w) (S (ticks w))).

(** The state setters.  [setMessages] and [setVitalSigns] are always called
    with an updater function, the others with a value. *)
Definition setMessages (f : list ChatMessage.t -> list ChatMessage.t) : M unit :=
  fun w =>
    (tt,
     mkWorld (f (messages w)) (isLoading w) (userProfile w) (vitalSigns w)
       (isProfileModalOpen w) (currentAiFollowUpKey w)
       (lastUserQuestionForFollowUp w) (isManualEntryOpen w) (manualVitals w)
       (selectedVitalType w) (toasts w) (requests w) (clock w) (ticks w)).

Definition setIsLoading (b : bool) : M unit :=
  fun w =>
    (tt,
     mkWorld (messages w) b (userProfile w) (vitalSigns w)
       (isProfileModalOpen w) (currentAiFollowUpKey w)
       (lastUserQuestionForFollowUp w) (isManualEntryOpen w) (manualVitals w)
       (selectedVitalType w) (toasts w) (requests w) (clock w) (ticks w)).

Definition setUserProfile (p : UserProfile.t) : M unit :=
  fun w =>
    (tt,
     mkWorld (messages w) (isLoading w) p (vitalSigns w)
       (isProfileModalOpen w) (currentAiFollowUpKey w)
       (lastUserQuestionForFollowUp w) (isManualEntryOpen w) (manualVitals w)
       (selectedVitalType w) (toasts w) (requests w) (clock w) (ticks w)).

Definition setVitalSigns (f : list VitalSigns.t -> list VitalSigns.t) : M unit :=
  fun w =>
    (tt,
     mkWorld (messages w) (isLoading w) (userProfile w) (f (vitalSigns w))
       (isProfileModalOpen w) (currentAiFollowUpKey w)
       (lastUserQuestionForFollowUp w) (isManualEntryOpen w) (manualVitals w)
       (selectedVitalType w) (toasts w) (requests w) (clock w) (ticks w)).

Definition setIsProfileModalOpen (b : bool) : M unit :=
  fun w =>
    (tt,
     mkWorld (messages w) (isLoading w) (userProfile w) (vitalSigns w)
       b (currentAiFollowUpKey w)
       (lastUserQuestionForFollowUp w) (isManualEntryOpen w) (manualVitals w)
       (selectedVitalType w) (toasts w) (requests w) (clock w) (ticks w)).

Definition setCurrentAiFollowUpKey (k : option AISuggestedKey.t) : M unit :=
  fun w =>
    (tt,
     mkWorld (messages w) (isLoading w) (userProfile w) (vitalSigns w)
       (isProfileModalOpen w) k
       (lastUserQuestionForFollowUp w) (isManualEntryOpen w) (manualVitals w)
       (selectedVitalType w) (toasts w) (requests w) (clock w) (ticks w)).

Definition setLastUserQuestionForFollowUp (q : option string) : M unit :=
  fun w =>
    (tt,
     mkWorld (messages w) (isLoading w) (userProfile w) (vitalSigns w)
       (isProfileModalOpen w) (currentAiFollowUpKey w)
       q (isManualEntryOpen w) (manualVitals w)
       (selectedVitalType w) (toasts w) (requests w) (clock w) (ticks w)).

Definition setIsManualEntryOpen (b : bool) : M unit :=
  fun w =>
    (tt,
     mkWorld (messages w) (isLoading w) (userProfile w) (vitalSigns w)
       (isProfileModalOpen w) (currentAiFollowUpKey w)
       (lastUserQuestionForFollowUp w) b (manualVitals w)
       (selectedVitalType w) (toasts w) (requests w) (clock w) (ticks w)).

Definition setManualVitals
    (f : (VitalKind -> option float) -> (VitalKind -> option float)) : M unit :=
  fun w =>
    (tt,
     mkWorld (messages w) (isLoading w) (userProfile w) (vitalSigns w)
       (isProfileModalOpen w) (currentAiFollowUpKey w)
       (lastUserQuestionForFollowUp w) (isManualEntryOpen w)
       (f (manualVitals w))
       (selectedVitalType w) (toasts w) (requests w) (clock w) (ticks w)).

Definition setSelectedVitalType (k : VitalKind) : M unit :=
  fun w =>
    (tt,
     mkWorld (messages w) (isLoading w) (userProfile w) (vitalSigns w)
       (isProfileModalOpen w) (currentAiFollowUpKey w)
       (lastUserQuestionForFollowUp w) (isManualEntryOpen w) (manualVitals w)
       k (toasts w) (requests w) (clock w) (ticks w)).

(** [toast({...})]: the notification is shown after those already shown. *)
Definition toast (t : Toast.t) : M unit :=
  fun w =>
    (tt,
     mkWorld (messages w) (isLoading w) (userProfile w) (vitalSigns w)
       (isProfileModalOpen w) (currentAiFollowUpKey w)
       (lastUserQuestionForFollowUp w) (isManualEntryOpen w) (manualVitals w)
       (selectedVitalType w) (toasts w ++ [t]) (requests w) (clock w) (ticks w)).

(** [await personalizedHealthQuestionAnswering(input)]: the request is sent
    once and the promise settles with the given outcome. *)
Definition personalizedHealthQuestionAnswering (input : QAInput.t)
    (outcome : Outcome) : M Outcome :=
  fun w =>
    (outcome,
     mkWorld (messages w) (isLoading w) (userProfile w) (vitalSigns w)
       (isProfileModalOpen w) (currentAiFollowUpKey w)
       (lastUserQuestionForFollowUp w) (isManualEntryOpen w) (manualVitals w)
       (selectedVitalType w) (toasts w) (requests w ++ [input]) (clock w)
       (ticks w)).

(** ** The page component ([HomePage]) *)

(** Every handler below takes [render], the world as it was when the
    component last rendered: a handler is a closure over the state of that
    render, so the state variables it reads ([userProfile], [vitalSigns],
    [lastUserQuestionForFollowUp], ...) are those of [render], while the
    setters act on the current world.  A handler that awaits the collaborator
    is run from its call to the settlement of the promise. *)

Definition handleFeedback (messageId : string) (feedback : Feedback) : M unit :=
  setMessages (fun prevMessages =>
    map (fun msg =>
           if String.eqb (ChatMessage.id msg) messageId
           then ChatMessage.with_feedback msg feedback
           else msg)
        prevMessages).

(** [vitalSigns.length > 0 ? vitalSigns[0] : undefined] *)
Definition latestVitalsOf (vitalSigns : list VitalSigns.t)
  : option VitalSigns.t :=
  if (0 <? List.length vitalSigns)%nat then nth_error vitalSigns 0 else None.

(** Truthiness of an optional text: [undefined] and [''] are falsy. *)
Definition text_truthy (o : option string) : bool :=
  match o with
  | Some s => string_truthy s
  | None => false
  end.

(** Truthiness of an optional list together with [.length > 0]. *)
Definition nonempty_list (o : option (list string)) : bool :=
  match o with
  | Some l => (0 <? List.length l)%nat
  | None => false
  end.

Definition bulleted (items : list string) : string :=
  join nl (map (fun item => "â€¢ " ++ item) items).

(** The two [responseText += ...] statements shared by the plain answer and
    the refined answer. *)
Definition addInsightsAndRecommendations (responseText : string)
    (result : QAOutput.t) : string :=
  let responseText :=
    if nonempty_list (QAOutput.healthInsights result)
    then responseText ++ nl ++ nl ++ "**Health Insights:**" ++ nl
         ++ bulleted (match QAOutput.healthInsights result with
                      | Some l => l | None => [] end)
    else responseText in
  if nonempty_list (QAOutput.recommendations result)
  then responseText ++ nl ++ nl ++ "**Recommendations:**" ++ nl
       ++ bulleted (match QAOutput.recommendations result with
                    | Some l => l | None => [] end)
  else responseText.

(** [prev => prev.filter(msg => msg.id !== id)] *)
Definition removeById (id : string) (prev : list ChatMessage.t)
  : list ChatMessage.t :=
  filter (fun msg => negb (String.eqb (ChatMessage.id msg) id)) prev.

(** [prev => [...prev, msg]] *)
Definition append (msg : ChatMessage.t) (prev : list ChatMessage.t)
  : list ChatMessage.t :=
  prev ++ [msg].

(** The request built from a question, a profile and the latest reading. *)
Definition buildInput (question : string) (profile : UserProfile.t)
    (latestVitals : option VitalSigns.t) : QAInput.t :=
  QAInput.mk question
    (UserProfile.age profile) (UserProfile.weight profile)
    (UserProfile.height profile) (UserProfile.gender profile)
    (UserProfile.medicalHistory profile)
    (UserProfile.currentMedications profile)
    (UserProfile.allergies profile) (UserProfile.lifestyle profile)
    (UserProfile.symptoms profile)
    latestVitals.

Definition submitErrorText : string :=
  "ðŸ˜” Sorry, I encountered an error. Please try again later.".

Definition submitErrorToast : Toast.t :=
  Toast.mk (Some "destructive") "Error" "Failed to get response from AI.".

Definition handleSubmitQuestion (render : World) (question : string)
    (outcome : Outcome) : M unit :=
  idStamp <- Date_now ;;
  timestamp <- Date_now ;;
  let userMessage :=
    ChatMessage.mk ("user-" ++ string_of_Z idStamp) question user timestamp
      None None None None in
  setMessages (append userMessage) ;;
  setIsLoading true ;;
  idStamp <- Date_now ;;
  timestamp <- Date_now ;;
  let aiLoadingMessage :=
    ChatMessage.mk ("ai-loading-" ++ string_of_Z idStamp) "Thinking..." ai
      timestamp (Some true) None None None in
  setMessages (append aiLoadingMessage) ;;
  (* try *)
  let latestVitals := latestVitalsOf (vitalSigns render) in
  let input := buildInput question (userProfile render) latestVitals in
  settled <- personalizedHealthQuestionAnswering input outcome ;;
  match settled with
  | Resolved result =>
      setMessages (removeById (ChatMessage.id aiLoadingMessage)) ;;
      if text_truthy (QAOutput.followUpQuestion result) then
        let followUpQuestion :=
          match QAOutput.followUpQuestion result with
          | Some q => q | None => EmptyString end in
        let aiInfoMessageText :=
          if string_truthy (QAOutput.answer result)
             && negb (String.eqb (QAOutput.answer result) followUpQuestion)
          then QAOutput.answer result
          else "To provide a more accurate response, I need a little more information." in
        idStamp <- Date_now ;;
        timestamp <- Date_now ;;
        let aiInfoMessage :=
          ChatMessage.mk ("ai-info-" ++ string_of_Z idStamp) aiInfoMessageText
            ai timestamp None None None None in
        setMessages (append aiInfoMessage) ;;
        idStamp <- Date_now ;;
        timestamp <- Date_now ;;
        let aiFollowUpMessage :=
          ChatMessage.mk ("ai-followup-prompt-" ++ string_of_Z idStamp)
            followUpQuestion ai timestamp None None (Some true) None in
        setMessages (append aiFollowUpMessage) ;;
        setCurrentAiFollowUpKey (QAOutput.suggestedKey result) ;;
        setLastUserQuestionForFollowUp (Some question) ;;
        setIsProfileModalOpen true
      else
        let responseText :=
          addInsightsAndRecommendations (QAOutput.answer result) result in
        idStamp <- Date_now ;;
        timestamp <- Date_now ;;
        let aiResponseMessage :=
          ChatMessage.mk ("ai-response-" ++ string_of_Z idStamp) responseText
            ai timestamp None None None None in
        setMessages (append aiResponseMessage)
  | Rejected =>
      (* catch *)
      setMessages (removeById (ChatMessage.id aiLoadingMessage)) ;;
      idStamp <- Date_now ;;
      timestamp <- Date_now ;;
      let errorMessage :=
        ChatMessage.mk ("ai-error-" ++ string_of_Z idStamp) submitErrorText
          ai timestamp None None None None in
      setMessages (append errorMessage) ;;
      toast submitErrorToast
  end ;;
  (* finally *)
  setIsLoading false.

(** [JSON_stringify] stands for the built-in [JSON.stringify] on profile
    objects; it is only used to compare the old and the new profile. *)
Definition handleSaveProfile (JSON_stringify : UserProfile.t -> string)
    (render : World) (newProfileData : UserProfile.t) (outcome : Outcome)
  : M unit :=
  let oldProfile := userProfile render in
  setUserProfile newProfileData ;;
  setIsProfileModalOpen false ;;
  if text_truthy (lastUserQuestionForFollowUp render) then
    let lastUserQuestionForFollowUp :=
      match lastUserQuestionForFollowUp render with
      | Some q => q | None => EmptyString end in
    let latestVitals := latestVitalsOf (vitalSigns render) in
    let updatedInput :=
      buildInput lastUserQuestionForFollowUp newProfileData latestVitals in
    idStamp <- Date_now ;;
    timestamp <- Date_now ;;
    let profileUpdateMessage :=
      ChatMessage.mk ("system-profile-updated-" ++ string_of_Z idStamp)
        "âœ… Your information has been updated. I'll use this to refine my answer."
        ai timestamp None None (Some true) None in
    setMessages (append profileUpdateMessage) ;;
    setIsLoading true ;;
    idStamp <- Date_now ;;
    let aiLoadingMessageId := "ai-loading-refine-" ++ string_of_Z idStamp in
    timestamp <- Date_now ;;
    let aiLoadingMessage :=
      ChatMessage.mk aiLoadingMessageId "Refining answer..." ai timestamp
        (Some true) None None None in
    setMessages (append aiLoadingMessage) ;;
    (* try *)
    settled <- personalizedHealthQuestionAnswering updatedInput outcome ;;
    match settled with
    | Resolved result =>
        setMessages (removeById aiLoadingMessageId) ;;
        let responseText :=
          if string_truthy (QAOutput.answer result)
          then QAOutput.answer result
          else "Thank you for the information. How else can I help you?" in
        let responseText := addInsightsAndRecommendations responseText result in
        idStamp <- Date_now ;;
        timestamp <- Date_now ;;
        let aiResponseMessage :=
          ChatMessage.mk ("ai-refined-response-" ++ string_of_Z idStamp)
            responseText ai timestamp None None None None in
        setMessages (append aiResponseMessage) ;;
        if text_truthy (QAOutput.followUpQuestion result) then
          let followUpQuestion :=
            match QAOutput.followUpQuestion result with
            | Some q => q | None => EmptyString end in
          idStamp <- Date_now ;;
          timestamp <- Date_now ;;
          let aiFollowUpMessage :=
            ChatMessage.mk ("ai-refined-followup-" ++ string_of_Z idStamp)
              followUpQuestion ai timestamp None None (Some true) None in
          setMessages (append aiFollowUpMessage) ;;
          toast (Toast.mk None "Further Information Requested"
                   "The AI has another follow-up question. Please see the chat.")
        else ret tt
    | Rejected =>
        (* catch *)
        setMessages (removeById aiLoadingMessageId) ;;
        idStamp <- Date_now ;;
        timestamp <- Date_now ;;
        let errorMessage :=
          ChatMessage.mk ("ai-error-refine-" ++ string_of_Z idStamp)
            "ðŸ˜” Sorry, I encountered an error while refining the answer. Please try again."
            ai timestamp None None None None in
        setMessages (append errorMessage) ;;
        toast (Toast.mk (Some "destructive") "Refinement Error"
                 "Failed to get refined response from AI.")
    end ;;
    (* finally *)
    setIsLoading false ;;
    setLastUserQuestionForFollowUp None ;;
    setCurrentAiFollowUpKey None
  else
    idStamp <- Date_now ;;
    timestamp <- Date_now ;;
    let acknowledgementMessage :=
      ChatMessage.mk ("system-profile-ack-" ++ string_of_Z idStamp)
        "Your health information has been updated. How can I assist you now?"
        ai timestamp None None None None in
    when (negb (String.eqb (JSON_stringify oldProfile)
                           (JSON_stringify newProfileData)))
         (setMessages (append acknowledgementMessage)).

(** Truthiness of a profile value. *)
Definition profileValue_truthy (v : ProfileValue) : bool :=
  match v with
  | PNumber x => number_truthy x
  | PGender _ => true
  | PText s => string_truthy s
  | PContact _ => true
  end.

(** [value.toString().trim() !== '']: the text of a number, a gender literal
    and ["[object Object]"] are never blank. *)
Definition toString_trim_nonempty (v : ProfileValue) : bool :=
  match v with
  | PNumber _ => true
  | PGender _ => true
  | PText s => negb (String.eqb (trim s) EmptyString)
  | PContact _ => true
  end.

(** [relevantProfileData && relevantProfileData.toString().trim() !== ''] *)
Definition relevantProfileFieldFilled (relevantProfileData : option ProfileValue)
  : bool :=
  match relevantProfileData with
  | Some v => profileValue_truthy v && toString_trim_nonempty v
  | None => false
  end.

Definition cancelFollowUpText : string :=
  "Okay, I understand. If you change your mind, you can update your info anytime. How else can I help you today?".

Definition handleCloseProfileModal (render : World) : M unit :=
  setIsProfileModalOpen false ;;
  match lastUserQuestionForFollowUp render, currentAiFollowUpKey render with
  | Some question, Some key =>
      when (string_truthy question)
        (let relevantProfileData := UserProfile.get (userProfile render) key in
         when (negb (relevantProfileFieldFilled relevantProfileData))
           (idStamp <- Date_now ;;
            timestamp <- Date_now ;;
            let cancelFollowUpMessage :=
              ChatMessage.mk ("ai-cancel-followup-" ++ string_of_Z idStamp)
                cancelFollowUpText ai timestamp None None (Some true) None in
            setMessages (append cancelFollowUpMessage)))
  | _, _ => ret tt
  end ;;
  setLastUserQuestionForFollowUp None ;;
  setCurrentAiFollowUpKey None.

Definition handleVitalSignsUpdate (newVitals : VitalSigns.t) : M unit :=
  setVitalSigns (fun prev => newVitals :: prev).

(** ** The vital-signs tracker ([VitalSignsTracker]) *)

(** [a || b] on numbers. *)
Definition number_or (a b : float) : float :=
  if number_truthy a then a else b.

(** The [onChange] of the value input of the manual-entry dialog; [parsed] is
    [parseFloat(e.target.value)]. *)
Definition manualValue_onChange (render : World) (parsed : float) : M unit :=
  setManualVitals (fun prev k =>
    if VitalKind_eqb k (selectedVitalType render)
    then Some (number_or parsed 0)
    else prev k).

(** The [onValueChange] of the type selector, whose items are the keys of
    [vitalSignsLabels]. *)
Definition vitalType_onValueChange (value : VitalKind) : M unit :=
  setSelectedVitalType value.

Definition valueRequiredToast : Toast.t :=
  Toast.mk (Some "destructive") "Value Required"
    "Please enter a value for the selected vital sign.".

Definition vitalsUpdatedToast : Toast.t :=
  Toast.mk None "Vital Signs Updated"
    "Your vital signs have been recorded successfully.".

Definition handleManualEntry (onVitalSignsUpdate : VitalSigns.t -> M unit)
    (render : World) : M unit :=
  match manualVitals render (selectedVitalType render) with
  | Some entered =>
      if negb (number_truthy entered) then toast valueRequiredToast
      else
        now <- Date_now ;;
        let newVitals :=
          VitalSigns.set (VitalSigns.only_timestamp now)
            (selectedVitalType render) (Some (VNumber entered)) in
        onVitalSignsUpdate newVitals ;;
        setIsManualEntryOpen false ;;
        setManualVitals (fun _ _ => None) ;;
        toast vitalsUpdatedToast
  | None => toast valueRequiredToast
  end.

(** The page passes [handleVitalSignsUpdate] as [onVitalSignsUpdate]. *)
Definition manualEntry (render : World) : M unit :=
  handleManualEntry handleVitalSignsUpdate render.

(** The initial render: the welcome message, an empty profile, no readings. *)
Definition initialWelcomeMessage (loadedAt : Z) : ChatMessage.t :=
  ChatMessage.mk "welcome-message"
    "Hello! I'm Med Genie, your AI health assistant. I can help you with health questions, track your vital signs, analyze prescriptions, and provide emergency support. How can I help you today?"
    ai loadedAt None None None None.

Definition initialWorld (clock : nat -> Z) : World :=
  mkWorld [initialWelcomeMessage (clock 0%nat)] false UserProfile.empty []
    false None None
    false (fun _ => None) heartRate
    [] [] clock 1.

(** ** Sessions *)

(** What the user can do; an event runs the handler of the current render to
    completion. *)
Inductive Event : Type :=
| SubmitQuestion (question : string) (outcome : Outcome)
| SaveProfile (newProfileData : UserProfile.t) (outcome : Outcome)
| CloseProfileModal
| GiveFeedback (messageId : string) (feedback : Feedback)
| SelectVitalType (value : VitalKind)
| ChangeManualValue (parsed : float)
| AddManualEntry.

Definition step (JSON_stringify : UserProfile.t -> string) (e : Event)
    (w : World) : World :=
  match e with
  | SubmitQuestion question outcome =>
      exec (handleSubmitQuestion w question outcome) w
  | SaveProfile newProfileData outcome =>
      exec (handleSaveProfile JSON_stringify w newProfileData outcome) w
  | CloseProfileModal => exec (handleCloseProfileModal w) w
  | GiveFeedback messageId feedback => exec (handleFeedback messageId feedback) w
  | SelectVitalType value => exec (vitalType_onValueChange value) w
  | ChangeManualValue parsed => exec (manualValue_onChange w parsed) w
  | AddManualEntry => exec (manualEntry w) w
  end.

(** The worlds of a session: the initial render followed by any events. *)
Inductive reachable (JSON_stringify : UserProfile.t -> string)
    (clock : nat -> Z) : World -> Prop :=
| reachable_init : reachable JSON_stringify clock (initialWorld clock)
| reachable_step (e : Event) (w : World) :
    reachable JSON_stringify clock w ->
    reachable JSON_stringify clock (step JSON_stringify e w).

(** Time does not run backwards: successive readings of [Date.now()] do not
    decrease. *)
Definition monotone_clock (clock : nat -> Z) : Prop :=
  forall i j, (i <= j)%nat -> (clock i <= clock j)%Z.


(** The store lists the newest reading first. *)
Definition newestFirst (store : list VitalSigns.t) : Prop :=
  StronglySorted
    (fun a b => (VitalSigns.timestamp b <= VitalSigns.timestamp a)%Z) store.

(** A text with no character other than white space and line terminators. *)
Fixpoint isBlank (s : string) : bool :=
  match s with
  | EmptyString => true
  | String c1 rest1 =>
      if isWhiteSpace c1 then isBlank rest1
      else
        match rest1 with
        | EmptyString => false
        | String c2 rest2 =>
            if isWhiteSpace2 c1 c2 then isBlank rest2
            else
              match rest2 with
              | EmptyString => false
              | String c3 rest3 =>
                  if isWhiteSpace3 c1 c2 c3 then isBlank rest3 else false
              end
        end
  end.

(** A profile field that has not been filled in: absent, or a blank text. *)
Definition fieldEmpty (v : option ProfileValue) : Prop :=
  match v with
  | None => True
  | Some (PText s) => isBlank s = true
  | Some _ => False
  end.

(** The id of the pending turn that [handleSubmitQuestion] creates when run
    from [w]: its third reading of the clock. *)
Definition pendingIdOf (w : World) : string :=
  "ai-loading-" ++ string_of_Z (clock w (2 + ticks w)%nat).

(** No turn of the list carries the given id. *)
Definition unusedId (id : string) (msgs : list ChatMessage.t) : Prop :=
  forall m, In m msgs -> ChatMessage.id m <> id.

(** No turn of the list is a pending turn: the ids of the pending turns, and
    only those, start with [ai-loading-]. *)
Definition settled (msgs : list ChatMessage.t) : Prop :=
  Forall (fun m => String.prefix "ai-loading-" (ChatMessage.id m) = false) msgs.

(** The user turn and the pending turn that [handleSubmitQuestion] creates
    when run from [w] with the given question. *)
Definition userTurnOf (w : World) (question : string) : ChatMessage.t :=
  ChatMessage.mk ("user-" ++ string_of_Z (clock w (ticks w))) question user
    (clock w (1 + ticks w)%nat) None None None None.

Definition pendingTurnOf (w : World) : ChatMessage.t :=
  ChatMessage.mk (pendingIdOf w) "Thinking..." ai
    (clock w (3 + ticks w)%nat) (Some true) None None None.

(** The turns appended by a settled submission, in the three cases. *)
Definition repliesShape (outcome : Outcome) (replies : list ChatMessage.t)
  : Prop :=
  match outcome with
  | Rejected =>
      exists errorMessage,
        replies = [errorMessage]
        /\ ChatMessage.text errorMessage = submitErrorText
  | Resolved result =>
      if text_truthy (QAOutput.followUpQuestion result)
      then exists info prompt,
          replies = [info; prompt]
          /\ ChatMessage.isFollowUpPrompt info = None
          /\ ChatMessage.isFollowUpPrompt prompt = Some true
          /\ QAOutput.followUpQuestion result = Some (ChatMessage.text prompt)
      else exists answer,
          replies = [answer]
          /\ ChatMessage.isFollowUpPrompt answer = None
          /\ ChatMessage.text answer
             = addInsightsAndRecommendations (QAOutput.answer result) result
  end.

(** Sample worlds used to instantiate the theorems. *)
Definition sampleClock (n : nat) : Z := 1700000000000 + Z.of_nat n.

Definition sampleJSON (p : UserProfile.t) : string :=
  match UserProfile.age p with
  | Some _ => "{age}"
  | None => "{}"
  end.

Definition sampleQuestion : string := "What should my blood pressure be?".

(** The session in which a heart rate of 72 is typed, and then added. *)
Definition typedValueWorld : World :=
  step sampleJSON (ChangeManualValue 72) (initialWorld sampleClock).

Definition oneReadingWorld : World :=
  step sampleJSON AddManualEntry typedValueWorld.

(** A follow-up on the age is pending and the age is not filled in. *)
Definition agePendingWorld : World :=
  mkWorld [initialWelcomeMessage (sampleClock 0)] false UserProfile.empty []
    true (Some AISuggestedKey.age) (Some sampleQuestion)
    false (fun _ => None) heartRate [] [] sampleClock 1.

Definition ageFollowUp : QAOutput.t :=
  QAOutput.mk "It depends on your age." (Some "What is your age?")
    (Some AISuggestedKey.age) None None.

(** ** Saving from the profile editor ([UserProfileModal.handleSave]) *)

(** [handleSaveProfile] is an async function: a call runs it up to its
    [await] and leaves the rest to run when the promise settles.  The two
    halves are given here; [handleSaveProfile_halves] shows that run one after
    the other they are [handleSaveProfile]. *)

(** A refine call in flight: the id of its pending turn and how the promise
    will settle. *)
Module Refine.
Record t : Type := mk { aiLoadingMessageId : string; settles : Outcome }.
End Refine.

(** Up to the [await]: the result is the refine call in flight, or nothing
    when there was no pending question and the function has returned. *)
Definition handleSaveProfile_call (JSON_stringify : UserProfile.t -> string)
    (render : World) (newProfileData : UserProfile.t) (outcome : Outcome)
  : M (option Refine.t) :=
  let oldProfile := userProfile render in
  setUserProfile newProfileData ;;
  setIsProfileModalOpen false ;;
  if text_truthy (lastUserQuestionForFollowUp render) then
    let lastUserQuestionForFollowUp :=
      match lastUserQuestionForFollowUp render with
      | Some q => q | None => EmptyString end in
    let latestVitals := latestVitalsOf (vitalSigns render) in
    let updatedInput :=
      buildInput lastUserQuestionForFollowUp newProfileData latestVitals in
    idStamp <- Date_now ;;
    timestamp <- Date_now ;;
    let profileUpdateMessage :=
      ChatMessage.mk ("system-profile-updated-" ++ string_of_Z idStamp)
        "âœ… Your information has been updated. I'll use this to refine my answer."
        ai timestamp None None (Some true) None in
    setMessages (append profileUpdateMessage) ;;
    setIsLoading true ;;
    idStamp <- Date_now ;;
    let aiLoadingMessageId := "ai-loading-refine-" ++ string_of_Z idStamp in
    timestamp <- Date_now ;;
    let aiLoadingMessage :=
      ChatMessage.mk aiLoadingMessageId "Refining answer..." ai timestamp
        (Some true) None None None in
    setMessages (append aiLoadingMessage) ;;
    settled <- personalizedHealthQuestionAnswering updatedInput outcome ;;
    ret (Some (Refine.mk aiLoadingMessageId settled))
  else
    idStamp <- Date_now ;;
    timestamp <- Date_now ;;
    let acknowledgementMessage :=
      ChatMessage.mk ("system-profile-ack-" ++ string_of_Z idStamp)
        "Your health information has been updated. How can I assist you now?"
        ai timestamp None None None None in
    when (negb (String.eqb (JSON_stringify oldProfile)
                           (JSON_stringify newProfileData)))
         (setMessages (append acknowledgementMessage)) ;;
    ret None.

(** From the settlement of the promise on. *)
Definition handleSaveProfile_settled (inFlight : option Refine.t) : M unit :=
  match inFlight with
  | None => ret tt
  | Some refine =>
      let aiLoadingMessageId := Refine.aiLoadingMessageId refine in
      match Refine.settles refine with
      | Resolved result =>
          setMessages (removeById aiLoadingMessageId) ;;
          let responseText :=
            if string_truthy (QAOutput.answer result)
            then QAOutput.answer result
            else "Thank you for the information. How else can I help you?" in
          let responseText :=
            addInsightsAndRecommendations responseText result in
          idStamp <- Date_now ;;
          timestamp <- Date_now ;;
          let aiResponseMessage :=
            ChatMessage.mk ("ai-refined-response-" ++ string_of_Z idStamp)
              responseText ai timestamp None None None None in
          setMessages (append aiResponseMessage) ;;
          if text_truthy (QAOutput.followUpQuestion result) then
            let followUpQuestion :=
              match QAOutput.followUpQuestion result with
              | Some q => q | None => EmptyString end in
            idStamp <- Date_now ;;
            timestamp <- Date_now ;;
            let aiFollowUpMessage :=
              ChatMessage.mk ("ai-refined-followup-" ++ string_of_Z idStamp)
                followUpQuestion ai timestamp None None (Some true) None in
            setMessages (append aiFollowUpMessage) ;;
            toast (Toast.mk None "Further Information Requested"
                     "The AI has another follow-up question. Please see the chat.")
          else ret tt
      | Rejected =>
          setMessages (removeById aiLoadingMessageId) ;;
          idStamp <- Date_now ;;
          timestamp <- Date_now ;;
          let errorMessage :=
            ChatMessage.mk ("ai-error-refine-" ++ string_of_Z idStamp)
              "ðŸ˜” Sorry, I encountered an error while refining the answer. Please try again."
              ai timestamp None None None None in
          setMessages (append errorMessage) ;;
          toast (Toast.mk (Some "destructive") "Refinement Error"
                   "Failed to get refined response from AI.")
      end ;;
      setIsLoading false ;;
      setLastUserQuestionForFollowUp None ;;
      setCurrentAiFollowUpKey None
  end.

Definition profileUpdatedToast : Toast.t :=
  Toast.mk None "Profile Updated"
    "Your health information has been saved for this session.".

(** [handleSave] of the profile editor: [onSave(profile); toast(...);
    onClose()].  [onSave] and [onClose] are [handleSaveProfile] and
    [handleCloseProfileModal] of one and the same render of the page, so
    [onClose] runs while the refine call is still in flight and reads the
    state of that render; the rest of [handleSaveProfile] runs afterwards. *)
Definition UserProfileModal_handleSave
    (JSON_stringify : UserProfile.t -> string) (render : World)
    (profile : UserProfile.t) (outcome : Outcome) : M unit :=
  inFlight <- handleSaveProfile_call JSON_stringify render profile outcome ;;
  toast profileUpdatedToast ;;
  handleCloseProfileModal render ;;
  handleSaveProfile_settled inFlight.

(** The id of the pending turn that [handleSaveProfile] creates when run from
    [w]: its third reading of the clock. *)
Definition refineIdOf (w : World) : string :=
  "ai-loading-refine-" ++ string_of_Z (clock w (2 + ticks w)%nat).

(** The turns appended by a settled refine call, after the acknowledgement
    of the update. *)
Definition refineShape (outcome : Outcome) (replies : list ChatMessage.t)
  : Prop :=
  match outcome with
  | Rejected => exists errorMessage, replies = [errorMessage]
  | Resolved result =>
      exists response,
        ChatMessage.text response
        = addInsightsAndRecommendations
            (if string_truthy (QAOutput.answer result)
             then QAOutput.answer result
             else "Thank you for the information. How else can I help you?")
            result
        /\ if text_truthy (QAOutput.followUpQuestion result)
           then exists prompt,
               replies = [response; prompt]
               /\ ChatMessage.isFollowUpPrompt prompt = Some true
               /\ QAOutput.followUpQuestion result
                  = Some (ChatMessage.text prompt)
           else replies = [response]
  end.

(** A profile whose age has been filled in. *)
Definition profileWithAge : UserProfile.t :=
  UserProfile.mk (Some 34%float) None None None None None None None None None.

(** No turn of the list is shown as loading. *)
Definition noSpinner (msgs : list ChatMessage.t) : Prop :=
  Forall (fun m => ChatMessage.isLoading m = None) msgs.

(** ** The vital-signs tracker: the readings on display *)

(** [array.sort(compare)] for a comparator that orders by a key: the sort is
    stable, so the result is the one stable arrangement, built here by
    insertion from the right.  [compare a b <= 0] keeps [a] before [b]. *)
Fixpoint insertBy {A : Type} (compare : A -> A -> Z) (x : A)
    (sorted : list A) : list A :=
  match sorted with
  | [] => [x]
  | y :: rest =>
      if (compare x y <=? 0)%Z then x :: sorted
      else y :: insertBy compare x rest
  end.

Definition sortBy {A : Type} (compare : A -> A -> Z) (l : list A) : list A :=
  fold_right (insertBy compare) [] l.

(** [(a, b) => b.timestamp - a.timestamp] *)
Definition byTimestampDescending (a b : VitalSigns.t) : Z :=
  VitalSigns.timestamp b - VitalSigns.timestamp a.

(** [mockVitalSigns], built on every render from three readings of the
    clock. *)
Definition mockVitalSigns : M (list VitalSigns.t) :=
  sixHoursAgo <- Date_now ;;
  threeHoursAgo <- Date_now ;;
  now <- Date_now ;;
  ret [VitalSigns.mk (sixHoursAgo - 6 * 60 * 60 * 1000)
         (Some (VNumber 72))
         (Some (VPressure (BloodPressure.mk 120 80)))
         (Some (VNumber 36.8)) (Some (VNumber 98)) None
         (Some (VNumber 8500)) (Some (VNumber 7.5));
       VitalSigns.mk (threeHoursAgo - 3 * 60 * 60 * 1000)
         (Some (VNumber 78))
         (Some (VPressure (BloodPressure.mk 125 82)))
         (Some (VNumber 36.9)) (Some (VNumber 97)) None
         (Some (VNumber 12000)) (Some (VNumber 7.5));
       VitalSigns.mk now
         (Some (VNumber 75))
         (Some (VPressure (BloodPressure.mk 118 78)))
         (Some (VNumber 36.7)) (Some (VNumber 99)) None
         (Some (VNumber 15000)) (Some (VNumber 7.5))].

(** [[...currentVitals, ...mockVitalSigns].sort(...)] *)
Definition allVitalsOf (currentVitals mock : list VitalSigns.t)
  : list VitalSigns.t :=
  sortBy byTimestampDescending (currentVitals ++ mock).

(** [array.slice(-n)]: the last [n] elements, all of them when there are
    fewer. *)
Definition sliceLast {A : Type} (n : nat) (l : list A) : list A :=
  skipn (List.length l - n) l.

(** Truthiness of an optional measurement. *)
Definition field_truthy (o : option VitalValue) : bool :=
  match o with
  | Some v => value_truthy v
  | None => false
  end.

(** The data of the trend chart:
    [allVitals.filter(v => v.heartRate).slice(-10)]. *)
Definition trendDataOf (allVitals : list VitalSigns.t) : list VitalSigns.t :=
  sliceLast 10
    (filter (fun v => field_truthy (VitalSigns.heartRate v)) allVitals).

(** What a render of the tracker computes before it draws: the sorted
    readings, the latest one, and the data of the chart, which is drawn when
    there is more than one reading.  [currentVitals] is the store of the
    page. *)
Module TrackerView.
Record t : Type := mk {
  allVitals : list VitalSigns.t;
  latestVitals : option VitalSigns.t;
  trendData : option (list VitalSigns.t)
}.
End TrackerView.

Definition renderTracker (render : World) : M TrackerView.t :=
  mock <- mockVitalSigns ;;
  let allVitals := allVitalsOf (vitalSigns render) mock in
  let latestVitals := nth_error allVitals 0 in
  ret (TrackerView.mk allVitals latestVitals
         (if (1 <? List.length allVitals)%nat
          then Some (trendDataOf allVitals) else None)).

(** The view drawn from a world. *)
Definition trackerViewOf (w : World) : TrackerView.t := fst (renderTracker w w).

(** The third mock reading of a render from [w]. *)
Definition mockNowOf (w : World) : VitalSigns.t :=
  VitalSigns.mk (clock w (2 + ticks w)%nat)
    (Some (VNumber 75))
    (Some (VPressure (BloodPressure.mk 118 78)))
    (Some (VNumber 36.7)) (Some (VNumber 99)) None
    (Some (VNumber 15000)) (Some (VNumber 7.5)).

(** Two readings taken in the same millisecond. *)
Definition storedAtFive : VitalSigns.t :=
  VitalSigns.set (VitalSigns.only_timestamp 5) heartRate (Some (VNumber 60)).

Definition mockAtFive : VitalSigns.t :=
  VitalSigns.set (VitalSigns.only_timestamp 5) heartRate (Some (VNumber 75)).

(** ** The SOS button (src/components/sos-button.tsx) and the alerts of the
       page ([handleSOSAlert], the count of active alerts) *)

(** The alert built by [handleSubmitSOS] is one object that the component
    keeps, hands to the page and then mutates; objects are therefore kept in
    a heap and the state holds references to them. *)
Module SOS.

Inductive Severity : Type := low | medium | high | critical.

Inductive Status : Type := active | resolved | escalated.

Definition Status_eqb (a b : Status) : bool :=
  match a, b with
  | active, active | resolved, resolved | escalated, escalated => true
  | _, _ => false
  end.

Record Location : Type := mkLocation { latitude : float; longitude : float }.

(** [SOSAlert] (src/lib/types.ts) *)
Record Alert : Type := mkAlert {
  id : string;
  timestamp : Z;
  location : option Location;
  symptoms : string;
  severity : Severity;
  status : Status;
  emergencyContactNotified : bool
}.

Definition ref : Type := nat.

(** The state of [SOSButton], the [sosAlerts] state of the page, the heap of
    alert objects, the toasts shown and the clock. *)
Record State : Type := mk {
  heap : list Alert;
  sosAlerts : list ref;
  isSOSModalOpen : bool;
  currentAlert : option ref;
  symptomsInput : string;
  severityInput : Severity;
  isProcessing : bool;
  locationFix : option Location;
  toasts : list Toast.t;
  clock : nat -> Z;
  ticks : nat
}.

(** The object behind a reference. *)
Definition deref (st : State) (r : ref) : option Alert := nth_error (heap st) r.

(** [list[i] = v] on the heap. *)
Fixpoint update (h : list Alert) (r : ref) (f : Alert -> Alert) : list Alert :=
  match h, r with
  | [], _ => []
  | a :: rest, O => f a :: rest
  | a :: rest, S r' => a :: update rest r' f
  end.

Definition initial (clock : nat -> Z) : State :=
  mk [] [] false None EmptyString medium false None [] clock 0.

Definition symptomsRequiredToast : Toast.t :=
  Toast.mk (Some "destructive") "Symptoms Required"
    "Please describe your symptoms to proceed.".

(** [userProfile.emergencyContact] as the button finds it at run time.  The
    profile editor builds the object one field at a time
    ([handleEmergencyContactChange]), so any of its fields may be missing. *)
Record Contact : Type := mkContact {
  name : option string;
  phone : option string;
  relationship : option string
}.

(** The contact of a profile whose contact has all its fields. *)
Definition contactOf (userProfile : UserProfile.t) : option Contact :=
  option_map
    (fun c => mkContact (Some (EmergencyContact.name c))
                (Some (EmergencyContact.phone c))
                (Some (EmergencyContact.relationship c)))
    (UserProfile.emergencyContact userProfile).

(** [`${value}`] for a text that may be missing. *)
Definition interpolate (value : option string) : string :=
  match value with
  | Some text => text
  | None => "undefined"
  end.

(** [userProfile.emergencyContact?.phone] as a condition. *)
Definition contactPhone (emergencyContact : option Contact) : bool :=
  match emergencyContact with
  | Some contact => text_truthy (phone contact)
  | None => false
  end.

(** The toast raised under that condition; [contact] is the contact found. *)
Definition contactNotifiedToast (contact : Contact) : Toast.t :=
  Toast.mk None "Emergency Contact Notified"
    ("Contacted " ++ interpolate (name contact) ++ " at "
     ++ interpolate (phone contact)).

(** [handleSOSAlert] of the page: [setSosAlerts(prev => [alert, ...prev])],
    passed to the button as [onSOSAlert]. *)
Definition handleSOSAlert (alert : ref) (st : State) : State :=
  mk (heap st) (alert :: sosAlerts st) (isSOSModalOpen st) (currentAlert st)
     (symptomsInput st) (severityInput st) (isProcessing st) (locationFix st)
     (toasts st) (clock st) (ticks st).

Definition handleSOSClick (st : State) : State :=
  mk (heap st) (sosAlerts st) true (currentAlert st)
     (symptomsInput st) (severityInput st) (isProcessing st) (locationFix st)
     (toasts st) (clock st) (ticks st).

(** The [onChange] of the symptoms text and the severity buttons. *)
Definition setSymptoms (text : string) (st : State) : State :=
  mk (heap st) (sosAlerts st) (isSOSModalOpen st) (currentAlert st)
     text (severityInput st) (isProcessing st) (locationFix st)
     (toasts st) (clock st) (ticks st).

Definition setSeverity (level : Severity) (st : State) : State :=
  mk (heap st) (sosAlerts st) (isSOSModalOpen st) (currentAlert st)
     (symptomsInput st) level (isProcessing st) (locationFix st)
     (toasts st) (clock st) (ticks st).

Definition handleSubmitSOS (emergencyContact : option Contact) (st : State)
  : State :=
  if negb (string_truthy (trim (symptomsInput st))) then
    mk (heap st) (sosAlerts st) (isSOSModalOpen st) (currentAlert st)
       (symptomsInput st) (severityInput st) (isProcessing st) (locationFix st)
       (toasts st ++ [symptomsRequiredToast]) (clock st) (ticks st)
  else
    (* const alert = {...}: a new object *)
    let alert : ref := List.length (heap st) in
    let object :=
      mkAlert ("sos-" ++ string_of_Z (clock st (ticks st)))
        (clock st (1 + ticks st)%nat) (locationFix st)
        (trim (symptomsInput st)) (severityInput st) active false in
    let heap1 := (heap st ++ [object])%list in
    (* setCurrentAlert(alert); onSOSAlert(alert) *)
    let st1 :=
      handleSOSAlert alert
        (mk heap1 (sosAlerts st) (isSOSModalOpen st) (Some alert)
           (symptomsInput st) (severityInput st) true (locationFix st)
           (toasts st) (clock st) (2 + ticks st)%nat) in
    let st2 :=
      match emergencyContact with
      | Some contact =>
          if text_truthy (phone contact) then
            (* alert.emergencyContactNotified = true *)
            let heap2 :=
              update (heap st1) alert (fun a =>
                mkAlert (id a) (timestamp a) (location a) (symptoms a)
                  (severity a) (status a) true) in
            (* setCurrentAlert({ ...alert, emergencyContactNotified: true }) *)
            let copy : ref := List.length heap2 in
            let heap3 :=
              match nth_error heap2 alert with
              | Some a =>
                  (heap2 ++ [mkAlert (id a) (timestamp a) (location a)
                               (symptoms a) (severity a) (status a) true])%list
              | None => heap2
              end in
            mk heap3 (sosAlerts st1) (isSOSModalOpen st1) (Some copy)
               (symptomsInput st1) (severityInput st1) (isProcessing st1)
               (locationFix st1)
               (toasts st1 ++ [contactNotifiedToast contact]) (clock st1)
               (ticks st1)
          else st1
      | None => st1
      end in
    mk (heap st2) (sosAlerts st2) false (currentAlert st2)
       EmptyString medium false (locationFix st2)
       (toasts st2) (clock st2) (ticks st2).

(** [{ ...currentAlert, status }] put in [currentAlert], with a toast; nothing
    without a current alert. *)
Definition replaceStatus (newStatus : Status) (t : Toast.t) (st : State)
  : State :=
  match currentAlert st with
  | Some current =>
      match deref st current with
      | Some a =>
          mk (heap st
              ++ [mkAlert (id a) (timestamp a) (location a) (symptoms a)
                    (severity a) newStatus (emergencyContactNotified a)])
             (sosAlerts st) (isSOSModalOpen st) (Some (List.length (heap st)))
             (symptomsInput st) (severityInput st) (isProcessing st)
             (locationFix st) (toasts st ++ [t]) (clock st) (ticks st)
      | None => st
      end
  | None => st
  end.

Definition handleResolveAlert (st : State) : State :=
  replaceStatus resolved
    (Toast.mk None "Alert Resolved"
       "The emergency alert has been marked as resolved.") st.

Definition handleEscalateAlert (st : State) : State :=
  replaceStatus escalated
    (Toast.mk None "Alert Escalated"
       "The emergency alert has been escalated to emergency services.") st.

(** The sidebar of the page:
    [sosAlerts.filter(alert => alert.status === 'active').length]. *)
Definition activeAlertCount (st : State) : nat :=
  List.length
    (filter (fun r => match deref st r with
                      | Some a => Status_eqb (status a) active
                      | None => false
                      end)
       (sosAlerts st)).

(** The card of the active alert is drawn when
    [currentAlert && currentAlert.status === 'active']. *)
Definition activeCardShown (st : State) : bool :=
  match currentAlert st with
  | Some current =>
      match deref st current with
      | Some a => Status_eqb (status a) active
      | None => false
      end
  | None => false
  end.

(** What the user can do with the button. *)
Inductive Event : Type :=
| Click
| TypeSymptoms (text : string)
| PickSeverity (level : Severity)
| Submit
| Resolve
| Escalate.

Definition step (emergencyContact : option Contact) (e : Event) (st : State)
  : State :=
  match e with
  | Click => handleSOSClick st
  | TypeSymptoms text => setSymptoms text st
  | PickSeverity level => setSeverity level st
  | Submit => handleSubmitSOS emergencyContact st
  | Resolve => handleResolveAlert st
  | Escalate => handleEscalateAlert st
  end.

Fixpoint run (emergencyContact : option Contact) (events : list Event)
    (st : State) : State :=
  match events with
  | [] => st
  | e :: rest => run emergencyContact rest (step emergencyContact e st)
  end.

(** The submissions of a run that pass the check of the symptoms. *)
Fixpoint accepted (events : list Event) (typed : string) : nat :=
  match events with
  | [] => 0
  | TypeSymptoms text :: rest => accepted rest text
  | Submit :: rest =>
      if isBlank typed then accepted rest typed
      else S (accepted rest EmptyString)
  | _ :: rest => accepted rest typed
  end.

End SOS.

(** A profile with an emergency contact, and a contact for which only the
    phone was typed in the editor. *)
Definition profileWithContact : UserProfile.t :=
  UserProfile.mk None None None None None None None None None
    (Some (EmergencyContact.mk "Sam" "555-0100" "sibling")).

Definition phoneOnlyContact : SOS.Contact :=
  SOS.mkContact None (Some "555-0100") None.

(** Symptoms made of a no-break space and a space. *)
Definition noBreakSpaces : string :=
  String (ascii_of_nat 194) (String (ascii_of_nat 160) " ").

(** ** The prescription analyzer and the medications of the page
       ([handleMedicationsUpdate]) *)

Module Medication.
Record t : Type := mk {
  name : string;
  dosage : string;
  frequency : string;
  startDate : string;
  endDate : option string;
  prescribedBy : option string;
  notes : option string
}.

(** [{ ...prev, name: value }] *)
Definition with_name (m : t) (value : string) : t :=
  mk value (dosage m) (frequency m) (startDate m) (endDate m)
     (prescribedBy m) (notes m).

(** [{ ...prev, dosage: value }] *)
Definition with_dosage (m : t) (value : string) : t :=
  mk (name m) value (frequency m) (startDate m) (endDate m)
     (prescribedBy m) (notes m).
End Medication.

Module PrescriptionImage.
Record t : Type := mk {
  id : string;
  imageUrl : string;
  uploadedAt : Z;
  analyzedMedications : option (list Medication.t);
  notes : option string
}.
End PrescriptionImage.

Module Rx.

(** The file picked in the input: its size in bytes and the object URL made
    for it. *)
Record File : Type := mkFile { size : Z; objectURL : string }.

(** The state of [PrescriptionAnalyzer] that the handlers below use (the
    image viewer is left out), the [medications] state of the page (passed
    down as [currentMedications]), the toasts shown and the clock. *)
Record State : Type := mk {
  medications : list Medication.t;
  prescriptionImages : list PrescriptionImage.t;
  isAnalyzing : bool;
  isEditing : bool;
  editingMedication : option Medication.t;
  toasts : list Toast.t;
  clock : nat -> Z;
  ticks : nat
}.

(** [handleMedicationsUpdate] of the page: [setMedications(newMedications)],
    passed to the analyzer as [onMedicationsUpdate]. *)
Definition handleMedicationsUpdate (newMedications : list Medication.t)
    (st : State) : State :=
  mk newMedications (prescriptionImages st) (isAnalyzing st) (isEditing st)
     (editingMedication st) (toasts st) (clock st) (ticks st).

Definition toast (t : Toast.t) (st : State) : State :=
  mk (medications st) (prescriptionImages st) (isAnalyzing st) (isEditing st)
     (editingMedication st) (toasts st ++ [t]) (clock st) (ticks st).

(** The mock result of an analysis; [isoDate] stands for
    [new Date().toISOString().split('T')[0]] at a clock reading, taken once
    for each medication. *)
Definition mockMedications (isoDate : Z -> string) (st : State)
  : list Medication.t :=
  [Medication.mk "Metformin" "500mg" "Twice daily"
     (isoDate (clock st (ticks st))) None (Some "Dr. Smith")
     (Some "Take with meals");
   Medication.mk "Lisinopril" "10mg" "Once daily"
     (isoDate (clock st (1 + ticks st)%nat)) None (Some "Dr. Smith")
     (Some "Take in the morning")].

(** [analyzePrescriptionImage], from the end of its simulated delay on;
    [currentMedications] is the list of the render that started the upload. *)
Definition analyzePrescriptionImage (isoDate : Z -> string)
    (currentMedications : list Medication.t) (image : PrescriptionImage.t)
    (st : State) : State :=
  let mockMedications := mockMedications isoDate st in
  let updatedImage :=
    PrescriptionImage.mk (PrescriptionImage.id image)
      (PrescriptionImage.imageUrl image) (PrescriptionImage.uploadedAt image)
      (Some mockMedications)
      (Some ("Analyzed "
             ++ string_of_Z (Z.of_nat (List.length mockMedications))
             ++ " medications")) in
  let allMedications := (currentMedications ++ mockMedications)%list in
  handleMedicationsUpdate allMedications
    (mk (medications st)
       (map (fun img =>
               if String.eqb (PrescriptionImage.id img)
                    (PrescriptionImage.id image)
               then updatedImage else img)
          (prescriptionImages st))
       (isAnalyzing st) (isEditing st) (editingMedication st) (toasts st)
       (clock st) (2 + ticks st)%nat).

Definition fileTooLargeToast : Toast.t :=
  Toast.mk (Some "destructive") "File too large"
    "Please select an image smaller than 10MB.".

Definition analysisCompleteToast : Toast.t :=
  Toast.mk None "Analysis Complete"
    "Prescription has been analyzed successfully.".

(** [handleImageUpload], run to the end of the analysis it awaits; [file] is
    [event.target.files?.[0]].  The simulated analysis cannot fail, so the
    [catch] branch has no counterpart. *)
Definition handleImageUpload (isoDate : Z -> string) (file : option File)
    (st : State) : State :=
  match file with
  | None => st
  | Some file =>
      if (10 * 1024 * 1024 <? size file)%Z then toast fileTooLargeToast st
      else
        let newImage :=
          PrescriptionImage.mk ("img-" ++ string_of_Z (clock st (ticks st)))
            (objectURL file) (clock st (1 + ticks st)%nat) (Some [])
            (Some "Analysis pending...") in
        let st1 :=
          mk (medications st) (prescriptionImages st ++ [newImage]) true
             (isEditing st) (editingMedication st) (toasts st) (clock st)
             (2 + ticks st)%nat in
        let st2 :=
          analyzePrescriptionImage isoDate (medications st) newImage st1 in
        let st3 := toast analysisCompleteToast st2 in
        mk (medications st3) (prescriptionImages st3) false (isEditing st3)
           (editingMedication st3) (toasts st3) (clock st3) (ticks st3)
  end.

Definition removeImage (imageId : string) (st : State) : State :=
  mk (medications st)
     (filter (fun img => negb (String.eqb (PrescriptionImage.id img) imageId))
        (prescriptionImages st))
     (isAnalyzing st) (isEditing st) (editingMedication st) (toasts st)
     (clock st) (ticks st).

Definition editMedication (medication : Medication.t) (st : State) : State :=
  mk (medications st) (prescriptionImages st) (isAnalyzing st) true
     (Some medication) (toasts st) (clock st) (ticks st).

(** The [onChange] of the name and of the dosage in the edit dialog. *)
Definition editName (value : string) (st : State) : State :=
  mk (medications st) (prescriptionImages st) (isAnalyzing st) (isEditing st)
     (option_map (fun prev => Medication.with_name prev value)
        (editingMedication st))
     (toasts st) (clock st) (ticks st).

Definition editDosage (value : string) (st : State) : State :=
  mk (medications st) (prescriptionImages st) (isAnalyzing st) (isEditing st)
     (option_map (fun prev => Medication.with_dosage prev value)
        (editingMedication st))
     (toasts st) (clock st) (ticks st).

Definition medicationUpdatedToast : Toast.t :=
  Toast.mk None "Medication Updated" "Medication information has been updated.".

Definition saveMedicationEdit (st : State) : State :=
  match editingMedication st with
  | None => st
  | Some editingMedication =>
      let updatedMedications :=
        map (fun med =>
               if String.eqb (Medication.name med)
                    (Medication.name editingMedication)
               then editingMedication else med)
          (medications st) in
      let st1 := handleMedicationsUpdate updatedMedications st in
      toast medicationUpdatedToast
        (mk (medications st1) (prescriptionImages st1) (isAnalyzing st1) false
           None (toasts st1) (clock st1) (ticks st1))
  end.

Definition medicationRemovedToast : Toast.t :=
  Toast.mk None "Medication Removed"
    "Medication has been removed from your list.".

Definition removeMedication (medicationName : string) (st : State) : State :=
  let updatedMedications :=
    filter (fun med => negb (String.eqb (Medication.name med) medicationName))
      (medications st) in
  toast medicationRemovedToast (handleMedicationsUpdate updatedMedications st).

Definition initial (clock : nat -> Z) : State :=
  mk [] [] false false None [] clock 0.

End Rx.

(** A picked file of exactly 10 MB, and a date printer for the examples. *)
Definition tenMegabytes : Rx.File := Rx.mkFile (10 * 1024 * 1024) "blob:rx".

Definition sampleDate (t : Z) : string := string_of_Z t.

(** ** Sessions with the profile editor *)






(** What the field test of [handleCloseProfileModal] takes for a field that
    is not filled in: an absent field, the numbers 0 and NaN, and a text
    without a character other than white space. *)
Definition countsAsEmpty (v : option ProfileValue) : Prop :=
  match v with
  | None => True
  | Some (PNumber x) => (x =? 0)%float = true \/ PrimFloat.is_nan x = true
  | Some (PText s) => isBlank s = true
  | Some (PGender _) => False
  | Some (PContact _) => False
  end.

(** A follow-up on the age is pending and the age input was cleared, which
    stores 0. *)
Definition ageZeroPendingWorld : World :=
  mkWorld [initialWelcomeMessage (sampleClock 0)] false
    (UserProfile.mk (Some 0%float) None None None None None None None None None)
    [] true (Some AISuggestedKey.age) (Some sampleQuestion)
    false (fun _ => None) heartRate [] [] sampleClock 1.

(** * Properties *)

(** ** The classifier *)

Lemma scalarKinds_spec (k : VitalKind) :
  In k scalarKinds <-> exists r, normalRanges k = ScalarEntry r.
Proof.
  split.
  - intros H; destruct k; simpl in H; try (eexists; reflexivity).
    repeat (destruct H as [H | H]; try discriminate H); contradiction.
  - intros [r H]; destruct k; simpl; try discriminate H; tauto.
Qed.

Lemma VitalKey_eqb_eq (a b : VitalKey) : VitalKey_eqb a b = true <-> a = b.
Proof.
  split.
  - destruct a as [|x], b as [|y]; simpl; try discriminate; auto.
    destruct x, y; simpl; try discriminate; reflexivity.
  - intros ->. destruct b as [|y]; [reflexivity | destruct y; reflexivity].
Qed.

(** The status of a number under a scalar entry, as one equation. *)
Lemma getVitalStatus_scalar (k : VitalKind) (r : Range.t) (v : float) :
  normalRanges k = ScalarEntry r ->
  getVitalStatus (KVital k) (VNumber v) =
    Ok (if ((v <? Range.min r) || (Range.max r <? v))%float
        then "warning" else "normal").
Proof.
  intros Hr. unfold getVitalStatus, normalRanges_at. rewrite Hr.
  destruct k; try discriminate Hr; simpl;
    unfold js_lt, js_gt, ToNumber;
    destruct ((v <? Range.min r) || (Range.max r <? v))%float; reflexivity.
Qed.

(** The bounds themselves are inside the range. *)
Example temperature_bounds :
  getVitalStatus (KVital temperature) (VNumber 36.1) = Ok "normal"
  /\ getVitalStatus (KVital temperature) (VNumber 37.2) = Ok "normal"
  /\ getVitalStatus (KVital temperature) (VNumber 36.0) = Ok "warning"
  /\ getVitalStatus (KVital oxygenSaturation) (VNumber 94) = Ok "warning"
  /\ getVitalStatus (KVital steps) (VNumber 15000) = Ok "warning"
  /\ getVitalStatus (KVital heartRate) (VNumber PrimFloat.nan) = Ok "normal".
Proof. repeat split. Qed.

(** C7. For each of the six scalar kinds and every number, the status is
    'warning' exactly when the number is strictly below the kind's configured
    minimum or strictly above its configured maximum, and 'normal' otherwise
    (comparisons are those of binary64 numbers, so NaN is 'normal').  Heart
    rate has range [60,100]; 72 is 'normal' and 45 is 'warning'. *)
Theorem getVitalStatus_scalar_range (k : VitalKind) (v : float) :
  In k scalarKinds ->
  exists r,
    normalRanges k = ScalarEntry r
    /\ (getVitalStatus (KVital k) (VNumber v) = Ok "warning"
        <-> ((v <? Range.min r)%float = true \/ (Range.max r <? v)%float = true))
    /\ (getVitalStatus (KVital k) (VNumber v) = Ok "normal"
        <-> ~ ((v <? Range.min r)%float = true \/ (Range.max r <? v)%float = true))
    /\ normalRanges heartRate = ScalarEntry (Range.mk 60 100)
    /\ getVitalStatus (KVital heartRate) (VNumber 72) = Ok "normal"
    /\ getVitalStatus (KVital heartRate) (VNumber 45) = Ok "warning".
Proof.
  intros Hk. apply scalarKinds_spec in Hk. destruct Hk as [r Hr].
  exists r. split; [exact Hr |].
  rewrite (getVitalStatus_scalar k r v Hr).
  destruct (v <? Range.min r)%float eqn:Hlo, (Range.max r <? v)%float eqn:Hhi;
    simpl; repeat split; intros; try reflexivity; try discriminate;
    try tauto; try (intros [?|?]; discriminate);
    try (exfalso; intuition congruence).
Qed.

Lemma getVitalStatus_scalar_range_witness :
  exists r,
    normalRanges temperature = ScalarEntry r
    /\ (getVitalStatus (KVital temperature) (VNumber 38.5) = Ok "warning"
        <-> ((38.5 <? Range.min r)%float = true
             \/ (Range.max r <? 38.5)%float = true))
    /\ (getVitalStatus (KVital temperature) (VNumber 38.5) = Ok "normal"
        <-> ~ ((38.5 <? Range.min r)%float = true
               \/ (Range.max r <? 38.5)%float = true))
    /\ normalRanges heartRate = ScalarEntry (Range.mk 60 100)
    /\ getVitalStatus (KVital heartRate) (VNumber 72) = Ok "normal"
    /\ getVitalStatus (KVital heartRate) (VNumber 45) = Ok "warning".
Proof.
  apply (getVitalStatus_scalar_range temperature 38.5%float).
  simpl. tauto.
Defined.

(** C10. The classifier never throws and answers 'normal' or 'warning' for
    every key of a reading and every value, number or object; for a key
    without an entry in the range table, such as timestamp, it answers
    'normal'. *)
Theorem getVitalStatus_total (type : VitalKey) (value : VitalValue) :
  (getVitalStatus type value = Ok "normal"
   \/ getVitalStatus type value = Ok "warning")
  /\ (normalRanges_at type = None -> getVitalStatus type value = Ok "normal")
  /\ normalRanges_at KTimestamp = None
  /\ getVitalStatus KTimestamp value = Ok "normal".
Proof.
  repeat split; try reflexivity.
  - destruct type as [|k]; [left; reflexivity |].
    destruct k; unfold getVitalStatus; simpl;
      match goal with
      | |- context [if ?c then _ else _] => destruct c; auto
      end.
  - intros H. unfold getVitalStatus. rewrite H. reflexivity.
Qed.

Lemma getVitalStatus_total_witness :
  getVitalStatus KTimestamp (VNumber 5) = Ok "normal".
Proof.
  destruct (getVitalStatus_total KTimestamp (VNumber 5)) as [_ [H _]].
  apply H. reflexivity.
Defined.

(** C1 (what the code does).  [renderVitalCard] passes the whole
    [{systolic, diastolic}] object to the classifier, which compares it as a
    number: the object converts to NaN, both range tests are false, and the
    status is 'normal' whatever the systolic component is.  A reading of
    150/70, whose systolic component is above the maximum of 140, is shown
    with the 'Normal' badge; only a bare number in place of the object is
    classified against the systolic range. *)
Theorem bloodPressure_object_never_warns (bp : BloodPressure.t) :
  getVitalStatus (KVital bloodPressure) (VPressure bp) = Ok "normal"
  /\ getVitalStatus (KVital bloodPressure)
       (VPressure (BloodPressure.mk 150 70)) = Ok "normal"
  /\ (forall latestVitals unit,
        VitalSigns.bloodPressure latestVitals = Some (VPressure bp) ->
        vitalCardOf latestVitals bloodPressure unit =
          Some (Ok (VitalCard.mk (KVital bloodPressure) "Blood Pressure" unit
                      "secondary" "Normal" "text-green-600")))
  /\ normalRanges bloodPressure
     = PressureEntry (PressureRange.mk (Range.mk 90 140) (Range.mk 60 90))
  /\ (140 <? BloodPressure.systolic (BloodPressure.mk 150 70))%float = true
  /\ getVitalStatus (KVital bloodPressure) (VNumber 150) = Ok "warning".
Proof.
  repeat split; try reflexivity.
  intros latestVitals unit H. unfold vitalCardOf. simpl. rewrite H.
  reflexivity.
Qed.

(** ** Feedback *)

Lemma nth_error_map_feedback (f : ChatMessage.t -> ChatMessage.t)
    (l : list ChatMessage.t) (i : nat) :
  nth_error (map f l) i = option_map f (nth_error l i).
Proof.
  revert i. induction l as [|m l IH]; intros [|i]; simpl; auto.
Qed.

(** C9. [handleFeedback] keeps the length and the order of the message list:
    the message at each position is the old one, with its feedback set to
    the given value when its id is the given id and untouched otherwise, so
    every other field of every message is kept; when no message has the id
    the list is unchanged.  Nothing else of the state changes. *)
Theorem handleFeedback_frame (w : World) (messageId : string) (fb : Feedback) :
  let w' := exec (handleFeedback messageId fb) w in
  List.length (messages w') = List.length (messages w)
  /\ (forall i msg, nth_error (messages w) i = Some msg ->
        exists msg', nth_error (messages w') i = Some msg'
          /\ ChatMessage.id msg' = ChatMessage.id msg
          /\ ChatMessage.text msg' = ChatMessage.text msg
          /\ ChatMessage.sender msg' = ChatMessage.sender msg
          /\ ChatMessage.timestamp msg' = ChatMessage.timestamp msg
          /\ ChatMessage.isLoading msg' = ChatMessage.isLoading msg
          /\ ChatMessage.isFollowUpPrompt msg' = ChatMessage.isFollowUpPrompt msg
          /\ ChatMessage.originalQuestion msg' = ChatMessage.originalQuestion msg
          /\ (ChatMessage.id msg = messageId ->
              ChatMessage.feedback msg' = Some fb)
          /\ (ChatMessage.id msg <> messageId -> msg' = msg))
  /\ (unusedId messageId (messages w) -> messages w' = messages w)
  /\ (userProfile w' = userProfile w /\ vitalSigns w' = vitalSigns w
      /\ lastUserQuestionForFollowUp w' = lastUserQuestionForFollowUp w
      /\ currentAiFollowUpKey w' = currentAiFollowUpKey w
      /\ isLoading w' = isLoading w
      /\ isProfileModalOpen w' = isProfileModalOpen w
      /\ toasts w' = toasts w /\ requests w' = requests w).
Proof.
  cbn. repeat split.
  - apply length_map.
  - intros i msg Hi. rewrite nth_error_map_feedback, Hi. simpl.
    destruct (String.eqb (ChatMessage.id msg) messageId) eqn:E.
    + eexists; split; [reflexivity |]. simpl.
      apply String.eqb_eq in E. repeat split; auto. intros; contradiction.
    + eexists; split; [reflexivity |].
      apply String.eqb_neq in E. repeat split; auto. intros; contradiction.
  - intros Hun. induction (messages w) as [|m l IH]; simpl; [reflexivity |].
    assert (Hm : ChatMessage.id m <> messageId) by (apply Hun; left; reflexivity).
    apply String.eqb_neq in Hm. rewrite Hm. f_equal.
    apply IH. intros m' Hin. apply Hun. right; exact Hin.
Qed.

Lemma handleFeedback_frame_witness :
  exists msg',
    nth_error
      (messages (exec (handleFeedback "welcome-message" good)
                   (initialWorld sampleClock))) 0
    = Some msg'
    /\ ChatMessage.feedback msg' = Some good
    /\ ChatMessage.text msg'
       = ChatMessage.text (initialWelcomeMessage (sampleClock 0)).
Proof.
  destruct (handleFeedback_frame (initialWorld sampleClock)
              "welcome-message" good) as [_ [H _]].
  destruct (H 0%nat (initialWelcomeMessage (sampleClock 0)) eq_refl)
    as [msg' [Hn [_ [Ht [_ [_ [_ [_ [_ [Hfb _]]]]]]]]]].
  exists msg'. split; [exact Hn | split; [apply Hfb; reflexivity | exact Ht]].
Defined.

(** ** Manual entry *)

Lemma number_truthy_nonzero (x : float) :
  number_truthy x = true -> (x =? 0)%float = false.
Proof.
  unfold number_truthy. intros H. apply andb_true_iff in H.
  destruct H as [H _]. apply negb_true_iff in H. exact H.
Qed.

(** A value stored by the dialog is either truthy or zero, never NaN. *)
Lemma number_or_zero (parsed : float) :
  number_truthy (number_or parsed 0) = negb (number_or parsed 0 =? 0)%float.
Proof.
  unfold number_or. destruct (number_truthy parsed) eqn:E.
  - rewrite E. rewrite (number_truthy_nonzero _ E). reflexivity.
  - reflexivity.
Qed.

Lemma get_set_only_timestamp (ts : Z) (k k' : VitalKind) (v : option VitalValue) :
  VitalSigns.get (VitalSigns.set (VitalSigns.only_timestamp ts) k v) k' =
    if VitalKind_eqb k' k then v else None.
Proof. destruct k, k'; reflexivity. Qed.

Lemma timestamp_set (r : VitalSigns.t) (k : VitalKind) (v : option VitalValue) :
  VitalSigns.timestamp (VitalSigns.set r k v) = VitalSigns.timestamp r.
Proof. destruct k; reflexivity. Qed.

(** C8. A manual entry changes the store of readings only when the value
    entered for the selected kind is present and nonzero; a missing value or
    a value of 0 is rejected with the validation notification and the store
    is left as it was.  An accepted entry adds exactly one reading in front of
    the store, stamped with the current reading of the clock and carrying the
    selected measurement and no other.  For the values the dialog stores,
    accepted means exactly nonzero. *)
Theorem handleManualEntry_store (w : World) :
  let k := selectedVitalType w in
  let w' := exec (manualEntry w) w in
  (vitalSigns w' <> vitalSigns w ->
     exists x, manualVitals w k = Some x /\ (x =? 0)%float = false)
  /\ ((manualVitals w k = None
       \/ exists x, manualVitals w k = Some x /\ (x =? 0)%float = true) ->
      vitalSigns w' = vitalSigns w
      /\ toasts w' = (toasts w ++ [valueRequiredToast])%list)
  /\ (forall x, manualVitals w k = Some x -> number_truthy x = true ->
      exists r,
        vitalSigns w' = r :: vitalSigns w
        /\ VitalSigns.timestamp r = clock w (ticks w)
        /\ ticks w' = S (ticks w)
        /\ (forall k', VitalSigns.get r k' =
                         if VitalKind_eqb k' k then Some (VNumber x) else None)
        /\ toasts w' = (toasts w ++ [vitalsUpdatedToast])%list)
  /\ (forall parsed,
        number_truthy (number_or parsed 0)
        = negb (number_or parsed 0 =? 0)%float).
Proof.
  intros k w'. subst k w'. unfold manualEntry, handleManualEntry, exec.
  destruct (manualVitals w (selectedVitalType w)) as [x|] eqn:Hx.
  - destruct (number_truthy x) eqn:Ht; cbn.
    + pose proof (number_truthy_nonzero _ Ht) as Hnz.
      split; [| split; [| split]].
      * intros _. exists x. split; [reflexivity | exact Hnz].
      * intros [H | [y [Hy Hz]]]; [discriminate |].
        injection Hy as <-. congruence.
      * intros y Hy _. injection Hy as <-.
        eexists. split; [reflexivity |].
        rewrite timestamp_set. repeat split.
        intros k'. apply get_set_only_timestamp.
      * intros parsed. apply number_or_zero.
    + split; [| split; [| split]].
      * intros H; contradiction H; reflexivity.
      * intros _. split; reflexivity.
      * intros y Hy Hty. injection Hy as <-. congruence.
      * intros parsed. apply number_or_zero.
  - cbn. split; [| split; [| split]].
    + intros H; contradiction H; reflexivity.
    + intros _. split; reflexivity.
    + intros y Hy. discriminate.
    + intros parsed. apply number_or_zero.
Qed.

Lemma handleManualEntry_store_witness :
  exists r,
    vitalSigns (exec (manualEntry typedValueWorld) typedValueWorld)
    = r :: vitalSigns typedValueWorld
    /\ VitalSigns.timestamp r = clock typedValueWorld (ticks typedValueWorld)
    /\ VitalSigns.get r heartRate = Some (VNumber 72)
    /\ VitalSigns.get r steps = None.
Proof.
  destruct (handleManualEntry_store typedValueWorld) as [_ [_ [H _]]].
  destruct (H 72%float eq_refl eq_refl) as [r [Hv [Ht [_ [Hg _]]]]].
  exists r. split; [exact Hv | split; [exact Ht | split]].
  - exact (Hg heartRate).
  - exact (Hg steps).
Defined.

(** ** Closing the profile editor *)

Lemma string_length_ind (P : string -> Prop) :
  (forall s, (forall t, (String.length t < String.length s)%nat -> P t) -> P s) ->
  forall s, P s.
Proof.
  intros H s.
  assert (Hn : forall n t, (String.length t < n)%nat -> P t).
  { induction n as [|n IH]; intros t Ht; [lia |].
    apply H. intros u Hu. apply IH. lia. }
  apply (Hn (S (String.length s))). lia.
Qed.

Lemma isBlank_trimStart (s : string) : isBlank (trimStart s) = isBlank s.
Proof.
  induction s as [s IH] using string_length_ind.
  destruct s as [|c1 rest1]; [reflexivity |].
  cbn [trimStart isBlank].
  destruct (isWhiteSpace c1) eqn:E1; [apply IH; cbn; lia |].
  destruct rest1 as [|c2 rest2].
  { cbn [isBlank]. rewrite E1. reflexivity. }
  destruct (isWhiteSpace2 c1 c2) eqn:E2; [apply IH; cbn; lia |].
  destruct rest2 as [|c3 rest3].
  { cbn [isBlank]. rewrite E1, E2. reflexivity. }
  destruct (isWhiteSpace3 c1 c2 c3) eqn:E3; [apply IH; cbn; lia |].
  cbn [isBlank]. rewrite E1, E2, E3. reflexivity.
Qed.

Lemma trimEnd_empty (s : string) :
  trimEnd s = EmptyString <-> isBlank s = true.
Proof.
  induction s as [s IH] using string_length_ind.
  destruct s as [|c1 rest1]; [split; reflexivity |].
  cbn [trimEnd isBlank].
  destruct (isWhiteSpace c1) eqn:E1.
  { rewrite <- (IH rest1) by (cbn; lia).
    destruct (trimEnd rest1); split; congruence. }
  destruct rest1 as [|c2 rest2]; [split; discriminate |].
  destruct (isWhiteSpace2 c1 c2) eqn:E2.
  { rewrite <- (IH rest2) by (cbn; lia).
    destruct (trimEnd rest2); split; congruence. }
  destruct rest2 as [|c3 rest3]; [split; discriminate |].
  destruct (isWhiteSpace3 c1 c2 c3) eqn:E3; [| split; discriminate].
  rewrite <- (IH rest3) by (cbn; lia).
  destruct (trimEnd rest3); split; congruence.
Qed.

(** The no-break space, the ideographic space, the line separator and the
    byte order mark are trimmed like the space; other characters are kept. *)
Example trim_unicode :
  trim (String (ascii_of_nat 194) (String (ascii_of_nat 160) "a")) = "a"
  /\ isBlank (String (ascii_of_nat 194) (String (ascii_of_nat 160) " ")) = true
  /\ isBlank (String (ascii_of_nat 227) (String (ascii_of_nat 128)
               (String (ascii_of_nat 128) EmptyString))) = true
  /\ isBlank (String (ascii_of_nat 226) (String (ascii_of_nat 128)
               (String (ascii_of_nat 168) EmptyString))) = true
  /\ isBlank (String (ascii_of_nat 239) (String (ascii_of_nat 187)
               (String (ascii_of_nat 191) EmptyString))) = true
  /\ trim ("x" ++ String (ascii_of_nat 226) (String (ascii_of_nat 130)
             (String (ascii_of_nat 172) " "))) =
     "x" ++ String (ascii_of_nat 226) (String (ascii_of_nat 130)
              (String (ascii_of_nat 172) EmptyString))
  /\ isBlank (String (ascii_of_nat 226) (String (ascii_of_nat 128)
               (String (ascii_of_nat 139) EmptyString))) = false.
Proof. repeat split. Qed.

Example trim_examples :
  trim "  120/80 " = "120/80"
  /\ trim (" " ++ nl) = EmptyString
  /\ trim "no known allergies" = "no known allergies".
Proof. repeat split. Qed.

(** [trim] leaves nothing exactly of the blank texts. *)
Lemma trim_empty (s : string) : trim s = EmptyString <-> isBlank s = true.
Proof.
  unfold trim. rewrite trimEnd_empty, isBlank_trimStart. reflexivity.
Qed.

Lemma fieldEmpty_not_filled (v : option ProfileValue) :
  fieldEmpty v -> relevantProfileFieldFilled v = false.
Proof.
  destruct v as [[x|g|s|c]|]; simpl; try contradiction; auto.
  intros H. apply trim_empty in H. rewrite H. simpl.
  apply andb_false_r.
Qed.

Lemma string_truthy_iff (s : string) :
  string_truthy s = true <-> s <> EmptyString.
Proof.
  unfold string_truthy. rewrite negb_true_iff. apply String.eqb_neq.
Qed.

(** C6. Closing the profile editor while a follow-up is pending (question and
    field key both set) and the profile field named by the key is still empty
    appends exactly one assistant turn, the neutral 'no problem' message,
    clears both parts of the pending follow-up, and sends nothing to the
    collaborator. *)
Theorem handleCloseProfileModal_cancel (w : World) (question : string)
    (key : AISuggestedKey.t) :
  lastUserQuestionForFollowUp w = Some question ->
  question <> EmptyString ->
  currentAiFollowUpKey w = Some key ->
  fieldEmpty (UserProfile.get (userProfile w) key) ->
  let w' := exec (handleCloseProfileModal w) w in
  (exists m,
      messages w' = (messages w ++ [m])%list
      /\ ChatMessage.text m = cancelFollowUpText
      /\ ChatMessage.sender m = ai
      /\ ChatMessage.isFollowUpPrompt m = Some true
      /\ ChatMessage.isLoading m = None)
  /\ lastUserQuestionForFollowUp w' = None
  /\ currentAiFollowUpKey w' = None
  /\ requests w' = requests w
  /\ isProfileModalOpen w' = false.
Proof.
  intros Hq Hne Hk Hempty w'. subst w'.
  unfold exec, handleCloseProfileModal. rewrite Hq, Hk.
  apply string_truthy_iff in Hne.
  apply fieldEmpty_not_filled in Hempty.
  unfold bind, when. cbn. rewrite Hne, Hempty. cbn.
  split; [| repeat split].
  eexists. split; [reflexivity |]. repeat split.
Qed.

Lemma handleCloseProfileModal_cancel_witness :
  (exists m,
      messages (exec (handleCloseProfileModal agePendingWorld) agePendingWorld)
      = (messages agePendingWorld ++ [m])%list
      /\ ChatMessage.text m = cancelFollowUpText
      /\ ChatMessage.sender m = ai
      /\ ChatMessage.isFollowUpPrompt m = Some true
      /\ ChatMessage.isLoading m = None)
  /\ lastUserQuestionForFollowUp
       (exec (handleCloseProfileModal agePendingWorld) agePendingWorld) = None
  /\ currentAiFollowUpKey
       (exec (handleCloseProfileModal agePendingWorld) agePendingWorld) = None
  /\ requests (exec (handleCloseProfileModal agePendingWorld) agePendingWorld)
     = requests agePendingWorld
  /\ isProfileModalOpen
       (exec (handleCloseProfileModal agePendingWorld) agePendingWorld) = false.
Proof.
  apply (handleCloseProfileModal_cancel agePendingWorld sampleQuestion
           AISuggestedKey.age).
  - reflexivity.
  - discriminate.
  - reflexivity.
  - simpl. exact I.
Defined.

(** ** Submitting a question *)

Arguments string_of_Z : simpl never.
Arguments removeById : simpl never.

Lemma removeById_app (id : string) (l1 l2 : list ChatMessage.t) :
  removeById id (l1 ++ l2) = (removeById id l1 ++ removeById id l2)%list.
Proof. apply filter_app. Qed.

Lemma removeById_unused (id : string) (l : list ChatMessage.t) :
  unusedId id l -> removeById id l = l.
Proof.
  unfold unusedId, removeById. induction l as [|m l IH]; intros H; simpl.
  - reflexivity.
  - assert (Hm : ChatMessage.id m <> id) by (apply H; left; reflexivity).
    apply String.eqb_neq in Hm. rewrite Hm. simpl. f_equal.
    apply IH. intros m' Hin. apply H. right; exact Hin.
Qed.

Lemma removeById_removes (id : string) (l : list ChatMessage.t) :
  unusedId id (removeById id l).
Proof.
  intros m Hin. unfold removeById in Hin. apply filter_In in Hin.
  destruct Hin as [_ Hne]. apply negb_true_iff in Hne.
  now apply String.eqb_neq.
Qed.

Lemma unusedId_app (id : string) (l1 l2 : list ChatMessage.t) :
  unusedId id l1 -> unusedId id l2 -> unusedId id (l1 ++ l2).
Proof.
  intros H1 H2 m Hin. apply in_app_or in Hin. destruct Hin; auto.
Qed.

(** Unfolds a handler run down to the world it produces. *)
Ltac run_handler :=
  unfold exec, handleSubmitQuestion, handleSaveProfile,
    handleCloseProfileModal, bind, when, ret;
  cbn.

(** After a rejected call the messages are the old ones without any turn
    carrying the pending id, then the user turn and the error turn. *)
Lemma submit_rejected_messages (w : World) (question : string) :
  exists errorMessage,
    messages (exec (handleSubmitQuestion w question Rejected) w)
    = (removeById (pendingIdOf w) (messages w)
       ++ [userTurnOf w question; errorMessage])%list
    /\ ChatMessage.id errorMessage
       = "ai-error-" ++ string_of_Z (clock w (4 + ticks w)%nat)
    /\ ChatMessage.text errorMessage = submitErrorText
    /\ ChatMessage.sender errorMessage = ai
    /\ ChatMessage.isLoading errorMessage = None.
Proof.
  eexists. split.
  - run_handler. rewrite !removeById_app. unfold removeById at 2 3. cbn.
    rewrite String.eqb_refl. cbn. rewrite <- !app_assoc. reflexivity.
  - repeat split.
Qed.

(** After a resolved call: the pending turn is dropped and replaced by the
    answer turn, or by the information turn and the follow-up prompt when the
    collaborator asks a follow-up question. *)
Lemma submit_resolved_messages (w : World) (question : string)
    (result : QAOutput.t) :
  exists replies,
    messages (exec (handleSubmitQuestion w question (Resolved result)) w)
    = (removeById (pendingIdOf w) (messages w)
       ++ userTurnOf w question :: replies)%list
    /\ Forall (fun m => ChatMessage.sender m = ai
                        /\ ChatMessage.isLoading m = None
                        /\ ChatMessage.id m <> pendingIdOf w) replies
    /\ if text_truthy (QAOutput.followUpQuestion result)
       then exists info prompt,
           replies = [info; prompt]
           /\ ChatMessage.isFollowUpPrompt info = None
           /\ ChatMessage.isFollowUpPrompt prompt = Some true
           /\ QAOutput.followUpQuestion result = Some (ChatMessage.text prompt)
       else exists answer,
           replies = [answer]
           /\ ChatMessage.isFollowUpPrompt answer = None
           /\ ChatMessage.text answer
              = addInsightsAndRecommendations (QAOutput.answer result) result.
Proof.
  destruct (text_truthy (QAOutput.followUpQuestion result)) eqn:Hf.
  - eexists. split; [| split].
    + run_handler. rewrite Hf. cbn.
      rewrite !removeById_app. unfold removeById at 2 3. cbn.
      rewrite String.eqb_refl. cbn. rewrite <- !app_assoc. cbn. reflexivity.
    + repeat constructor; apply String.eqb_neq; reflexivity.
    + do 2 eexists. split; [reflexivity |]. cbn. repeat split.
      destruct (QAOutput.followUpQuestion result); [reflexivity | discriminate].
  - eexists. split; [| split].
    + run_handler. rewrite Hf. cbn.
      rewrite !removeById_app. unfold removeById at 2 3. cbn.
      rewrite String.eqb_refl. cbn. rewrite <- !app_assoc. cbn. reflexivity.
    + repeat constructor; apply String.eqb_neq; reflexivity.
    + eexists. split; [reflexivity |]. cbn. repeat split.
Qed.

Lemma userTurn_not_pending (w : World) (question : string) :
  ChatMessage.id (userTurnOf w question) <> pendingIdOf w.
Proof. apply String.eqb_neq. reflexivity. Qed.

Lemma unusedId_cons (id : string) (m : ChatMessage.t) (l : list ChatMessage.t) :
  ChatMessage.id m <> id -> unusedId id l -> unusedId id (m :: l).
Proof.
  intros Hm Hl m' [<- | Hin]; [exact Hm | now apply Hl].
Qed.

Lemma unusedId_not_In (m : ChatMessage.t) (l : list ChatMessage.t) :
  unusedId (ChatMessage.id m) l -> ~ In m l.
Proof. intros H Hin. exact (H m Hin eq_refl). Qed.

Lemma submit_messages (w : World) (question : string) (outcome : Outcome) :
  exists replies,
    messages (exec (handleSubmitQuestion w question outcome) w)
    = (removeById (pendingIdOf w) (messages w)
       ++ userTurnOf w question :: replies)%list
    /\ Forall (fun m => ChatMessage.sender m = ai
                        /\ ChatMessage.isLoading m = None
                        /\ ChatMessage.id m <> pendingIdOf w) replies
    /\ repliesShape outcome replies.
Proof.
  destruct outcome as [result|].
  - exact (submit_resolved_messages w question result).
  - destruct (submit_rejected_messages w question)
      as [e [Hm [Hid [Ht [Hs Hl]]]]].
    exists [e]. split; [exact Hm | split].
    + repeat constructor; auto.
      rewrite Hid. apply String.eqb_neq. reflexivity.
    + exists e. split; [reflexivity | exact Ht].
Qed.

(** What a submission leaves alone, and the one request it sends. *)
Lemma submit_frame (w : World) (question : string) (outcome : Outcome) :
  let w' := exec (handleSubmitQuestion w question outcome) w in
  userProfile w' = userProfile w
  /\ vitalSigns w' = vitalSigns w
  /\ requests w'
     = (requests w
        ++ [buildInput question (userProfile w)
              (latestVitalsOf (vitalSigns w))])%list
  /\ clock w' = clock w
  /\ (ticks w <= ticks w')%nat
  /\ isLoading w' = false.
Proof.
  destruct outcome as [result|]; run_handler.
  - destruct (text_truthy (QAOutput.followUpQuestion result)); cbn;
      repeat split; lia.
  - repeat split; lia.
Qed.

Lemma submit_pending_removed (w : World) (question : string)
    (outcome : Outcome) :
  unusedId (pendingIdOf w)
    (messages (exec (handleSubmitQuestion w question outcome) w)).
Proof.
  destruct (submit_messages w question outcome) as [replies [Hm [Hall _]]].
  rewrite Hm. apply unusedId_app.
  - apply removeById_removes.
  - apply unusedId_cons; [apply userTurn_not_pending |].
    intros m Hin. rewrite Forall_forall in Hall.
    destruct (Hall m Hin) as [_ [_ H]]. exact H.
Qed.

(** ** Pending turns do not outlive their handler *)

Lemma settled_app (l1 l2 : list ChatMessage.t) :
  settled l1 -> settled l2 -> settled (l1 ++ l2).
Proof. intros H1 H2. apply Forall_app. split; assumption. Qed.

Lemma settled_removeById (id : string) (l : list ChatMessage.t) :
  settled l -> settled (removeById id l).
Proof.
  unfold settled, removeById. rewrite !Forall_forall.
  intros H m Hin. apply filter_In in Hin. apply H. tauto.
Qed.

Lemma removeById_mk (id text : string) (sender : Sender) (ts : Z)
    (l : option bool) (f : option Feedback) (p : option bool)
    (o : option string) :
  removeById id [ChatMessage.mk id text sender ts l f p o] = [].
Proof. unfold removeById. cbn. rewrite String.eqb_refl. reflexivity. Qed.

Lemma settled_map_feedback (messageId : string) (fb : Feedback)
    (l : list ChatMessage.t) :
  settled l ->
  settled (map (fun msg =>
                  if String.eqb (ChatMessage.id msg) messageId
                  then ChatMessage.with_feedback msg fb else msg) l).
Proof.
  unfold settled. intros H. apply Forall_map.
  eapply Forall_impl; [| exact H]. cbn. intros m Hm.
  destruct (String.eqb (ChatMessage.id m) messageId); exact Hm.
Qed.

(** Splits a message list built by a handler into the old list and the turns
    appended to it. *)
Ltac settle :=
  lazymatch goal with
  | |- settled (_ ++ _) => apply settled_app; [settle | settle]
  | |- settled (removeById _ _) => apply settled_removeById; settle
  | |- settled (messages _) => assumption
  | |- settled [] => constructor
  | |- settled (_ :: _) => repeat constructor
  end.

Lemma step_settled (JSON_stringify : UserProfile.t -> string) (e : Event)
    (w : World) :
  settled (messages w) -> settled (messages (step JSON_stringify e w)).
Proof.
  intros Hw.
  destruct e as [question outcome | newProfileData outcome | | messageId fb
                | value | parsed | ]; unfold step.
  - destruct outcome as [result|]; run_handler.
    + destruct (text_truthy (QAOutput.followUpQuestion result)); cbn;
        rewrite !removeById_app, removeById_mk; settle.
    + rewrite !removeById_app, removeById_mk; settle.
  - unfold exec, handleSaveProfile, bind, when, ret.
    destruct (text_truthy (lastUserQuestionForFollowUp w));
      [destruct outcome as [result|] | destruct (negb _)]; cbn.
    + destruct (text_truthy (QAOutput.followUpQuestion result)); cbn;
        rewrite !removeById_app, removeById_mk; settle.
    + rewrite !removeById_app, removeById_mk; settle.
    + settle.
    + settle.
  - unfold exec, handleCloseProfileModal, bind, when, ret. cbn.
    destruct (lastUserQuestionForFollowUp w) as [q|];
      destruct (currentAiFollowUpKey w) as [key|]; cbn; try assumption.
    destruct (string_truthy q); cbn; try assumption.
    destruct (negb _); cbn; settle.
  - cbn. now apply settled_map_feedback.
  - cbn. assumption.
  - cbn. assumption.
  - unfold exec, manualEntry, handleManualEntry.
    destruct (manualVitals w (selectedVitalType w)) as [x|]; cbn;
      try assumption.
    destruct (number_truthy x); cbn; assumption.
Qed.

Lemma reachable_settled (JSON_stringify : UserProfile.t -> string)
    (clock0 : nat -> Z) (w : World) :
  reachable JSON_stringify clock0 w -> settled (messages w).
Proof.
  induction 1 as [|e w Hreach IH].
  - cbn. repeat constructor.
  - now apply step_settled.
Qed.

(** In a world without pending turns the id of a new pending turn is free. *)
Lemma settled_unused (w : World) :
  settled (messages w) -> unusedId (pendingIdOf w) (messages w).
Proof.
  unfold settled. rewrite Forall_forall. intros H m Hin Heq.
  specialize (H m Hin). rewrite Heq in H. unfold pendingIdOf in H.
  cbn in H. destruct (string_of_Z _) in H; discriminate H.
Qed.

(** In every world of a session a submission appends to the list as it is:
    the user turn, then the replies. *)
Lemma reachable_submit_appends (JSON_stringify : UserProfile.t -> string)
    (clock0 : nat -> Z) (w : World) (question : string) (outcome : Outcome) :
  reachable JSON_stringify clock0 w ->
  exists replies,
    messages (exec (handleSubmitQuestion w question outcome) w)
    = (messages w ++ userTurnOf w question :: replies)%list
    /\ Forall (fun m => ChatMessage.sender m = ai) replies
    /\ repliesShape outcome replies.
Proof.
  intros Hreach.
  destruct (submit_messages w question outcome) as [replies [Hm [Hall Hshape]]].
  exists replies. split; [| split; [| exact Hshape]].
  - rewrite Hm, removeById_unused; [reflexivity |].
    apply settled_unused. eapply reachable_settled. exact Hreach.
  - eapply Forall_impl; [| exact Hall]. cbn. tauto.
Qed.

(** ** The turns of a submission *)

(** C2 (as the code has it).  For every question and every way the call
    settles, [handleSubmitQuestion] appends exactly one user turn, carrying
    the question, followed by assistant turns only: exactly one answer turn on
    a plain answer, exactly one error turn on a rejection, and two turns, the
    information turn and the follow-up prompt, when a follow-up is requested.
    The pending 'Thinking...' turn is always removed: no turn with its id
    remains.  The turns are appended to the old list as it was when no old
    turn carried the pending id, which is the case in every world of a
    session. *)
Theorem handleSubmitQuestion_turns (w : World) (question : string)
    (outcome : Outcome) :
  exists replies,
    messages (exec (handleSubmitQuestion w question outcome) w)
    = (removeById (pendingIdOf w) (messages w)
       ++ userTurnOf w question :: replies)%list
    /\ (unusedId (pendingIdOf w) (messages w) ->
        messages (exec (handleSubmitQuestion w question outcome) w)
        = (messages w ++ userTurnOf w question :: replies)%list)
    /\ (forall JSON_stringify clock0,
          reachable JSON_stringify clock0 w ->
          messages (exec (handleSubmitQuestion w question outcome) w)
          = (messages w ++ userTurnOf w question :: replies)%list)
    /\ ChatMessage.sender (userTurnOf w question) = user
    /\ ChatMessage.text (userTurnOf w question) = question
    /\ Forall (fun m => ChatMessage.sender m = ai
                        /\ ChatMessage.isLoading m = None) replies
    /\ repliesShape outcome replies
    /\ unusedId (pendingIdOf w)
         (messages (exec (handleSubmitQuestion w question outcome) w))
    /\ ~ In (pendingTurnOf w)
         (messages (exec (handleSubmitQuestion w question outcome) w)).
Proof.
  destruct (submit_messages w question outcome) as [replies [Hm [Hall Hshape]]].
  exists replies. split; [exact Hm |].
  split; [intros Hun; rewrite Hm, (removeById_unused _ _ Hun); reflexivity |].
  split.
  { intros JSON_stringify clock0 Hreach.
    rewrite Hm, removeById_unused; [reflexivity |].
    apply settled_unused. eapply reachable_settled. exact Hreach. }
  split; [reflexivity |]. split; [reflexivity |].
  split.
  { eapply Forall_impl; [| exact Hall]. cbn. intros m [H1 [H2 _]]. auto. }
  split; [exact Hshape |].
  split; [apply submit_pending_removed |].
  apply unusedId_not_In. apply submit_pending_removed.
Qed.

Lemma handleSubmitQuestion_turns_witness :
  exists replies,
    messages (exec (handleSubmitQuestion (initialWorld sampleClock)
                      sampleQuestion (Resolved ageFollowUp))
                (initialWorld sampleClock))
    = (messages (initialWorld sampleClock)
       ++ userTurnOf (initialWorld sampleClock) sampleQuestion :: replies)%list
    /\ List.length replies = 2%nat.
Proof.
  destruct (handleSubmitQuestion_turns (initialWorld sampleClock)
              sampleQuestion (Resolved ageFollowUp))
    as [replies [_ [_ [Happ [_ [_ [_ [Hshape _]]]]]]]].
  exists replies. split.
  - apply (Happ sampleJSON sampleClock). apply reachable_init.
  - cbn in Hshape. destruct Hshape as [info [prompt [-> _]]]. reflexivity.
Defined.

(** C2 as stated fails when a follow-up is requested: after the user turn the
    handler appends two assistant turns, not one. *)
Lemma handleSubmitQuestion_followUp_two_turns :
  ~ (exists userMessage assistantMessage,
        messages (exec (handleSubmitQuestion (initialWorld sampleClock)
                          sampleQuestion (Resolved ageFollowUp))
                    (initialWorld sampleClock))
        = (messages (initialWorld sampleClock)
           ++ [userMessage; assistantMessage])%list)
  /\ List.length
       (messages (exec (handleSubmitQuestion (initialWorld sampleClock)
                          sampleQuestion (Resolved ageFollowUp))
                    (initialWorld sampleClock)))
     = (List.length (messages (initialWorld sampleClock)) + 3)%nat.
Proof.
  split.
  - intros [u [a H]]. apply (f_equal (@List.length _)) in H.
    vm_compute in H. discriminate H.
  - vm_compute. reflexivity.
Qed.

(** C5. When the collaborator call rejects, the pending turn is removed (no
    turn with its id remains), the user turn is followed by exactly one
    assistant turn carrying the generic failure message (in every world of a
    session these two turns are appended to the list as it was), exactly one
    request was sent to the collaborator, the error notification is emitted,
    and the profile and the store of readings are unchanged. *)
Theorem handleSubmitQuestion_rejected (w : World) (question : string) :
  exists errorMessage,
    messages (exec (handleSubmitQuestion w question Rejected) w)
    = (removeById (pendingIdOf w) (messages w)
       ++ [userTurnOf w question; errorMessage])%list
    /\ (unusedId (pendingIdOf w) (messages w) ->
        messages (exec (handleSubmitQuestion w question Rejected) w)
        = (messages w ++ [userTurnOf w question; errorMessage])%list)
    /\ (forall JSON_stringify clock0,
          reachable JSON_stringify clock0 w ->
          messages (exec (handleSubmitQuestion w question Rejected) w)
          = (messages w ++ [userTurnOf w question; errorMessage])%list)
    /\ ChatMessage.text errorMessage = submitErrorText
    /\ ChatMessage.sender errorMessage = ai
    /\ ChatMessage.isLoading errorMessage = None
    /\ unusedId (pendingIdOf w)
         (messages (exec (handleSubmitQuestion w question Rejected) w))
    /\ ~ In (pendingTurnOf w)
         (messages (exec (handleSubmitQuestion w question Rejected) w))
    /\ requests (exec (handleSubmitQuestion w question Rejected) w)
       = (requests w
          ++ [buildInput question (userProfile w)
                (latestVitalsOf (vitalSigns w))])%list
    /\ toasts (exec (handleSubmitQuestion w question Rejected) w)
       = (toasts w ++ [submitErrorToast])%list
    /\ userProfile (exec (handleSubmitQuestion w question Rejected) w)
       = userProfile w
    /\ vitalSigns (exec (handleSubmitQuestion w question Rejected) w)
       = vitalSigns w.
Proof.
  destruct (submit_rejected_messages w question)
    as [e [Hm [Hid [Ht [Hs Hl]]]]].
  destruct (submit_frame w question Rejected) as [Hp [Hv [Hr _]]].
  exists e. split; [exact Hm |].
  split; [intros Hun; rewrite Hm, (removeById_unused _ _ Hun); reflexivity |].
  split.
  { intros JSON_stringify clock0 Hreach.
    rewrite Hm, removeById_unused; [reflexivity |].
    apply settled_unused. eapply reachable_settled. exact Hreach. }
  repeat (split; [assumption |]).
  split; [apply submit_pending_removed |].
  split; [apply unusedId_not_In; apply submit_pending_removed |].
  repeat (split; [assumption |]).
  split; [reflexivity |]. split; assumption.
Qed.

Lemma handleSubmitQuestion_rejected_witness :
  exists errorMessage,
    messages (exec (handleSubmitQuestion oneReadingWorld sampleQuestion
                      Rejected) oneReadingWorld)
    = (messages oneReadingWorld
       ++ [userTurnOf oneReadingWorld sampleQuestion; errorMessage])%list
    /\ ChatMessage.text errorMessage = submitErrorText.
Proof.
  destruct (handleSubmitQuestion_rejected oneReadingWorld sampleQuestion)
    as [e [_ [_ [Happ [Ht _]]]]].
  exists e. split; [| exact Ht].
  apply (Happ sampleJSON sampleClock).
  unfold oneReadingWorld. apply reachable_step. apply reachable_step.
  apply reachable_init.
Defined.

(** ** Saving the profile *)

(** C4. When the profile is saved while a follow-up is pending (the stored
    question is set, hence non-empty), both parts of the pending follow-up are
    undefined once [handleSaveProfile] completes, whether the refine call
    resolves or rejects.  Exactly one refine request is sent, built from the
    stored question and the saved profile. *)
Theorem handleSaveProfile_clears_pending
    (JSON_stringify : UserProfile.t -> string) (w : World) (question : string)
    (newProfileData : UserProfile.t) (outcome : Outcome) :
  lastUserQuestionForFollowUp w = Some question ->
  question <> EmptyString ->
  lastUserQuestionForFollowUp
    (exec (handleSaveProfile JSON_stringify w newProfileData outcome) w) = None
  /\ currentAiFollowUpKey
       (exec (handleSaveProfile JSON_stringify w newProfileData outcome) w)
     = None
  /\ requests
       (exec (handleSaveProfile JSON_stringify w newProfileData outcome) w)
     = (requests w
        ++ [buildInput question newProfileData
              (latestVitalsOf (vitalSigns w))])%list
  /\ userProfile
       (exec (handleSaveProfile JSON_stringify w newProfileData outcome) w)
     = newProfileData
  /\ isLoading
       (exec (handleSaveProfile JSON_stringify w newProfileData outcome) w)
     = false.
Proof.
  intros Hq Hne. apply string_truthy_iff in Hne.
  unfold exec, handleSaveProfile. rewrite Hq. cbn [text_truthy].
  rewrite Hne. destruct outcome as [result|]; unfold bind, ret; cbn.
  - destruct (text_truthy (QAOutput.followUpQuestion result)); cbn;
      repeat split.
  - repeat split.
Qed.

Lemma handleSaveProfile_clears_pending_witness :
  lastUserQuestionForFollowUp
    (exec (handleSaveProfile sampleJSON agePendingWorld
             UserProfile.empty Rejected) agePendingWorld) = None
  /\ currentAiFollowUpKey
       (exec (handleSaveProfile sampleJSON agePendingWorld
                UserProfile.empty Rejected) agePendingWorld) = None
  /\ requests
       (exec (handleSaveProfile sampleJSON agePendingWorld
                UserProfile.empty Rejected) agePendingWorld)
     = (requests agePendingWorld
        ++ [buildInput sampleQuestion UserProfile.empty
              (latestVitalsOf (vitalSigns agePendingWorld))])%list
  /\ userProfile
       (exec (handleSaveProfile sampleJSON agePendingWorld
                UserProfile.empty Rejected) agePendingWorld)
     = UserProfile.empty
  /\ isLoading
       (exec (handleSaveProfile sampleJSON agePendingWorld
                UserProfile.empty Rejected) agePendingWorld) = false.
Proof.
  apply (handleSaveProfile_clears_pending sampleJSON agePendingWorld
           sampleQuestion UserProfile.empty Rejected).
  - reflexivity.
  - discriminate.
Defined.

(** ** The store of readings *)

(** What the store, the clock and the tick count become after each event. *)
Lemma step_store (JSON_stringify : UserProfile.t -> string) (e : Event)
    (w : World) :
  clock (step JSON_stringify e w) = clock w
  /\ ((vitalSigns (step JSON_stringify e w) = vitalSigns w
       /\ (ticks w <= ticks (step JSON_stringify e w))%nat)
      \/ (exists r,
             vitalSigns (step JSON_stringify e w) = r :: vitalSigns w
             /\ VitalSigns.timestamp r = clock w (ticks w)
             /\ ticks (step JSON_stringify e w) = S (ticks w))).
Proof.
  destruct e as [question outcome | newProfileData outcome | | messageId fb
                | value | parsed | ]; unfold step.
  - destruct (submit_frame w question outcome) as [_ [Hv [_ [Hc [Ht _]]]]].
    split; [exact Hc | left; split; assumption].
  - unfold exec, handleSaveProfile, bind, when, ret.
    destruct (text_truthy (lastUserQuestionForFollowUp w));
      [destruct outcome as [result|] | destruct (negb _)]; cbn.
    + destruct (text_truthy (QAOutput.followUpQuestion result)); cbn;
        (split; [reflexivity | left; split; [reflexivity | lia]]).
    + split; [reflexivity | left; split; [reflexivity | lia]].
    + split; [reflexivity | left; split; [reflexivity | lia]].
    + split; [reflexivity | left; split; [reflexivity | lia]].
  - unfold exec, handleCloseProfileModal, bind, when, ret. cbn.
    destruct (lastUserQuestionForFollowUp w) as [q|];
      destruct (currentAiFollowUpKey w) as [key|]; cbn;
      try (split; [reflexivity | left; split; [reflexivity | lia]]).
    destruct (string_truthy q); cbn;
      try (split; [reflexivity | left; split; [reflexivity | lia]]).
    destruct (negb _); cbn;
      (split; [reflexivity | left; split; [reflexivity | lia]]).
  - cbn. split; [reflexivity | left; split; [reflexivity | lia]].
  - cbn. split; [reflexivity | left; split; [reflexivity | lia]].
  - cbn. split; [reflexivity | left; split; [reflexivity | lia]].
  - unfold exec, manualEntry, handleManualEntry.
    destruct (manualVitals w (selectedVitalType w)) as [x|]; cbn;
      try (split; [reflexivity | left; split; [reflexivity | lia]]).
    destruct (number_truthy x); cbn;
      try (split; [reflexivity | left; split; [reflexivity | lia]]).
    split; [reflexivity | right].
    eexists. split; [reflexivity |]. rewrite timestamp_set. split; reflexivity.
Qed.

Lemma reachable_store (JSON_stringify : UserProfile.t -> string)
    (clock0 : nat -> Z) (w : World) :
  monotone_clock clock0 ->
  reachable JSON_stringify clock0 w ->
  clock w = clock0
  /\ Forall (fun r => (VitalSigns.timestamp r <= clock0 (ticks w))%Z)
       (vitalSigns w)
  /\ newestFirst (vitalSigns w).
Proof.
  intros Hmono Hreach. induction Hreach as [|e w Hreach IH].
  - cbn. repeat split; constructor.
  - destruct IH as [Hc [Hle Hsorted]].
    destruct (step_store JSON_stringify e w) as [Hc' [[Hv Ht] | [r [Hv [Hr Ht]]]]].
    + rewrite Hv. split; [congruence | split; [| exact Hsorted]].
      eapply Forall_impl; [| exact Hle]. cbn. intros r Hr.
      specialize (Hmono _ _ Ht). lia.
    + rewrite Hv, Ht. rewrite Hc in Hr.
      assert (Hstep : (clock0 (ticks w) <= clock0 (S (ticks w)))%Z)
        by (apply Hmono; lia).
      split; [congruence | split].
      * constructor; [lia |].
        eapply Forall_impl; [| exact Hle]. cbn. intros r' Hr'. lia.
      * constructor; [exact Hsorted |].
        eapply Forall_impl; [| exact Hle]. cbn. intros r' Hr'. lia.
Qed.











Example oneReadingWorld_store :
  vitalSigns oneReadingWorld =
    [VitalSigns.set (VitalSigns.only_timestamp (sampleClock 1)) heartRate
       (Some (VNumber 72))].
Proof. reflexivity. Qed.

(** * Further properties of the page component *)

(** ** Follow-up bookkeeping of a submission *)

(** X1. A submission records a pending follow-up exactly when the
    collaborator asks a follow-up question: then the pending key is the
    suggested key (possibly none), the pending question is the submitted
    question and the profile editor is opened.  On a plain answer and on a
    rejection the pending follow-up and the editor are left as they were.  In
    all cases the loading flag ends false. *)
Theorem handleSubmitQuestion_pending_followUp (w : World) (question : string)
    (outcome : Outcome) :
  let w' := exec (handleSubmitQuestion w question outcome) w in
  isLoading w' = false
  /\ match outcome with
     | Resolved result =>
         if text_truthy (QAOutput.followUpQuestion result)
         then currentAiFollowUpKey w' = QAOutput.suggestedKey result
              /\ lastUserQuestionForFollowUp w' = Some question
              /\ isProfileModalOpen w' = true
              /\ toasts w' = toasts w
         else currentAiFollowUpKey w' = currentAiFollowUpKey w
              /\ lastUserQuestionForFollowUp w' = lastUserQuestionForFollowUp w
              /\ isProfileModalOpen w' = isProfileModalOpen w
              /\ toasts w' = toasts w
     | Rejected =>
         currentAiFollowUpKey w' = currentAiFollowUpKey w
         /\ lastUserQuestionForFollowUp w' = lastUserQuestionForFollowUp w
         /\ isProfileModalOpen w' = isProfileModalOpen w
     end.
Proof.
  destruct outcome as [result|]; run_handler.
  - destruct (text_truthy (QAOutput.followUpQuestion result)); cbn;
      repeat split.
  - repeat split.
Qed.

(** ** The text of an answer *)

Lemma prefix_append (s t : string) : String.prefix s (s ++ t) = true.
Proof.
  induction s as [|c s IH]; simpl.
  - destruct t; reflexivity.
  - destruct (ascii_dec c c) as [_ | Hne]; [exact IH | contradiction].
Qed.

Lemma length_append (s t : string) :
  String.length (s ++ t) = (String.length s + String.length t)%nat.
Proof. induction s as [|c s IH]; simpl; [reflexivity | now rewrite IH]. Qed.

Lemma append_assoc (s t u : string) : ((s ++ t) ++ u = s ++ (t ++ u))%string.
Proof. induction s as [|c s IH]; simpl; [reflexivity | now rewrite IH]. Qed.

Lemma prefix_trans_append (s t u : string) :
  String.prefix s t = true -> String.prefix s (t ++ u) = true.
Proof.
  revert t. induction s as [|c s IH]; intros t H.
  - destruct (t ++ u)%string; reflexivity.
  - destruct t as [|d t]; simpl in H; [destruct s; discriminate|].
    simpl. destruct (ascii_dec c d); [now apply IH | discriminate].
Qed.

(** X2. The displayed answer always starts with the text it was built from,
    and is exactly that text if and only if the collaborator supplied neither
    a non-empty list of insights nor a non-empty list of recommendations (a
    missing list and an empty list add nothing, not even a heading). *)
Theorem addInsightsAndRecommendations_keeps_answer (responseText : string)
    (result : QAOutput.t) :
  String.prefix responseText
    (addInsightsAndRecommendations responseText result) = true
  /\ (addInsightsAndRecommendations responseText result = responseText
      <-> nonempty_list (QAOutput.healthInsights result) = false
          /\ nonempty_list (QAOutput.recommendations result) = false).
Proof.
  unfold addInsightsAndRecommendations.
  destruct (nonempty_list (QAOutput.healthInsights result)) eqn:Hi;
    destruct (nonempty_list (QAOutput.recommendations result)) eqn:Hr.
  - split.
    + apply prefix_trans_append. apply prefix_append.
    + split; [| intros [H _]; discriminate].
      intros H. apply (f_equal String.length) in H.
      rewrite !length_append in H. cbn in H. lia.
  - split; [apply prefix_append |].
    split; [| intros [H _]; discriminate].
    intros H. apply (f_equal String.length) in H.
    rewrite !length_append in H. cbn in H. lia.
  - split; [apply prefix_append |].
    split; [| intros [_ H]; discriminate].
    intros H. apply (f_equal String.length) in H.
    rewrite !length_append in H. cbn in H. lia.
  - split.
    + rewrite <- (prefix_append responseText EmptyString) at 1.
      f_equal. induction responseText as [|c s IH]; simpl;
        [reflexivity | now rewrite <- IH].
    + split; auto.
Qed.

(** ** Saving the profile: the other paths *)

Lemma handleSaveProfile_halves (JSON_stringify : UserProfile.t -> string)
    (render : World) (newProfileData : UserProfile.t) (outcome : Outcome)
    (w : World) :
  (inFlight <- handleSaveProfile_call JSON_stringify render newProfileData
                 outcome ;;
   handleSaveProfile_settled inFlight) w
  = handleSaveProfile JSON_stringify render newProfileData outcome w.
Proof.
  unfold handleSaveProfile_call, handleSaveProfile_settled, handleSaveProfile,
    bind, when, ret.
  destruct (text_truthy (lastUserQuestionForFollowUp render));
    [destruct outcome as [result|] | destruct (negb _)]; cbn; reflexivity.
Qed.

Lemma removeById_keep (id : string) (m : ChatMessage.t) :
  String.eqb (ChatMessage.id m) id = false -> removeById id [m] = [m].
Proof. intros H. unfold removeById. cbn. rewrite H. reflexivity. Qed.

(** Distributes [removeById] over the appended turns, dropping the pending
    turn and keeping the others. *)
Ltac filter_turns :=
  rewrite ?removeById_app, ?removeById_mk;
  repeat (rewrite removeById_keep by reflexivity);
  rewrite ?app_nil_r, <- ?app_assoc; cbn [app].


(** X3. Saving the profile when no question is pending sends nothing to the
    collaborator, shows no notification and does not touch the pending
    follow-up or the loading flag; the profile is replaced, the editor is
    closed, and one acknowledgement turn is appended exactly when the
    serialisations of the old and the new profile differ, none otherwise. *)
Theorem handleSaveProfile_no_pending
    (JSON_stringify : UserProfile.t -> string) (w : World)
    (newProfileData : UserProfile.t) (outcome : Outcome) :
  text_truthy (lastUserQuestionForFollowUp w) = false ->
  let w' := exec (handleSaveProfile JSON_stringify w newProfileData outcome) w in
  requests w' = requests w
  /\ toasts w' = toasts w
  /\ userProfile w' = newProfileData
  /\ isProfileModalOpen w' = false
  /\ lastUserQuestionForFollowUp w' = lastUserQuestionForFollowUp w
  /\ currentAiFollowUpKey w' = currentAiFollowUpKey w
  /\ isLoading w' = isLoading w
  /\ (JSON_stringify (userProfile w) = JSON_stringify newProfileData ->
      messages w' = messages w)
  /\ (JSON_stringify (userProfile w) <> JSON_stringify newProfileData ->
      exists acknowledgement,
        messages w' = (messages w ++ [acknowledgement])%list
        /\ ChatMessage.sender acknowledgement = ai
        /\ ChatMessage.text acknowledgement
           = "Your health information has been updated. How can I assist you now?").
Proof.
  intros Hno. unfold exec, handleSaveProfile. rewrite Hno.
  unfold bind, when, ret. cbn.
  destruct (String.eqb_spec (JSON_stringify (userProfile w))
              (JSON_stringify newProfileData)) as [Heq | Hne]; cbn.
  - repeat split. intros H; contradiction.
  - repeat split; try (intros H; contradiction).
    intros _. eexists. split; [reflexivity |]. split; reflexivity.
Qed.

Lemma handleSaveProfile_no_pending_witness :
  requests (exec (handleSaveProfile sampleJSON (initialWorld sampleClock)
                    profileWithAge Rejected) (initialWorld sampleClock))
  = []
  /\ List.length
       (messages (exec (handleSaveProfile sampleJSON (initialWorld sampleClock)
                          profileWithAge Rejected) (initialWorld sampleClock)))
     = 2%nat
  /\ messages (exec (handleSaveProfile sampleJSON (initialWorld sampleClock)
                       UserProfile.empty Rejected) (initialWorld sampleClock))
     = messages (initialWorld sampleClock).
Proof.
  destruct (handleSaveProfile_no_pending sampleJSON (initialWorld sampleClock)
              profileWithAge Rejected eq_refl)
    as [Hr [_ [_ [_ [_ [_ [_ [_ Hack]]]]]]]].
  destruct (handleSaveProfile_no_pending sampleJSON (initialWorld sampleClock)
              UserProfile.empty Rejected eq_refl)
    as [_ [_ [_ [_ [_ [_ [_ [Hsame _]]]]]]]].
  split; [exact Hr | split].
  - destruct Hack as [a [Hm _]]; [discriminate |]. rewrite Hm. reflexivity.
  - apply Hsame. reflexivity.
Defined.



(** ** Closing the profile editor: the other paths *)

(** X5. Closing the profile editor always closes it and clears both parts of
    the pending follow-up, and never sends a request, raises a notification
    or changes the profile, the readings or the loading flag.  It leaves the
    messages as they are, unless a question and a key are pending and the
    field of the key is not filled in, in which case it appends the one
    'no problem' turn; in particular nothing is appended when the field is
    filled in or when nothing is pending. *)
Theorem handleCloseProfileModal_frame (w : World) :
  let w' := exec (handleCloseProfileModal w) w in
  isProfileModalOpen w' = false
  /\ lastUserQuestionForFollowUp w' = None
  /\ currentAiFollowUpKey w' = None
  /\ requests w' = requests w
  /\ toasts w' = toasts w
  /\ userProfile w' = userProfile w
  /\ vitalSigns w' = vitalSigns w
  /\ isLoading w' = isLoading w
  /\ (messages w' = messages w
      \/ exists question key cancel,
           messages w' = (messages w ++ [cancel])%list
           /\ ChatMessage.text cancel = cancelFollowUpText
           /\ lastUserQuestionForFollowUp w = Some question
           /\ question <> EmptyString
           /\ currentAiFollowUpKey w = Some key
           /\ relevantProfileFieldFilled (UserProfile.get (userProfile w) key)
              = false)
  /\ (text_truthy (lastUserQuestionForFollowUp w) = false
      \/ currentAiFollowUpKey w = None ->
      messages w' = messages w)
  /\ (forall key,
        currentAiFollowUpKey w = Some key ->
        relevantProfileFieldFilled (UserProfile.get (userProfile w) key) = true ->
        messages w' = messages w).
Proof.
  unfold exec, handleCloseProfileModal, bind, when, ret. cbn.
  destruct (lastUserQuestionForFollowUp w) as [q|] eqn:Hq;
    destruct (currentAiFollowUpKey w) as [key|] eqn:Hk; cbn.
  - destruct (string_truthy q) eqn:Ht; cbn.
    + destruct (relevantProfileFieldFilled
                  (UserProfile.get (userProfile w) key)) eqn:Hf; cbn.
      * repeat (split; [reflexivity |]). split; [left; reflexivity |].
        split; [intros _; reflexivity | intros; reflexivity].
      * repeat (split; [reflexivity |]). split.
        { right. exists q, key. eexists. split; [reflexivity |].
          split; [reflexivity |]. split; [reflexivity |].
          split; [now apply string_truthy_iff |]. split; [reflexivity | exact Hf]. }
        split.
        { intros [H | H]; discriminate. }
        intros key' Hk' Hf'. injection Hk' as <-. congruence.
    + repeat (split; [reflexivity |]). split; [left; reflexivity |].
      split; [intros _; reflexivity | intros; reflexivity].
  - repeat (split; [reflexivity |]). split; [left; reflexivity |].
    split; [intros _; reflexivity | intros; reflexivity].
  - repeat (split; [reflexivity |]). split; [left; reflexivity |].
    split; [intros _; reflexivity | intros; reflexivity].
  - repeat (split; [reflexivity |]). split; [left; reflexivity |].
    split; [intros _; reflexivity | intros; reflexivity].
Qed.

Lemma isBlank_empty_or_trim (s : string) :
  string_truthy s && negb (String.eqb (trim s) EmptyString) = negb (isBlank s).
Proof.
  destruct (isBlank s) eqn:Hb.
  - apply trim_empty in Hb. rewrite Hb. cbn. apply andb_false_r.
  - assert (Ht : trim s <> EmptyString).
    { intros H. apply trim_empty in H. congruence. }
    apply String.eqb_neq in Ht. rewrite Ht.
    destruct s; [discriminate Hb | reflexivity].
Qed.

(** The field test, case by case. *)
Lemma relevantProfileFieldFilled_cases (v : option ProfileValue) :
  relevantProfileFieldFilled v
  = match v with
    | None => false
    | Some (PNumber x) => negb (x =? 0)%float && negb (PrimFloat.is_nan x)
    | Some (PText s) => negb (isBlank s)
    | Some (PGender _) => true
    | Some (PContact _) => true
    end.
Proof.
  destruct v as [[x | g | s | c] |]; cbn; try reflexivity.
  - unfold number_truthy. apply andb_true_r.
  - apply isBlank_empty_or_trim.
Qed.

Lemma relevantProfileFieldFilled_false (v : option ProfileValue) :
  relevantProfileFieldFilled v = false <-> countsAsEmpty v.
Proof.
  rewrite relevantProfileFieldFilled_cases.
  destruct v as [[x | g | s | c] |]; cbn.
  - destruct (x =? 0)%float, (PrimFloat.is_nan x); cbn;
      intuition congruence.
  - intuition congruence.
  - destruct (isBlank s); cbn; intuition congruence.
  - intuition congruence.
  - intuition congruence.
Qed.

Lemma app_one_neq {A : Type} (l : list A) (x : A) : l <> (l ++ [x])%list.
Proof.
  intros H. apply (f_equal (@List.length A)) in H.
  rewrite length_app in H. cbn in H. lia.
Qed.

(** X6. With a question and a field key pending, closing the profile editor
    appends the 'no problem' turn exactly when the pending field is absent,
    is the number 0 or NaN, or is a text with no character other than white
    space (a cleared age input, which stores 0, counts as not filled in);
    in every other case, a gender, an emergency contact, any other number or
    a text with a visible character, the messages are left as they are. *)
Theorem handleCloseProfileModal_cancel_iff (w : World) (question : string)
    (key : AISuggestedKey.t) :
  lastUserQuestionForFollowUp w = Some question ->
  question <> EmptyString ->
  currentAiFollowUpKey w = Some key ->
  ((exists cancel,
       messages (exec (handleCloseProfileModal w) w)
       = (messages w ++ [cancel])%list
       /\ ChatMessage.text cancel = cancelFollowUpText)
   <-> countsAsEmpty (UserProfile.get (userProfile w) key))
  /\ (messages (exec (handleCloseProfileModal w) w) = messages w
      <-> ~ countsAsEmpty (UserProfile.get (userProfile w) key)).
Proof.
  intros Hq Hne Hk. apply string_truthy_iff in Hne.
  rewrite <- relevantProfileFieldFilled_false.
  unfold exec, handleCloseProfileModal, bind, when, ret.
  rewrite Hq, Hk. cbn. rewrite Hne. cbn.
  destruct (relevantProfileFieldFilled (UserProfile.get (userProfile w) key));
    cbn.
  - split; split.
    + intros [cancel [H _]]. destruct (app_one_neq _ _ H).
    + discriminate.
    + discriminate.
    + reflexivity.
  - split; split.
    + reflexivity.
    + intros _. eexists. split; reflexivity.
    + intros H. symmetry in H. destruct (app_one_neq _ _ H).
    + intros H. contradiction H. reflexivity.
Qed.

Lemma handleCloseProfileModal_cancel_iff_witness :
  exists cancel,
    messages (exec (handleCloseProfileModal ageZeroPendingWorld)
                ageZeroPendingWorld)
    = (messages ageZeroPendingWorld ++ [cancel])%list
    /\ ChatMessage.text cancel = cancelFollowUpText.
Proof.
  destruct (handleCloseProfileModal_cancel_iff ageZeroPendingWorld
              sampleQuestion AISuggestedKey.age eq_refl) as [[_ H] _].
  - discriminate.
  - reflexivity.
  - apply H. cbn. left. reflexivity.
Defined.

(** ** Saving from the profile editor *)

(** X7. Saving from the profile editor while a follow-up is pending on a
    field that was empty when the page last rendered appends, between the
    acknowledgement of the update and the refined answer, the 'no problem'
    turn of a cancelled follow-up, whatever the saved profile contains: the
    editor calls [onClose] right after [onSave], and [onClose] still reads
    the profile of the render in which the field was empty.  One refine
    request is sent, built from the saved profile, and the pending follow-up
    ends cleared. *)
Theorem modal_save_appends_cancel_turn
    (JSON_stringify : UserProfile.t -> string) (w : World) (question : string)
    (key : AISuggestedKey.t) (profile : UserProfile.t) (outcome : Outcome) :
  lastUserQuestionForFollowUp w = Some question ->
  question <> EmptyString ->
  currentAiFollowUpKey w = Some key ->
  fieldEmpty (UserProfile.get (userProfile w) key) ->
  let w' := exec (UserProfileModal_handleSave JSON_stringify w profile outcome)
              w in
  exists update cancel replies,
    messages w'
    = (removeById (refineIdOf w) (messages w)
       ++ update :: cancel :: replies)%list
    /\ ChatMessage.text cancel = cancelFollowUpText
    /\ refineShape outcome replies
    /\ requests w'
       = (requests w
          ++ [buildInput question profile (latestVitalsOf (vitalSigns w))])%list
    /\ userProfile w' = profile
    /\ lastUserQuestionForFollowUp w' = None
    /\ currentAiFollowUpKey w' = None
    /\ isProfileModalOpen w' = false.
Proof.
  intros Hq Hne Hk Hempty w'. subst w'.
  apply string_truthy_iff in Hne. apply fieldEmpty_not_filled in Hempty.
  unfold exec, UserProfileModal_handleSave, handleSaveProfile_call,
    handleSaveProfile_settled, handleCloseProfileModal.
  rewrite Hq, Hk. cbn [text_truthy]. rewrite Hne, Hempty.
  destruct outcome as [result|]; unfold bind, when, ret; cbn.
  - destruct (text_truthy (QAOutput.followUpQuestion result)) eqn:Hf; cbn.
    + do 3 eexists. split; [filter_turns; reflexivity |].
      split; [reflexivity |]. split; [| repeat split].
      eexists. split; cycle 1.
      { eexists. split; [reflexivity |]. split; [reflexivity |].
        destruct (QAOutput.followUpQuestion result);
          [reflexivity | discriminate]. }
      reflexivity.
    + do 3 eexists. split; [filter_turns; reflexivity |].
      split; [reflexivity |]. split; [| repeat split].
      eexists. split; cycle 1.
      { reflexivity. }
      reflexivity.
  - do 3 eexists. split; [filter_turns; reflexivity |].
    split; [reflexivity |]. split; [| repeat split].
    eexists. reflexivity.
Qed.

Lemma modal_save_appends_cancel_turn_witness :
  exists update cancel replies,
    messages (exec (UserProfileModal_handleSave sampleJSON agePendingWorld
                      profileWithAge (Resolved ageFollowUp)) agePendingWorld)
    = (messages agePendingWorld ++ update :: cancel :: replies)%list
    /\ ChatMessage.text cancel = cancelFollowUpText
    /\ UserProfile.age
         (userProfile
            (exec (UserProfileModal_handleSave sampleJSON agePendingWorld
                     profileWithAge (Resolved ageFollowUp)) agePendingWorld))
       = Some 34%float.
Proof.
  destruct (modal_save_appends_cancel_turn sampleJSON agePendingWorld
              sampleQuestion AISuggestedKey.age profileWithAge
              (Resolved ageFollowUp) eq_refl)
    as [update [cancel [replies [Hm [Ht [_ [_ [Hp _]]]]]]]].
  { discriminate. }
  { reflexivity. }
  { exact I. }
  exists update, cancel, replies. split; [| split; [exact Ht |]].
  - rewrite Hm. f_equal.
  - rewrite Hp. reflexivity.
Defined.

(** ** What every session keeps *)

Lemma noSpinner_app (l1 l2 : list ChatMessage.t) :
  noSpinner l1 -> noSpinner l2 -> noSpinner (l1 ++ l2).
Proof. intros H1 H2. apply Forall_app. split; assumption. Qed.

Lemma noSpinner_removeById (id : string) (l : list ChatMessage.t) :
  noSpinner l -> noSpinner (removeById id l).
Proof.
  unfold noSpinner, removeById. rewrite !Forall_forall.
  intros H m Hin. apply filter_In in Hin. apply H. tauto.
Qed.

Lemma noSpinner_map_feedback (messageId : string) (fb : Feedback)
    (l : list ChatMessage.t) :
  noSpinner l ->
  noSpinner (map (fun msg =>
                    if String.eqb (ChatMessage.id msg) messageId
                    then ChatMessage.with_feedback msg fb else msg) l).
Proof.
  unfold noSpinner. intros H. apply Forall_map.
  eapply Forall_impl; [| exact H]. cbn. intros m Hm.
  destruct (String.eqb (ChatMessage.id m) messageId); exact Hm.
Qed.

Ltac no_spinner :=
  lazymatch goal with
  | |- noSpinner (_ ++ _) => apply noSpinner_app; [no_spinner | no_spinner]
  | |- noSpinner (removeById _ _) => apply noSpinner_removeById; no_spinner
  | |- noSpinner (messages _) => assumption
  | |- noSpinner [] => constructor
  | |- noSpinner (_ :: _) => repeat constructor
  end.

Lemma step_noSpinner (JSON_stringify : UserProfile.t -> string) (e : Event)
    (w : World) :
  noSpinner (messages w) -> noSpinner (messages (step JSON_stringify e w)).
Proof.
  intros Hw.
  destruct e as [question outcome | newProfileData outcome | | messageId fb
                | value | parsed | ]; unfold step.
  - destruct outcome as [result|]; run_handler.
    + destruct (text_truthy (QAOutput.followUpQuestion result)); cbn;
        rewrite !removeById_app, removeById_mk; no_spinner.
    + rewrite !removeById_app, removeById_mk; no_spinner.
  - unfold exec, handleSaveProfile, bind, when, ret.
    destruct (text_truthy (lastUserQuestionForFollowUp w));
      [destruct outcome as [result|] | destruct (negb _)]; cbn.
    + destruct (text_truthy (QAOutput.followUpQuestion result)); cbn;
        rewrite !removeById_app, removeById_mk; no_spinner.
    + rewrite !removeById_app, removeById_mk; no_spinner.
    + no_spinner.
    + no_spinner.
  - unfold exec, handleCloseProfileModal, bind, when, ret. cbn.
    destruct (lastUserQuestionForFollowUp w) as [q|];
      destruct (currentAiFollowUpKey w) as [key|]; cbn; try assumption.
    destruct (string_truthy q); cbn; try assumption.
    destruct (negb _); cbn; no_spinner.
  - cbn. now apply noSpinner_map_feedback.
  - cbn. assumption.
  - cbn. assumption.
  - unfold exec, manualEntry, handleManualEntry.
    destruct (manualVitals w (selectedVitalType w)) as [x|]; cbn;
      try assumption.
    destruct (number_truthy x); cbn; assumption.
Qed.

Lemma step_flags (JSON_stringify : UserProfile.t -> string) (e : Event)
    (w : World) :
  isLoading w = false ->
  (currentAiFollowUpKey w <> None -> lastUserQuestionForFollowUp w <> None) ->
  isLoading (step JSON_stringify e w) = false
  /\ (currentAiFollowUpKey (step JSON_stringify e w) <> None ->
      lastUserQuestionForFollowUp (step JSON_stringify e w) <> None).
Proof.
  intros Hl Hk.
  destruct e as [question outcome | newProfileData outcome | | messageId fb
                | value | parsed | ]; unfold step.
  - destruct outcome as [result|]; run_handler.
    + destruct (text_truthy (QAOutput.followUpQuestion result)); cbn;
        (split; [reflexivity |]); [intros _; discriminate | exact Hk].
    + split; [reflexivity | exact Hk].
  - unfold exec, handleSaveProfile, bind, when, ret.
    destruct (text_truthy (lastUserQuestionForFollowUp w));
      [destruct outcome as [result|] | destruct (negb _)]; cbn.
    + destruct (text_truthy (QAOutput.followUpQuestion result)); cbn;
        (split; [reflexivity | intros H; contradiction]).
    + split; [reflexivity | intros H; contradiction].
    + split; [exact Hl | exact Hk].
    + split; [exact Hl | exact Hk].
  - unfold exec, handleCloseProfileModal, bind, when, ret. cbn.
    destruct (lastUserQuestionForFollowUp w) as [q|];
      destruct (currentAiFollowUpKey w) as [key|]; cbn;
      try (split; [exact Hl | intros H; contradiction]).
    destruct (string_truthy q); cbn;
      try (split; [exact Hl | intros H; contradiction]).
    destruct (negb _); cbn; (split; [exact Hl | intros H; contradiction]).
  - cbn. split; assumption.
  - cbn. split; assumption.
  - cbn. split; assumption.
  - unfold exec, manualEntry, handleManualEntry.
    destruct (manualVitals w (selectedVitalType w)) as [x|]; cbn;
      try (split; assumption).
    destruct (number_truthy x); cbn; split; assumption.
Qed.

(** X8. In every world of a session (each event run to the settlement of
    its call), whatever questions were asked and however the collaborator
    calls settled: no turn is left in the loading state and no turn carries the id of a pending turn, the loading flag is
    off, and a pending key never exists without its pending question. *)
Theorem session_invariants (JSON_stringify : UserProfile.t -> string)
    (clock0 : nat -> Z) (w : World) :
  reachable JSON_stringify clock0 w ->
  noSpinner (messages w)
  /\ settled (messages w)
  /\ isLoading w = false
  /\ (currentAiFollowUpKey w <> None -> lastUserQuestionForFollowUp w <> None).
Proof.
  induction 1 as [|e w Hreach IH].
  - cbn. repeat split; try (repeat constructor). intros H; contradiction.
  - destruct IH as [Hs [Hset [Hl Hk]]].
    destruct (step_flags JSON_stringify e w Hl Hk) as [Hl' Hk'].
    split; [now apply step_noSpinner |].
    split; [now apply step_settled |]. split; assumption.
Qed.

Lemma session_invariants_witness :
  noSpinner
    (messages (step sampleJSON (SubmitQuestion sampleQuestion
                                  (Resolved ageFollowUp))
                 oneReadingWorld))
  /\ isLoading (step sampleJSON (SubmitQuestion sampleQuestion
                                   (Resolved ageFollowUp))
                  oneReadingWorld) = false.
Proof.
  destruct (session_invariants sampleJSON sampleClock
              (step sampleJSON (SubmitQuestion sampleQuestion
                                  (Resolved ageFollowUp)) oneReadingWorld))
    as [H1 [_ [H2 _]]].
  - apply reachable_step. unfold oneReadingWorld, typedValueWorld.
    apply reachable_step. apply reachable_step. apply reachable_init.
  - split; assumption.
Defined.

(** * Further properties of the vital-signs tracker *)

(** ** The card of a reading *)

(** X9. A card is always rendered, and its badge, the variant of the badge
    and the colour of the value always agree with the status of the
    classifier: 'Alert', destructive and red on 'warning'; 'Normal',
    secondary and green on 'normal'. *)
Theorem renderVitalCard_agrees (type : VitalKey) (value : VitalValue)
    (label unit : string) :
  (getVitalStatus type value = Ok "warning"
   /\ getVitalColor type value = Ok "text-red-600"
   /\ renderVitalCard type value label unit
      = Ok (VitalCard.mk type label unit "destructive" "Alert" "text-red-600"))
  \/ (getVitalStatus type value = Ok "normal"
      /\ getVitalColor type value = Ok "text-green-600"
      /\ renderVitalCard type value label unit
         = Ok (VitalCard.mk type label unit "secondary" "Normal"
                 "text-green-600")).
Proof.
  unfold renderVitalCard, getVitalColor.
  destruct type as [|k]; [right; repeat split |].
  destruct k; unfold getVitalStatus; simpl;
    match goal with
    | |- context [if ?c then _ else _] => destruct c
    end; simpl; (left; repeat split; fail) || (right; repeat split).
Qed.

(** ** The sorted readings *)

Lemma insertBy_perm {A : Type} (compare : A -> A -> Z) (x : A) (l : list A) :
  Permutation (insertBy compare x l) (x :: l).
Proof.
  induction l as [|y rest IH]; simpl; [reflexivity |].
  destruct (compare x y <=? 0)%Z; [reflexivity |].
  rewrite IH. apply perm_swap.
Qed.

Lemma sortBy_perm {A : Type} (compare : A -> A -> Z) (l : list A) :
  Permutation (sortBy compare l) l.
Proof.
  induction l as [|x l IH]; simpl; [reflexivity |].
  rewrite insertBy_perm. now constructor.
Qed.

Lemma insertBy_newestFirst (x : VitalSigns.t) (l : list VitalSigns.t) :
  newestFirst l -> newestFirst (insertBy byTimestampDescending x l).
Proof.
  unfold newestFirst. induction l as [|y rest IH]; intros Hs; simpl.
  - repeat constructor.
  - apply StronglySorted_inv in Hs. destruct Hs as [Hrest Hall].
    unfold byTimestampDescending at 1.
    destruct (Z.leb_spec (VitalSigns.timestamp y - VitalSigns.timestamp x) 0)
      as [Hle | Hgt].
    + constructor; [constructor; assumption |].
      constructor; [lia |].
      eapply Forall_impl; [| exact Hall]. cbn. intros b Hb. lia.
    + constructor; [now apply IH |].
      eapply Permutation_Forall;
        [symmetry; apply insertBy_perm |].
      constructor; [lia | exact Hall].
Qed.

Lemma sortBy_newestFirst (l : list VitalSigns.t) :
  newestFirst (sortBy byTimestampDescending l).
Proof.
  induction l as [|x l IH]; simpl; [constructor |].
  now apply insertBy_newestFirst.
Qed.

Lemma insertBy_head (x : VitalSigns.t) (l : list VitalSigns.t) :
  nth_error (insertBy byTimestampDescending x l) 0
  = match l with
    | [] => Some x
    | y :: _ =>
        if (VitalSigns.timestamp y <=? VitalSigns.timestamp x)%Z
        then Some x else Some y
    end.
Proof.
  destruct l as [|y rest]; simpl; [reflexivity |].
  unfold byTimestampDescending.
  destruct (Z.leb_spec (VitalSigns.timestamp y - VitalSigns.timestamp x) 0),
    (Z.leb_spec (VitalSigns.timestamp y) (VitalSigns.timestamp x));
    try lia; reflexivity.
Qed.

Lemma sortBy_cons {A : Type} (compare : A -> A -> Z) (x : A) (l : list A) :
  sortBy compare (x :: l) = insertBy compare x (sortBy compare l).
Proof. reflexivity. Qed.

(** The head of the sorted list is the first of the readings with the
    greatest timestamp. *)
Lemma sortBy_head (pre post : list VitalSigns.t) (r : VitalSigns.t) :
  Forall (fun p => (VitalSigns.timestamp p < VitalSigns.timestamp r)%Z) pre ->
  Forall (fun p => (VitalSigns.timestamp p <= VitalSigns.timestamp r)%Z) post ->
  nth_error (sortBy byTimestampDescending (pre ++ r :: post)) 0 = Some r.
Proof.
  intros Hpre Hpost. induction pre as [|p pre IH]; cbn [app];
    rewrite sortBy_cons.
  - rewrite insertBy_head.
    destruct (sortBy byTimestampDescending post) as [|y rest] eqn:E;
      [reflexivity |].
    assert (Hy : In y post).
    { eapply Permutation_in; [apply sortBy_perm |]. rewrite E. now left. }
    rewrite Forall_forall in Hpost. specialize (Hpost y Hy).
    destruct (Z.leb_spec (VitalSigns.timestamp y) (VitalSigns.timestamp r));
      [reflexivity | lia].
  - inversion Hpre as [|? ? Hp Hpre']; subst.
    specialize (IH Hpre'). rewrite insertBy_head.
    destruct (sortBy byTimestampDescending (pre ++ r :: post)) as [|y rest];
      [discriminate IH |].
    simpl in IH. injection IH as ->.
    destruct (Z.leb_spec (VitalSigns.timestamp r) (VitalSigns.timestamp p));
      [lia | reflexivity].
Qed.

(** X10. The readings on display are the stored readings followed by the
    mock readings, rearranged newest first; the latest reading is the first,
    in that order, of the readings with the greatest timestamp, so a stored
    reading wins a tie with a mock reading. *)
Theorem allVitalsOf_sorted (currentVitals mock : list VitalSigns.t) :
  Permutation (allVitalsOf currentVitals mock) (currentVitals ++ mock)
  /\ newestFirst (allVitalsOf currentVitals mock)
  /\ (forall pre r post,
        (currentVitals ++ mock = pre ++ r :: post)%list ->
        Forall (fun p => (VitalSigns.timestamp p < VitalSigns.timestamp r)%Z)
          pre ->
        Forall (fun p => (VitalSigns.timestamp p <= VitalSigns.timestamp r)%Z)
          post ->
        nth_error (allVitalsOf currentVitals mock) 0 = Some r).
Proof.
  unfold allVitalsOf. split; [apply sortBy_perm |].
  split; [apply sortBy_newestFirst |].
  intros pre r post Heq Hpre Hpost. rewrite Heq. now apply sortBy_head.
Qed.

Lemma allVitalsOf_sorted_witness :
  nth_error (allVitalsOf [storedAtFive] [mockAtFive]) 0 = Some storedAtFive.
Proof.
  destruct (allVitalsOf_sorted [storedAtFive] [mockAtFive]) as [_ [_ H]].
  apply (H [] storedAtFive [mockAtFive]).
  - reflexivity.
  - constructor.
  - repeat constructor. cbn. lia.
Defined.

(** ** What the tracker shows *)

Lemma trackerViewOf_allVitals (w : World) :
  TrackerView.allVitals (trackerViewOf w)
  = allVitalsOf (vitalSigns w)
      [VitalSigns.mk (clock w (ticks w) - 6 * 60 * 60 * 1000)
         (Some (VNumber 72))
         (Some (VPressure (BloodPressure.mk 120 80)))
         (Some (VNumber 36.8)) (Some (VNumber 98)) None
         (Some (VNumber 8500)) (Some (VNumber 7.5));
       VitalSigns.mk (clock w (1 + ticks w)%nat - 3 * 60 * 60 * 1000)
         (Some (VNumber 78))
         (Some (VPressure (BloodPressure.mk 125 82)))
         (Some (VNumber 36.9)) (Some (VNumber 97)) None
         (Some (VNumber 12000)) (Some (VNumber 7.5));
       mockNowOf w]
  /\ TrackerView.latestVitals (trackerViewOf w)
     = nth_error (TrackerView.allVitals (trackerViewOf w)) 0.
Proof. split; reflexivity. Qed.

(** X11. The tracker always has something to show: the readings on display
    are the stored ones and the three mock readings, so the latest reading is
    always defined (the view for 'No vital signs data available' is never
    drawn) and the trend chart is always drawn. *)
Theorem tracker_never_empty (w : World) :
  List.length (TrackerView.allVitals (trackerViewOf w))
  = (List.length (vitalSigns w) + 3)%nat
  /\ TrackerView.latestVitals (trackerViewOf w) <> None
  /\ TrackerView.trendData (trackerViewOf w)
     = Some (trendDataOf (TrackerView.allVitals (trackerViewOf w))).
Proof.
  destruct (trackerViewOf_allVitals w) as [Hall Hlatest].
  assert (Hlen : List.length (TrackerView.allVitals (trackerViewOf w))
                 = (List.length (vitalSigns w) + 3)%nat).
  { rewrite Hall. unfold allVitalsOf.
    rewrite (Permutation_length (sortBy_perm _ _)), length_app. reflexivity. }
  split; [exact Hlen | split].
  - rewrite Hlatest.
    destruct (TrackerView.allVitals (trackerViewOf w)); [cbn in Hlen; lia |].
    discriminate.
  - change (TrackerView.trendData (trackerViewOf w))
      with (if (1 <? List.length (TrackerView.allVitals (trackerViewOf w)))%nat
            then Some (trendDataOf (TrackerView.allVitals (trackerViewOf w)))
            else None).
    rewrite Hlen.
    destruct (Nat.ltb_spec 1 (List.length (vitalSigns w) + 3)); [reflexivity | lia].
Qed.



(** ** The trend chart *)

Lemma newestFirst_filter (f : VitalSigns.t -> bool) (l : list VitalSigns.t) :
  newestFirst l -> newestFirst (filter f l).
Proof.
  unfold newestFirst. induction 1 as [|x l Hl IH Hall]; simpl; [constructor |].
  destruct (f x); [| exact IH].
  constructor; [exact IH |].
  rewrite Forall_forall in *. intros y Hy. apply Hall.
  apply filter_In in Hy. tauto.
Qed.

Lemma newestFirst_app (l1 l2 : list VitalSigns.t) :
  newestFirst (l1 ++ l2) ->
  forall d c, In d l1 -> In c l2 ->
    (VitalSigns.timestamp c <= VitalSigns.timestamp d)%Z.
Proof.
  unfold newestFirst. induction l1 as [|x l1 IH]; intros Hs d c Hd Hc.
  - contradiction.
  - cbn in Hs. apply StronglySorted_inv in Hs. destruct Hs as [Hs Hall].
    destruct Hd as [<- | Hd]; [| now apply (IH Hs d c)].
    rewrite Forall_forall in Hall. apply Hall. apply in_or_app. now right.
Qed.

(** X13. The trend chart shows at most ten readings, all with a heart rate
    that is present and not 0: the last ten, in display order, of the readings
    with such a heart rate.  As the display order is newest first, the
    readings left out when there are more than ten are the newest ones: each
    of them is at least as new as every reading on the chart. *)
Theorem trendDataOf_last_ten (allVitals : list VitalSigns.t) :
  exists dropped,
    filter (fun v => field_truthy (VitalSigns.heartRate v)) allVitals
    = (dropped ++ trendDataOf allVitals)%list
    /\ List.length dropped
       = (List.length
            (filter (fun v => field_truthy (VitalSigns.heartRate v)) allVitals)
          - 10)%nat
    /\ List.length (trendDataOf allVitals)
       = Nat.min 10
           (List.length
              (filter (fun v => field_truthy (VitalSigns.heartRate v))
                 allVitals))
    /\ Forall (fun v => field_truthy (VitalSigns.heartRate v) = true)
         (trendDataOf allVitals)
    /\ (newestFirst allVitals ->
        forall d c, In d dropped -> In c (trendDataOf allVitals) ->
          (VitalSigns.timestamp c <= VitalSigns.timestamp d)%Z).
Proof.
  unfold trendDataOf, sliceLast.
  set (withRate := filter (fun v => field_truthy (VitalSigns.heartRate v))
                     allVitals).
  exists (firstn (List.length withRate - 10) withRate).
  assert (Hsplit : withRate
                   = (firstn (List.length withRate - 10) withRate
                      ++ skipn (List.length withRate - 10) withRate)%list)
    by (symmetry; apply firstn_skipn).
  split; [exact Hsplit |].
  split; [rewrite length_firstn; lia |].
  split; [rewrite length_skipn; lia |].
  split.
  - assert (Hall : Forall (fun v => field_truthy (VitalSigns.heartRate v) = true)
                     withRate).
    { rewrite Forall_forall. intros v Hv. apply filter_In in Hv. tauto. }
    rewrite Hsplit in Hall. apply Forall_app in Hall. tauto.
  - intros Hs. apply newestFirst_app. rewrite <- Hsplit.
    now apply newestFirst_filter.
Qed.

Lemma trendDataOf_last_ten_witness :
  exists dropped,
    filter (fun v => field_truthy (VitalSigns.heartRate v))
      (TrackerView.allVitals (trackerViewOf oneReadingWorld))
    = (dropped
       ++ trendDataOf (TrackerView.allVitals (trackerViewOf oneReadingWorld)))%list
    /\ List.length
         (trendDataOf (TrackerView.allVitals (trackerViewOf oneReadingWorld)))
       = 4%nat
    /\ forall d c,
         In d dropped ->
         In c (trendDataOf (TrackerView.allVitals (trackerViewOf oneReadingWorld))) ->
         (VitalSigns.timestamp c <= VitalSigns.timestamp d)%Z.
Proof.
  destruct (trendDataOf_last_ten
              (TrackerView.allVitals (trackerViewOf oneReadingWorld)))
    as [dropped [Hsplit [_ [Hlen [_ Horder]]]]].
  exists dropped. split; [exact Hsplit | split].
  - rewrite Hlen. reflexivity.
  - apply Horder.
    destruct (trackerViewOf_allVitals oneReadingWorld) as [-> _].
    apply sortBy_newestFirst.
Defined.

(** ** The manual-entry dialog *)

Lemma VitalKind_eqb_refl (k : VitalKind) : VitalKind_eqb k k = true.
Proof. destruct k; reflexivity. Qed.

(** X14. A rejected manual entry changes nothing but the notifications: the
    dialog stays open with what was typed, the clock is not read and the
    store is untouched.  An accepted entry closes the dialog and forgets every
    typed value, also those typed for other kinds, keeps the selected kind,
    and touches neither the conversation, the profile nor the collaborator. *)
Theorem handleManualEntry_dialog (w : World) :
  (match manualVitals w (selectedVitalType w) with
   | Some x => number_truthy x
   | None => false
   end = false ->
   exec (manualEntry w) w
   = mkWorld (messages w) (isLoading w) (userProfile w) (vitalSigns w)
       (isProfileModalOpen w) (currentAiFollowUpKey w)
       (lastUserQuestionForFollowUp w) (isManualEntryOpen w) (manualVitals w)
       (selectedVitalType w) (toasts w ++ [valueRequiredToast]) (requests w)
       (clock w) (ticks w))
  /\ (match manualVitals w (selectedVitalType w) with
      | Some x => number_truthy x
      | None => false
      end = true ->
      isManualEntryOpen (exec (manualEntry w) w) = false
      /\ (forall k, manualVitals (exec (manualEntry w) w) k = None)
      /\ selectedVitalType (exec (manualEntry w) w) = selectedVitalType w
      /\ messages (exec (manualEntry w) w) = messages w
      /\ userProfile (exec (manualEntry w) w) = userProfile w
      /\ requests (exec (manualEntry w) w) = requests w
      /\ lastUserQuestionForFollowUp (exec (manualEntry w) w)
         = lastUserQuestionForFollowUp w
      /\ currentAiFollowUpKey (exec (manualEntry w) w) = currentAiFollowUpKey w).
Proof.
  unfold exec, manualEntry, handleManualEntry.
  destruct (manualVitals w (selectedVitalType w)) as [x|]; cbn.
  - destruct (number_truthy x); cbn; split; intros H;
      try discriminate H; try reflexivity.
    repeat split.
  - split; intros H; [reflexivity | discriminate H].
Qed.

Lemma handleManualEntry_dialog_witness :
  isManualEntryOpen (exec (manualEntry typedValueWorld) typedValueWorld) = false
  /\ manualVitals (exec (manualEntry typedValueWorld) typedValueWorld) heartRate
     = None
  /\ toasts (exec (manualEntry (initialWorld sampleClock))
               (initialWorld sampleClock))
     = [valueRequiredToast].
Proof.
  destruct (handleManualEntry_dialog typedValueWorld) as [_ H].
  destruct (H eq_refl) as [Hopen [Hvals _]].
  destruct (handleManualEntry_dialog (initialWorld sampleClock)) as [Hrej _].
  split; [exact Hopen | split; [apply Hvals |]].
  rewrite (Hrej eq_refl). reflexivity.
Defined.

(** X15. Typing a value and adding it.  When the typed text parses to a
    number that is neither 0 nor NaN, the store gains in front one reading,
    stamped with the clock, whose only measurement is that number under the
    selected kind.  Otherwise (nothing parsable, or 0) the dialog holds 0, the
    entry is rejected with the validation notification and the store is
    unchanged. *)
Theorem type_then_add (JSON_stringify : UserProfile.t -> string) (w : World)
    (parsed : float) :
  let w2 :=
    step JSON_stringify AddManualEntry
      (step JSON_stringify (ChangeManualValue parsed) w) in
  if number_truthy parsed
  then exists r,
      vitalSigns w2 = r :: vitalSigns w
      /\ VitalSigns.timestamp r = clock w (ticks w)
      /\ forall k, VitalSigns.get r k
                   = if VitalKind_eqb k (selectedVitalType w)
                     then Some (VNumber parsed) else None
  else vitalSigns w2 = vitalSigns w
       /\ toasts w2 = (toasts w ++ [valueRequiredToast])%list
       /\ manualVitals w2 (selectedVitalType w) = Some 0%float.
Proof.
  cbn. unfold exec, manualEntry, handleManualEntry, manualValue_onChange.
  cbn. rewrite VitalKind_eqb_refl. unfold number_or.
  destruct (number_truthy parsed) eqn:Ht.
  - rewrite Ht. cbn. eexists. split; [reflexivity |].
    rewrite timestamp_set. split; [reflexivity |].
    intros k. apply get_set_only_timestamp.
  - cbn. rewrite VitalKind_eqb_refl. repeat split.
Qed.

(** * Properties of the SOS button *)

Lemma trim_truthy (s : string) : string_truthy (trim s) = negb (isBlank s).
Proof.
  unfold string_truthy. destruct (isBlank s) eqn:Hb.
  - apply trim_empty in Hb. rewrite Hb. reflexivity.
  - assert (Ht : trim s <> EmptyString).
    { intros H. apply trim_empty in H. congruence. }
    apply String.eqb_neq in Ht. rewrite Ht. reflexivity.
Qed.

Lemma SOS_update_last (h : list SOS.Alert) (a : SOS.Alert)
    (f : SOS.Alert -> SOS.Alert) :
  SOS.update (h ++ [a]) (List.length h) f = (h ++ [f a])%list.
Proof. induction h as [|x h IH]; cbn; [reflexivity | now rewrite IH]. Qed.

Lemma nth_error_last {A : Type} (h : list A) (a : A) :
  nth_error (h ++ [a]) (List.length h) = Some a.
Proof. induction h as [|x h IH]; cbn; [reflexivity | exact IH]. Qed.

Lemma nth_error_before {A : Type} (h t : list A) (r : nat) :
  (r < List.length h)%nat -> nth_error (h ++ t) r = nth_error h r.
Proof. intros H. now apply nth_error_app1. Qed.

(** The state after a submission with blank symptoms. *)
Lemma SOS_submit_blank_state (emergencyContact : option SOS.Contact) (st : SOS.State) :
  isBlank (SOS.symptomsInput st) = true ->
  SOS.handleSubmitSOS emergencyContact st
  = SOS.mk (SOS.heap st) (SOS.sosAlerts st) (SOS.isSOSModalOpen st)
      (SOS.currentAlert st) (SOS.symptomsInput st) (SOS.severityInput st)
      (SOS.isProcessing st) (SOS.locationFix st)
      (SOS.toasts st ++ [SOS.symptomsRequiredToast]) (SOS.clock st)
      (SOS.ticks st).
Proof.
  intros Hb. unfold SOS.handleSubmitSOS. rewrite trim_truthy, Hb. reflexivity.
Qed.

(** X16. An SOS whose symptoms are empty or only white space is not sent: no
    alert is created, nothing reaches the page, the form stays open with what
    was typed, and only the 'Symptoms Required' notification is added. *)
Theorem SOS_submit_blank (emergencyContact : option SOS.Contact) (st : SOS.State) :
  isBlank (SOS.symptomsInput st) = true ->
  SOS.handleSubmitSOS emergencyContact st
  = SOS.mk (SOS.heap st) (SOS.sosAlerts st) (SOS.isSOSModalOpen st)
      (SOS.currentAlert st) (SOS.symptomsInput st) (SOS.severityInput st)
      (SOS.isProcessing st) (SOS.locationFix st)
      (SOS.toasts st ++ [SOS.symptomsRequiredToast]) (SOS.clock st)
      (SOS.ticks st).
Proof.
  intros Hb. unfold SOS.handleSubmitSOS. rewrite trim_truthy, Hb. reflexivity.
Qed.

Lemma SOS_submit_blank_witness :
  SOS.sosAlerts
    (SOS.handleSubmitSOS (SOS.contactOf profileWithContact)
       (SOS.setSymptoms noBreakSpaces
          (SOS.handleSOSClick (SOS.initial sampleClock))))
  = []
  /\ SOS.isSOSModalOpen
       (SOS.handleSubmitSOS (SOS.contactOf profileWithContact)
          (SOS.setSymptoms noBreakSpaces
             (SOS.handleSOSClick (SOS.initial sampleClock))))
     = true
  /\ SOS.toasts
       (SOS.handleSubmitSOS (SOS.contactOf profileWithContact)
          (SOS.setSymptoms noBreakSpaces
             (SOS.handleSOSClick (SOS.initial sampleClock))))
     = [SOS.symptomsRequiredToast].
Proof.
  rewrite (SOS_submit_blank (SOS.contactOf profileWithContact)
             (SOS.setSymptoms noBreakSpaces
                (SOS.handleSOSClick (SOS.initial sampleClock))) eq_refl).
  repeat split.
Defined.

(** The state after a submission with symptoms. *)
Lemma SOS_submit_alert_state (emergencyContact : option SOS.Contact) (st : SOS.State) :
  isBlank (SOS.symptomsInput st) = false ->
  exists r a,
    SOS.sosAlerts (SOS.handleSubmitSOS emergencyContact st) = r :: SOS.sosAlerts st
    /\ SOS.deref (SOS.handleSubmitSOS emergencyContact st) r = Some a
    /\ SOS.status a = SOS.active
    /\ SOS.symptoms a = trim (SOS.symptomsInput st)
    /\ SOS.severity a = SOS.severityInput st
    /\ SOS.location a = SOS.locationFix st
    /\ SOS.timestamp a = SOS.clock st (1 + SOS.ticks st)%nat
    /\ SOS.emergencyContactNotified a = SOS.contactPhone emergencyContact
    /\ (exists current,
          SOS.currentAlert (SOS.handleSubmitSOS emergencyContact st) = Some current
          /\ SOS.deref (SOS.handleSubmitSOS emergencyContact st) current = Some a)
    /\ (forall r', (r' < List.length (SOS.heap st))%nat ->
          SOS.deref (SOS.handleSubmitSOS emergencyContact st) r' = SOS.deref st r')
    /\ SOS.symptomsInput (SOS.handleSubmitSOS emergencyContact st) = EmptyString
    /\ SOS.severityInput (SOS.handleSubmitSOS emergencyContact st) = SOS.medium
    /\ SOS.isSOSModalOpen (SOS.handleSubmitSOS emergencyContact st) = false
    /\ SOS.isProcessing (SOS.handleSubmitSOS emergencyContact st) = false
    /\ SOS.toasts (SOS.handleSubmitSOS emergencyContact st)
       = match emergencyContact with
         | Some contact =>
             if text_truthy (SOS.phone contact)
             then (SOS.toasts st ++ [SOS.contactNotifiedToast contact])%list
             else SOS.toasts st
         | None => SOS.toasts st
         end.
Proof.
  intros Hb. unfold SOS.handleSubmitSOS, SOS.contactPhone.
  rewrite trim_truthy, Hb. cbn.
  destruct emergencyContact as [contact|];
    [destruct (text_truthy (SOS.phone contact)) eqn:Hc |]; cbn.
  - rewrite SOS_update_last, nth_error_last. cbn.
    exists (List.length (SOS.heap st)). eexists.
    split; [reflexivity |]. unfold SOS.deref. cbn.
    split.
    { rewrite nth_error_before by (rewrite length_app; cbn; lia).
      apply nth_error_last. }
    repeat (split; [reflexivity |]).
    split.
    { eexists. split; [reflexivity | apply nth_error_last]. }
    split.
    { intros r' Hr'.
      rewrite nth_error_before by (rewrite length_app; cbn; lia).
      now apply nth_error_before. }
    repeat split.
  - exists (List.length (SOS.heap st)). eexists.
    split; [reflexivity |]. unfold SOS.deref. cbn.
    split; [apply nth_error_last |].
    repeat (split; [reflexivity |]).
    split.
    { eexists. split; [reflexivity | apply nth_error_last]. }
    split.
    { intros r' Hr'. now apply nth_error_before. }
    repeat split.
  - exists (List.length (SOS.heap st)). eexists.
    split; [reflexivity |]. unfold SOS.deref. cbn.
    split; [apply nth_error_last |].
    repeat (split; [reflexivity |]).
    split.
    { eexists. split; [reflexivity | apply nth_error_last]. }
    split.
    { intros r' Hr'. now apply nth_error_before. }
    repeat split.
Qed.

(** X17. An SOS with symptoms is sent once: the page's list gains in front
    one alert, active, carrying the trimmed symptoms, the chosen severity, the
    detected location and the clock reading; it is marked as notified to the
    emergency contact exactly when the profile has a contact with a phone
    number, and the alert kept by the button has the same content as the one
    the page holds.  Earlier alerts are untouched and the form is reset and
    closed. *)
Theorem SOS_submit_alert (emergencyContact : option SOS.Contact) (st : SOS.State) :
  isBlank (SOS.symptomsInput st) = false ->
  exists r a,
    SOS.sosAlerts (SOS.handleSubmitSOS emergencyContact st) = r :: SOS.sosAlerts st
    /\ SOS.deref (SOS.handleSubmitSOS emergencyContact st) r = Some a
    /\ SOS.status a = SOS.active
    /\ SOS.symptoms a = trim (SOS.symptomsInput st)
    /\ SOS.severity a = SOS.severityInput st
    /\ SOS.location a = SOS.locationFix st
    /\ SOS.timestamp a = SOS.clock st (1 + SOS.ticks st)%nat
    /\ SOS.emergencyContactNotified a = SOS.contactPhone emergencyContact
    /\ (exists current,
          SOS.currentAlert (SOS.handleSubmitSOS emergencyContact st) = Some current
          /\ SOS.deref (SOS.handleSubmitSOS emergencyContact st) current = Some a)
    /\ (forall r', (r' < List.length (SOS.heap st))%nat ->
          SOS.deref (SOS.handleSubmitSOS emergencyContact st) r' = SOS.deref st r')
    /\ SOS.symptomsInput (SOS.handleSubmitSOS emergencyContact st) = EmptyString
    /\ SOS.severityInput (SOS.handleSubmitSOS emergencyContact st) = SOS.medium
    /\ SOS.isSOSModalOpen (SOS.handleSubmitSOS emergencyContact st) = false
    /\ SOS.isProcessing (SOS.handleSubmitSOS emergencyContact st) = false
    /\ SOS.toasts (SOS.handleSubmitSOS emergencyContact st)
       = match emergencyContact with
         | Some contact =>
             if text_truthy (SOS.phone contact)
             then (SOS.toasts st ++ [SOS.contactNotifiedToast contact])%list
             else SOS.toasts st
         | None => SOS.toasts st
         end.
Proof.
  intros Hb. unfold SOS.handleSubmitSOS, SOS.contactPhone.
  rewrite trim_truthy, Hb. cbn.
  destruct emergencyContact as [contact|];
    [destruct (text_truthy (SOS.phone contact)) eqn:Hc |]; cbn.
  - rewrite SOS_update_last, nth_error_last. cbn.
    exists (List.length (SOS.heap st)). eexists.
    split; [reflexivity |]. unfold SOS.deref. cbn.
    split.
    { rewrite nth_error_before by (rewrite length_app; cbn; lia).
      apply nth_error_last. }
    repeat (split; [reflexivity |]).
    split.
    { eexists. split; [reflexivity | apply nth_error_last]. }
    split.
    { intros r' Hr'.
      rewrite nth_error_before by (rewrite length_app; cbn; lia).
      now apply nth_error_before. }
    repeat split.
  - exists (List.length (SOS.heap st)). eexists.
    split; [reflexivity |]. unfold SOS.deref. cbn.
    split; [apply nth_error_last |].
    repeat (split; [reflexivity |]).
    split.
    { eexists. split; [reflexivity | apply nth_error_last]. }
    split.
    { intros r' Hr'. now apply nth_error_before. }
    repeat split.
  - exists (List.length (SOS.heap st)). eexists.
    split; [reflexivity |]. unfold SOS.deref. cbn.
    split; [apply nth_error_last |].
    repeat (split; [reflexivity |]).
    split.
    { eexists. split; [reflexivity | apply nth_error_last]. }
    split.
    { intros r' Hr'. now apply nth_error_before. }
    repeat split.
Qed.

Lemma SOS_submit_alert_witness :
  exists r a,
    SOS.sosAlerts
      (SOS.handleSubmitSOS (Some phoneOnlyContact)
         (SOS.setSymptoms " chest pain " (SOS.initial sampleClock)))
    = [r]
    /\ SOS.deref
         (SOS.handleSubmitSOS (Some phoneOnlyContact)
            (SOS.setSymptoms " chest pain " (SOS.initial sampleClock))) r
       = Some a
    /\ SOS.symptoms a = "chest pain"
    /\ SOS.emergencyContactNotified a = true
    /\ SOS.toasts
         (SOS.handleSubmitSOS (Some phoneOnlyContact)
            (SOS.setSymptoms " chest pain " (SOS.initial sampleClock)))
       = [Toast.mk None "Emergency Contact Notified"
            "Contacted undefined at 555-0100"].
Proof.
  destruct (SOS_submit_alert (Some phoneOnlyContact)
              (SOS.setSymptoms " chest pain " (SOS.initial sampleClock))
              eq_refl)
    as [r [a [Hl [Hd [_ [Hs [_ [_ [_ [Hn [_ [_ [_ [_ [_ [_ Ht]]]]]]]]]]]]]]]].
  exists r, a. repeat split; assumption.
Defined.

(** ** The alerts of the page never leave the active state *)

Lemma SOS_replaceStatus_frame (newStatus : SOS.Status) (t : Toast.t)
    (st : SOS.State) :
  SOS.sosAlerts (SOS.replaceStatus newStatus t st) = SOS.sosAlerts st
  /\ SOS.symptomsInput (SOS.replaceStatus newStatus t st) = SOS.symptomsInput st
  /\ (forall r, (r < List.length (SOS.heap st))%nat ->
        SOS.deref (SOS.replaceStatus newStatus t st) r = SOS.deref st r).
Proof.
  unfold SOS.replaceStatus.
  destruct (SOS.currentAlert st) as [c|]; [| repeat split].
  destruct (SOS.deref st c) as [a|]; [| repeat split].
  cbn. repeat split. intros r Hr. unfold SOS.deref. cbn.
  now apply nth_error_before.
Qed.

Lemma SOS_step_alerts (emergencyContact : option SOS.Contact) (e : SOS.Event)
    (st : SOS.State) :
  Forall (fun r => exists a, SOS.deref st r = Some a
                             /\ SOS.status a = SOS.active) (SOS.sosAlerts st) ->
  Forall (fun r => exists a, SOS.deref (SOS.step emergencyContact e st) r = Some a
                             /\ SOS.status a = SOS.active)
    (SOS.sosAlerts (SOS.step emergencyContact e st))
  /\ List.length (SOS.sosAlerts (SOS.step emergencyContact e st))
     = (List.length (SOS.sosAlerts st)
        + SOS.accepted [e] (SOS.symptomsInput st))%nat
  /\ SOS.symptomsInput (SOS.step emergencyContact e st)
     = match e with
       | SOS.TypeSymptoms text => text
       | SOS.Submit =>
           if isBlank (SOS.symptomsInput st) then SOS.symptomsInput st
           else EmptyString
       | _ => SOS.symptomsInput st
       end.
Proof.
  intros Hinv.
  assert (Hkeep : forall st',
             SOS.sosAlerts st' = SOS.sosAlerts st ->
             (forall r, (r < List.length (SOS.heap st))%nat ->
                        SOS.deref st' r = SOS.deref st r) ->
             Forall (fun r => exists a, SOS.deref st' r = Some a
                                        /\ SOS.status a = SOS.active)
               (SOS.sosAlerts st')).
  { intros st' Hl Hd. rewrite Hl. eapply Forall_impl; [| exact Hinv].
    cbn. intros r [a [Ha Hs]]. exists a. split; [| exact Hs].
    rewrite Hd; [exact Ha |].
    apply nth_error_Some. unfold SOS.deref in Ha. congruence. }
  destruct e as [| text | level | | |]; cbn.
  - split; [exact Hinv | split; [lia | reflexivity]].
  - split; [exact Hinv | split; [lia | reflexivity]].
  - split; [exact Hinv | split; [lia | reflexivity]].
  - destruct (isBlank (SOS.symptomsInput st)) eqn:Hb.
    + rewrite (SOS_submit_blank_state emergencyContact st Hb). cbn.
      split; [exact Hinv | split; [lia | reflexivity]].
    + destruct (SOS_submit_alert_state emergencyContact st Hb)
        as [r [a [Hl [Hd [Hs [_ [_ [_ [_ [_ [_ [Hold [Hsym _]]]]]]]]]]]]].
      rewrite Hl. split; [| split; [cbn; lia | exact Hsym]].
      constructor; [exists a; split; assumption |].
      eapply Forall_impl; [| exact Hinv].
      cbn. intros r' [a' [Ha' Hs']]. exists a'. split; [| exact Hs'].
      rewrite Hold; [exact Ha' |].
      apply nth_error_Some. unfold SOS.deref in Ha'. congruence.
  - destruct (SOS_replaceStatus_frame SOS.resolved
                (Toast.mk None "Alert Resolved"
                   "The emergency alert has been marked as resolved.") st)
      as [Hl [Hsym Hd]].
    unfold SOS.handleResolveAlert.
    split; [now apply Hkeep | split; [rewrite Hl; lia | exact Hsym]].
  - destruct (SOS_replaceStatus_frame SOS.escalated
                (Toast.mk None "Alert Escalated"
                   "The emergency alert has been escalated to emergency services.")
                st)
      as [Hl [Hsym Hd]].
    unfold SOS.handleEscalateAlert.
    split; [now apply Hkeep | split; [rewrite Hl; lia | exact Hsym]].
Qed.

Lemma SOS_accepted_cons (e : SOS.Event) (rest : list SOS.Event)
    (typed : string) :
  SOS.accepted (e :: rest) typed
  = (SOS.accepted [e] typed
     + SOS.accepted rest
         match e with
         | SOS.TypeSymptoms text => text
         | SOS.Submit => if isBlank typed then typed else EmptyString
         | _ => typed
         end)%nat.
Proof.
  destruct e; cbn; try reflexivity.
  destruct (isBlank typed); cbn; reflexivity.
Qed.

Lemma SOS_run_alerts (emergencyContact : option SOS.Contact) (events : list SOS.Event)
    (st : SOS.State) :
  Forall (fun r => exists a, SOS.deref st r = Some a
                             /\ SOS.status a = SOS.active) (SOS.sosAlerts st) ->
  Forall (fun r => exists a,
            SOS.deref (SOS.run emergencyContact events st) r = Some a
            /\ SOS.status a = SOS.active)
    (SOS.sosAlerts (SOS.run emergencyContact events st))
  /\ List.length (SOS.sosAlerts (SOS.run emergencyContact events st))
     = (List.length (SOS.sosAlerts st)
        + SOS.accepted events (SOS.symptomsInput st))%nat.
Proof.
  revert st. induction events as [|e rest IH]; intros st Hinv.
  - cbn. split; [exact Hinv | lia].
  - destruct (SOS_step_alerts emergencyContact e st Hinv) as [Hinv' [Hlen Hsym]].
    destruct (IH _ Hinv') as [Hfinal Hlen'].
    cbn [SOS.run]. split; [exact Hfinal |].
    rewrite Hlen', Hlen, Hsym, (SOS_accepted_cons e rest). lia.
Qed.

(** X18. Whatever is done with the SOS button, every alert the page holds is
    still active: resolving or escalating an alert changes the button's own
    copy only.  So the page's count of active alerts is the number of alerts
    it holds, which is the number of submissions made with symptoms, and it
    never goes down. *)
Theorem SOS_page_alerts_stay_active (emergencyContact : option SOS.Contact)
    (clock0 : nat -> Z) (events : list SOS.Event) :
  SOS.activeAlertCount (SOS.run emergencyContact events (SOS.initial clock0))
  = List.length (SOS.sosAlerts (SOS.run emergencyContact events (SOS.initial clock0)))
  /\ List.length
       (SOS.sosAlerts (SOS.run emergencyContact events (SOS.initial clock0)))
     = SOS.accepted events EmptyString
  /\ Forall (fun r => exists a,
               SOS.deref (SOS.run emergencyContact events (SOS.initial clock0)) r
               = Some a
               /\ SOS.status a = SOS.active)
       (SOS.sosAlerts (SOS.run emergencyContact events (SOS.initial clock0))).
Proof.
  destruct (SOS_run_alerts emergencyContact events (SOS.initial clock0))
    as [Hinv Hlen]; [constructor |].
  split; [| split; [exact Hlen | exact Hinv]].
  unfold SOS.activeAlertCount. f_equal. clear Hlen.
  induction Hinv as [|r l [a [Ha Hs]] Hl IH]; cbn; [reflexivity |].
  rewrite Ha, Hs. cbn. f_equal. exact IH.
Qed.

(** Symptoms made of a no-break space and a space are white space to [trim]:
    the submission is refused and the page holds no alert, while symptoms
    with a visible character between no-break spaces are sent. *)
Example SOS_noBreakSpaces_refused :
  SOS.accepted [SOS.Click; SOS.TypeSymptoms noBreakSpaces; SOS.Submit]
    EmptyString = 0%nat
  /\ SOS.sosAlerts
       (SOS.run None [SOS.Click; SOS.TypeSymptoms noBreakSpaces; SOS.Submit]
          (SOS.initial sampleClock)) = []
  /\ List.length
       (SOS.sosAlerts
          (SOS.run None
             [SOS.Click;
              SOS.TypeSymptoms (noBreakSpaces ++ "pain" ++ noBreakSpaces);
              SOS.Submit]
             (SOS.initial sampleClock))) = 1%nat.
Proof. repeat split; vm_compute; reflexivity. Qed.

(** X19. Resolving or escalating takes the card of the active alert off the
    screen and leaves the page's list of alerts as it is; without a current
    alert either button does nothing, not even a notification. *)
Theorem SOS_resolve_hides_card (st : SOS.State) :
  SOS.activeCardShown (SOS.handleResolveAlert st) = false
  /\ SOS.activeCardShown (SOS.handleEscalateAlert st) = false
  /\ SOS.sosAlerts (SOS.handleResolveAlert st) = SOS.sosAlerts st
  /\ SOS.sosAlerts (SOS.handleEscalateAlert st) = SOS.sosAlerts st
  /\ (SOS.currentAlert st = None ->
      SOS.handleResolveAlert st = st /\ SOS.handleEscalateAlert st = st).
Proof.
  unfold SOS.handleResolveAlert, SOS.handleEscalateAlert, SOS.replaceStatus,
    SOS.activeCardShown.
  destruct (SOS.currentAlert st) as [c|] eqn:Hc.
  - destruct (SOS.deref st c) as [a|] eqn:Ha; cbn.
    + unfold SOS.deref. cbn. rewrite !nth_error_last. cbn.
      repeat split; discriminate.
    + rewrite Hc, Ha. repeat split; discriminate.
  - rewrite Hc. repeat split.
Qed.

(** * Properties of the prescription analyzer *)

(** X20. Removing a medication removes every medication with that name, and
    only those: the others stay, in their order.  When no medication has the
    name the list is unchanged, yet the 'Medication Removed' notification is
    raised all the same.  The uploaded prescriptions are not touched. *)
Theorem Rx_removeMedication_by_name (medicationName : string) (st : Rx.State) :
  (forall m, In m (Rx.medications (Rx.removeMedication medicationName st))
             <-> In m (Rx.medications st)
                 /\ Medication.name m <> medicationName)
  /\ Rx.medications (Rx.removeMedication medicationName st)
     = filter (fun m => negb (String.eqb (Medication.name m) medicationName))
         (Rx.medications st)
  /\ ((forall m, In m (Rx.medications st) ->
                 Medication.name m <> medicationName) ->
      Rx.medications (Rx.removeMedication medicationName st)
      = Rx.medications st)
  /\ Rx.toasts (Rx.removeMedication medicationName st)
     = (Rx.toasts st ++ [Rx.medicationRemovedToast])%list
  /\ Rx.prescriptionImages (Rx.removeMedication medicationName st)
     = Rx.prescriptionImages st
  /\ Rx.removeMedication medicationName
       (Rx.removeMedication medicationName st)
     = Rx.toast Rx.medicationRemovedToast
         (Rx.removeMedication medicationName st).
Proof.
  cbn. split; [| split; [reflexivity | split; [| split; [reflexivity |
                                                 split; [reflexivity |]]]]].
  - intros m. rewrite filter_In, negb_true_iff, String.eqb_neq. reflexivity.
  - intros H. induction (Rx.medications st) as [|m l IH]; cbn; [reflexivity |].
    assert (Hm : Medication.name m <> medicationName)
      by (apply H; left; reflexivity).
    apply String.eqb_neq in Hm. rewrite Hm. cbn. f_equal.
    apply IH. intros m' Hin. apply H. now right.
  - unfold Rx.removeMedication, Rx.toast, Rx.handleMedicationsUpdate. cbn.
    f_equal. induction (Rx.medications st) as [|m l IH]; cbn; [reflexivity |].
    destruct (String.eqb (Medication.name m) medicationName) eqn:E; cbn;
      [exact IH |].
    rewrite E. cbn. f_equal. exact IH.
Qed.

Lemma Rx_removeMedication_by_name_witness :
  Rx.medications
    (Rx.removeMedication "Metformin"
       (Rx.handleImageUpload sampleDate (Some tenMegabytes)
          (Rx.handleImageUpload sampleDate (Some tenMegabytes)
             (Rx.initial sampleClock))))
  = filter (fun m => negb (String.eqb (Medication.name m) "Metformin"))
      (Rx.medications
         (Rx.handleImageUpload sampleDate (Some tenMegabytes)
            (Rx.handleImageUpload sampleDate (Some tenMegabytes)
               (Rx.initial sampleClock))))
  /\ map Medication.name
       (Rx.medications
          (Rx.removeMedication "Metformin"
             (Rx.handleImageUpload sampleDate (Some tenMegabytes)
                (Rx.handleImageUpload sampleDate (Some tenMegabytes)
                   (Rx.initial sampleClock)))))
     = ["Lisinopril"; "Lisinopril"].
Proof.
  destruct (Rx_removeMedication_by_name "Metformin"
              (Rx.handleImageUpload sampleDate (Some tenMegabytes)
                 (Rx.handleImageUpload sampleDate (Some tenMegabytes)
                    (Rx.initial sampleClock)))) as [_ [H _]].
  split; [exact H | rewrite H; reflexivity].
Defined.

Lemma map_replace_fresh (edited : Medication.t) (l : list Medication.t) :
  (forall m, In m l -> Medication.name m <> Medication.name edited) ->
  map (fun med =>
         if String.eqb (Medication.name med) (Medication.name edited)
         then edited else med) l
  = l.
Proof.
  intros H. induction l as [|m l IH]; cbn; [reflexivity |].
  assert (Hm : Medication.name m <> Medication.name edited)
    by (apply H; left; reflexivity).
  apply String.eqb_neq in Hm. rewrite Hm. f_equal.
  apply IH. intros m' Hin. apply H. now right.
Qed.

(** X21. Saving an edited medication looks the medication up by the name in
    the edit form.  After a change of the dosage, every medication with the
    name of the edited one becomes the edited one and the others are kept.
    After a change of the name to one that no medication of the list has,
    the list is left exactly as it was and the edit is lost, although the
    dialog closes and 'Medication Updated' is raised.  Without a medication
    being edited nothing happens. *)
Theorem Rx_saveMedicationEdit_by_name (st : Rx.State)
    (medication : Medication.t) (value : string) :
  (Rx.medications
     (Rx.saveMedicationEdit
        (Rx.editDosage value (Rx.editMedication medication st)))
   = map (fun med =>
            if String.eqb (Medication.name med) (Medication.name medication)
            then Medication.with_dosage medication value else med)
       (Rx.medications st))
  /\ ((forall m, In m (Rx.medications st) -> Medication.name m <> value) ->
      Rx.medications
        (Rx.saveMedicationEdit
           (Rx.editName value (Rx.editMedication medication st)))
      = Rx.medications st)
  /\ Rx.isEditing
       (Rx.saveMedicationEdit
          (Rx.editName value (Rx.editMedication medication st))) = false
  /\ Rx.editingMedication
       (Rx.saveMedicationEdit
          (Rx.editName value (Rx.editMedication medication st))) = None
  /\ Rx.toasts
       (Rx.saveMedicationEdit
          (Rx.editName value (Rx.editMedication medication st)))
     = (Rx.toasts st ++ [Rx.medicationUpdatedToast])%list
  /\ List.length
       (Rx.medications
          (Rx.saveMedicationEdit
             (Rx.editDosage value (Rx.editMedication medication st))))
     = List.length (Rx.medications st)
  /\ (Rx.editingMedication st = None -> Rx.saveMedicationEdit st = st).
Proof.
  split; [reflexivity |]. split.
  { intros H. cbn.
    apply (map_replace_fresh (Medication.with_name medication value)).
    exact H. }
  repeat (split; [reflexivity |]).
  split; [cbn; apply length_map |].
  intros H. unfold Rx.saveMedicationEdit. rewrite H. reflexivity.
Qed.

Lemma Rx_saveMedicationEdit_by_name_witness :
  Rx.medications
    (Rx.saveMedicationEdit
       (Rx.editName "Glucophage"
          (Rx.editMedication
             (Medication.mk "Metformin" "500mg" "Twice daily"
                (sampleDate (sampleClock 2)) None (Some "Dr. Smith")
                (Some "Take with meals"))
             (Rx.handleImageUpload sampleDate (Some tenMegabytes)
                (Rx.initial sampleClock)))))
  = Rx.medications
      (Rx.handleImageUpload sampleDate (Some tenMegabytes)
         (Rx.initial sampleClock)).
Proof.
  destruct (Rx_saveMedicationEdit_by_name
              (Rx.handleImageUpload sampleDate (Some tenMegabytes)
                 (Rx.initial sampleClock))
              (Medication.mk "Metformin" "500mg" "Twice daily"
                 (sampleDate (sampleClock 2)) None (Some "Dr. Smith")
                 (Some "Take with meals"))
              "Glucophage") as [_ [H _]].
  apply H. cbn. intros m [<- | [<- | []]]; discriminate.
Defined.

(** X22. Uploading a prescription.  Without a file nothing happens; a file
    of more than 10 MB only raises 'File too large'.  Any other file, whatever
    it is, adds the same two medications, Metformin and Lisinopril, after the
    ones already listed, so repeated uploads pile up duplicates; the picture
    is added last, marked 'Analyzed 2 medications', the analysis flag ends off
    and 'Analysis Complete' is raised. *)
Theorem Rx_handleImageUpload_cases (isoDate : Z -> string) (st : Rx.State) :
  Rx.handleImageUpload isoDate None st = st
  /\ (forall file,
        (10 * 1024 * 1024 < Rx.size file)%Z ->
        Rx.handleImageUpload isoDate (Some file) st
        = Rx.toast Rx.fileTooLargeToast st)
  /\ (forall file,
        (Rx.size file <= 10 * 1024 * 1024)%Z ->
        map Medication.name
          (Rx.medications (Rx.handleImageUpload isoDate (Some file) st))
        = (map Medication.name (Rx.medications st)
           ++ ["Metformin"; "Lisinopril"])%list
        /\ (exists added,
              Rx.medications (Rx.handleImageUpload isoDate (Some file) st)
              = (Rx.medications st ++ added)%list
              /\ List.length added = 2%nat)
        /\ (exists earlier picture,
              Rx.prescriptionImages
                (Rx.handleImageUpload isoDate (Some file) st)
              = (earlier ++ [picture])%list
              /\ List.length earlier = List.length (Rx.prescriptionImages st)
              /\ PrescriptionImage.imageUrl picture = Rx.objectURL file
              /\ PrescriptionImage.notes picture
                 = Some "Analyzed 2 medications"
              /\ option_map (map Medication.name)
                   (PrescriptionImage.analyzedMedications picture)
                 = Some ["Metformin"; "Lisinopril"])
        /\ Rx.isAnalyzing (Rx.handleImageUpload isoDate (Some file) st) = false
        /\ Rx.toasts (Rx.handleImageUpload isoDate (Some file) st)
           = (Rx.toasts st ++ [Rx.analysisCompleteToast])%list).
Proof.
  split; [reflexivity |]. split.
  - intros file Hbig. unfold Rx.handleImageUpload.
    destruct (Z.ltb_spec (10 * 1024 * 1024) (Rx.size file)); [reflexivity | lia].
  - intros file Hok. unfold Rx.handleImageUpload.
    destruct (Z.ltb_spec (10 * 1024 * 1024) (Rx.size file)); [lia |].
    cbn. split; [rewrite map_app; reflexivity |].
    split; [eexists; split; reflexivity |].
    split; [| split; reflexivity].
    rewrite map_app. cbn. rewrite String.eqb_refl.
    do 2 eexists. split; [reflexivity |].
    split; [apply length_map |]. repeat split.
Qed.

Lemma Rx_handleImageUpload_cases_witness :
  map Medication.name
    (Rx.medications
       (Rx.handleImageUpload sampleDate (Some tenMegabytes)
          (Rx.initial sampleClock)))
  = ["Metformin"; "Lisinopril"]
  /\ Rx.handleImageUpload sampleDate
       (Some (Rx.mkFile (10 * 1024 * 1024 + 1) "blob:big"))
       (Rx.initial sampleClock)
     = Rx.toast Rx.fileTooLargeToast (Rx.initial sampleClock).
Proof.
  destruct (Rx_handleImageUpload_cases sampleDate (Rx.initial sampleClock))
    as [_ [Hbig Hok]].
  split.
  - destruct (Hok tenMegabytes) as [H _]; [cbn; lia | exact H].
  - apply Hbig. cbn. lia.
Defined.

(** * Requests and feedback over a session *)

(** X23. What each event sends to the collaborator: a submission sends
    exactly one request, built from the question, the profile and the latest
    stored reading; saving the profile sends exactly one, built from the
    pending question and the saved profile, when a question is pending and
    none otherwise; nothing else sends any.  The request does not depend on
    how the call settles, and a failed call is never sent again. *)
Theorem step_requests (JSON_stringify : UserProfile.t -> string) (e : Event)
    (w : World) :
  requests (step JSON_stringify e w)
  = (requests w
     ++ match e with
        | SubmitQuestion question _ =>
            [buildInput question (userProfile w)
               (latestVitalsOf (vitalSigns w))]
        | SaveProfile newProfileData _ =>
            match lastUserQuestionForFollowUp w with
            | Some question =>
                if string_truthy question
                then [buildInput question newProfileData
                        (latestVitalsOf (vitalSigns w))]
                else []
            | None => []
            end
        | _ => []
        end)%list.
Proof.
  destruct e as [question outcome | newProfileData outcome | | messageId fb
                | value | parsed | ]; unfold step.
  - destruct (submit_frame w question outcome) as [_ [_ [Hr _]]]. exact Hr.
  - unfold exec, handleSaveProfile, bind, when, ret.
    destruct (lastUserQuestionForFollowUp w) as [q|]; cbn.
    + destruct (string_truthy q); cbn.
      * destruct outcome as [result|]; cbn; [| reflexivity].
        destruct (text_truthy (QAOutput.followUpQuestion result)); reflexivity.
      * destruct (negb _); cbn; now rewrite app_nil_r.
    + destruct (negb _); cbn; now rewrite app_nil_r.
  - unfold exec, handleCloseProfileModal, bind, when, ret. cbn.
    destruct (lastUserQuestionForFollowUp w) as [q|];
      destruct (currentAiFollowUpKey w) as [key|]; cbn;
      try now rewrite app_nil_r.
    destruct (string_truthy q); cbn; try now rewrite app_nil_r.
    destruct (negb _); cbn; now rewrite app_nil_r.
  - cbn. now rewrite app_nil_r.
  - cbn. now rewrite app_nil_r.
  - cbn. now rewrite app_nil_r.
  - unfold exec, manualEntry, handleManualEntry.
    destruct (manualVitals w (selectedVitalType w)) as [x|]; cbn;
      try now rewrite app_nil_r.
    destruct (number_truthy x); cbn; now rewrite app_nil_r.
Qed.

(** X24. Feedback given again on a message replaces the earlier feedback:
    rating a message twice leaves the message list as rating it once with the
    second value, and a rated message cannot go back to unrated. *)
Theorem handleFeedback_last_wins (w : World) (messageId : string)
    (first second : Feedback) :
  messages (exec (handleFeedback messageId second)
              (exec (handleFeedback messageId first) w))
  = messages (exec (handleFeedback messageId second) w)
  /\ forall m,
       In m (messages (exec (handleFeedback messageId second)
                         (exec (handleFeedback messageId first) w))) ->
       ChatMessage.id m = messageId ->
       ChatMessage.feedback m = Some second.
Proof.
  cbn. split.
  - rewrite map_map. apply map_ext. intros m.
    destruct (String.eqb (ChatMessage.id m) messageId) eqn:E; cbn; rewrite E;
      reflexivity.
  - intros m Hin Hid. rewrite map_map in Hin. apply in_map_iff in Hin.
    destruct Hin as [m0 [Hm _]]. subst m.
    destruct (String.eqb (ChatMessage.id m0) messageId) eqn:E; cbn in *.
    + rewrite E. reflexivity.
    + rewrite E in Hid. cbn in Hid. rewrite E in *.
      apply String.eqb_neq in E. contradiction.
Qed.
